(** * cursor-api-transformer: schema translation, model fallback and SSE relay

    A shallow embedding of the two proxies of the repository:
    [proxy.go] (OpenAI format to DeepSeek, module [DeepSeek]) and
    [proxy-poe.go] (Claude format to the POE OpenAI endpoint, module
    [Poe]), with the properties of the specification stated on them.

    Bodies on the wire are byte strings; [encoding/json] enters through a
    text codec ([JsonCodec]) that every definition takes as a parameter,
    and through the struct tags of the Go types, which are followed
    field by field on JSON trees. *)

From Stdlib Require Import String Ascii List ZArith Bool Lia.
From Stdlib Require Import DecimalString.
From Stdlib Require Import OrderedTypeEx Sorted Permutation Orders Mergesort.
From Equations Require Import Equations.
Import ListNotations.

Open Scope string_scope.

Set Warnings "-register-all".


(** ** Package strings *)

Module GoStrings.

Definition byte (n : nat) : ascii := ascii_of_nat n.

Definition bytes (l : list nat) : string :=
  string_of_list_ascii (map byte l).

Definition LF : string := String (byte 10) "".
Definition DQ : string := String (byte 34) "".

(** [cutPrefix s p] is [strings.CutPrefix]: the rest of [s] after [p]. *)
Fixpoint cutPrefix (s p : string) {struct p} : option string :=
  match p with
  | "" => Some s
  | String a p' =>
      match s with
      | "" => None
      | String b s' => if Ascii.eqb a b then cutPrefix s' p' else None
      end
  end.

Definition HasPrefix (s p : string) : bool :=
  match cutPrefix s p with Some _ => true | None => false end.

Definition TrimPrefix (s p : string) : string :=
  match cutPrefix s p with Some r => r | None => s end.

Fixpoint Contains (s sub : string) : bool :=
  HasPrefix s sub ||
  match s with
  | "" => false
  | String _ s' => Contains s' sub
  end.

(** [strings.ToLower], exact in the ASCII bytes of its result: ASCII
    capitals are lowered; U+0130 and U+212A, the two runes outside ASCII
    whose lower case is an ASCII letter, become [i] and [k]; every other
    byte is kept, where Go writes the lower case of a letter outside
    ASCII, again outside ASCII. *)
Definition lowerByte (c : ascii) : ascii :=
  let n := nat_of_ascii c in
  if (65 <=? n)%nat && (n <=? 90)%nat then ascii_of_nat (n + 32) else c.

Fixpoint ToLower (s : string) : string :=
  match s with
  | "" => ""
  | String c r =>
      match cutPrefix s (bytes [196; 176]), cutPrefix s (bytes [226; 132; 170]) with
      | Some _, _ => String "i" (match r with String _ r' => ToLower r' | "" => "" end)
      | _, Some _ =>
          String "k" (match r with
                      | String _ (String _ r') => ToLower r'
                      | _ => ""
                      end)
      | None, None => String (lowerByte c) (ToLower r)
      end
  end.

Fixpoint Join (elems : list string) (sep : string) : string :=
  match elems with
  | [] => ""
  | [x] => x
  | x :: rest => x ++ sep ++ Join rest sep
  end.

Fixpoint rev (s : string) : string :=
  match s with
  | "" => ""
  | String c s' => rev s' ++ String c ""
  end.

(** The UTF-8 encodings of the runes for which [unicode.IsSpace] holds:
    tab to carriage return, space, U+0085, U+00A0, U+1680,
    U+2000 to U+200A, U+2028, U+2029, U+202F, U+205F, U+3000. *)
Definition spaceRunes : list string :=
  map bytes
    [ [9]; [10]; [11]; [12]; [13]; [32];
      [194; 133]; [194; 160]; [225; 154; 128];
      [226; 128; 128]; [226; 128; 129]; [226; 128; 130]; [226; 128; 131];
      [226; 128; 132]; [226; 128; 133]; [226; 128; 134]; [226; 128; 135];
      [226; 128; 136]; [226; 128; 137]; [226; 128; 138];
      [226; 128; 168]; [226; 128; 169]; [226; 128; 175];
      [226; 129; 159]; [227; 128; 128] ].

Fixpoint cutFirst (ps : list string) (s : string) : option string :=
  match ps with
  | [] => None
  | p :: ps' =>
      match cutPrefix s p with
      | Some r => Some r
      | None => cutFirst ps' s
      end
  end.

(** Drop leading occurrences of the sequences [ps], at most [n] of them. *)
Fixpoint trimLeftN (ps : list string) (n : nat) (s : string) : string :=
  match n with
  | O => s
  | S n' =>
      match cutFirst ps s with
      | Some r => trimLeftN ps n' r
      | None => s
      end
  end.

Definition TrimLeftSpace (s : string) : string :=
  trimLeftN spaceRunes (String.length s) s.

(** Trailing runes are found from the end, so the reversed string is
    matched against the reversed encodings. *)
Definition TrimRightSpace (s : string) : string :=
  rev (trimLeftN (map rev spaceRunes) (String.length s) (rev s)).

Definition TrimSpace (s : string) : string :=
  TrimRightSpace (TrimLeftSpace s).

End GoStrings.

Import GoStrings.

(** ** Numbers as float64

    [json.Unmarshal] reads a number into an [interface{}] with
    [strconv.ParseFloat], and [json.Marshal] writes a float64 with the
    fewest digits that read back as the same float64. A float64 that is
    not zero is a sign, a mantissa [m] with [0 < m < 2 ^ 53] and an
    exponent [e] with [-1074 <= e <= 971], the value being [m * 2 ^ e];
    infinities and NaN do not occur. *)

Module Float64.
Local Open Scope Z_scope.

Definition digitOf (c : ascii) : option Z :=
  let n := Z.of_nat (nat_of_ascii c) in
  if (48 <=? n) && (n <=? 57) then Some (n - 48) else None.

(** The digits at the head of [s]: their value after [acc], how many
    they are, and what comes after them. *)
Fixpoint readDigits (s : string) (acc count : Z) : Z * Z * string :=
  match s with
  | String c r =>
      match digitOf c with
      | Some d => readDigits r (10 * acc + d) (count + 1)
      | None => (acc, count, s)
      end
  | EmptyString => (acc, count, s)
  end.

(** A number literal as sign, digits and power of ten. *)
Definition readNumber (lit : string) : option (bool * Z * Z) :=
  let (neg, s1) := match lit with
                   | String "-" r => (true, r)
                   | _ => (false, lit)
                   end in
  let '(ip, n1, s2) := readDigits s1 0 0 in
  if n1 =? 0 then None
  else
    let '(d, nf, s3) := match s2 with
                        | String "." r => readDigits r ip 0
                        | _ => (ip, 0, s2)
                        end in
    match s3 with
    | EmptyString => Some (neg, d, - nf)
    | String c r =>
        if Ascii.eqb c "e" || Ascii.eqb c "E" then
          let (eneg, r1) := match r with
                            | String "-" r' => (true, r')
                            | String "+" r' => (false, r')
                            | _ => (false, r)
                            end in
          let '(ev, ne, r2) := readDigits r1 0 0 in
          if (ne =? 0) || negb (String.eqb r2 "") then None
          else Some (neg, d, (if eneg then - ev else ev) - nf)
        else None
    end.

(** Nearest integer to [p / q], ties to even. *)
Definition roundHalfEven (p q : Z) : Z :=
  let (m, r) := Z.div_eucl p q in
  match 2 * r ?= q with
  | Lt => m
  | Eq => if Z.even m then m else m + 1
  | Gt => m + 1
  end.

(** [floor (log2 (p / q))] for positive [p] and [q]. *)
Definition floorLog2 (p q : Z) : Z :=
  let b := Z.log2 p - Z.log2 q in
  let above := if 0 <=? b then q * 2 ^ b <=? p else q <=? p * 2 ^ (- b) in
  if above then b else b - 1.

(** The float64 nearest to [p / q] as mantissa and exponent, the value
    being [m * 2 ^ e] with [m < 2 ^ 53] and [e >= -1074]; [None] beyond the
    largest float64. *)
Definition nearest (p q : Z) : option (Z * Z) :=
  let e := Z.max (floorLog2 p q - 52) (- 1074) in
  let m := if 0 <=? e then roundHalfEven p (q * 2 ^ e)
           else roundHalfEven (p * 2 ^ (- e)) q in
  let (m, e) := if m =? 2 ^ 53 then (2 ^ 52, e + 1) else (m, e) in
  if 971 <? e then None else Some (m, e).

Definition decimal (n : Z) : string := NilEmpty.string_of_uint (N.to_uint (Z.to_N n)).

Definition digitCount (d : Z) : Z := Z.of_nat (String.length (decimal d)).

(** [strconv.ParseFloat(lit, 64)]: sign, mantissa and exponent. *)
Definition ParseFloat (lit : string) : option (bool * Z * Z) :=
  match readNumber lit with
  | None => None
  | Some (neg, d, x) =>
      if d =? 0 then Some (neg, 0, 0)
      else
        let magnitude := x + digitCount d in
        if 310 <? magnitude then None
        else if magnitude <? - 330 then Some (neg, 0, 0)
        else
          match (if 0 <=? x then nearest (d * 10 ^ x) 1 else nearest d (10 ^ (- x))) with
          | Some (m, e) => Some (neg, m, e)
          | None => None
          end
  end.

(** The largest [k] for which [fits] holds, searched from a [k] for
    which it holds: [fits] is downward closed. *)
Fixpoint largest (fits : Z -> bool) (fuel : nat) (k : Z) : Z :=
  match fuel with
  | O => k
  | S fuel' => if fits (k + 1) then largest fits fuel' (k + 1) else k
  end.

(** The shortest decimal that reads back as [m * 2 ^ e], for [m > 0]:
    digits [c] and power of ten [k], the value written being
    [c * 10 ^ k]. *)
Definition shortest (m e : Z) : Z * Z :=
  let closer := (m =? 2 ^ 52) && (- 1074 <? e) in
  let e2 := e - 2 in
  let unit := if 0 <=? e2 then 2 ^ e2 else 5 ^ (- e2) in
  let x := if 0 <=? e2 then 0 else e2 in
  let d := 4 * m * unit in
  let upper := (4 * m + 2) * unit in
  let lower := (4 * m - (if closer then 1 else 2)) * unit in
  let inclusive := Z.even m in
  let okDown k := let t := 10 ^ k in
                  let down := d / t * t in
                  (lower <? down) || (inclusive && (lower =? down)) in
  let okUp k := let t := 10 ^ k in
                let up := d / t * t + t in
                (up <? upper) || (inclusive && (up =? upper)) in
  let k0 := Z.max 0 (Z.log2 d * 30103 / 100000 - 18) in
  let k := largest (fun k => okDown k || okUp k) 40 k0 in
  let t := 10 ^ k in
  let q := d / t in
  let r := d mod t in
  let c :=
    if okDown k && okUp k then
      match 2 * r ?= t with
      | Lt => q
      | Eq => if Z.even q then q else q + 1
      | Gt => q + 1
      end
    else if okDown k then q else q + 1 in
  (c, k + x).

Fixpoint zeros (n : nat) : string :=
  match n with O => "" | S n' => String "0" (zeros n') end.

Fixpoint stripZeros (c k : Z) (fuel : nat) : Z * Z :=
  match fuel with
  | O => (c, k)
  | S fuel' => if (c mod 10 =? 0) && negb (c =? 0) then stripZeros (c / 10) (k + 1) fuel' else (c, k)
  end.

(** The float64 encoder of [encoding/json]: format [f] when the value is
    in [1e-6, 1e21), format [e] otherwise, with the fewest digits that
    read back as the same float64. *)
Definition format (neg : bool) (m e : Z) : string :=
  let sign := if neg then "-" else "" in
  if m =? 0 then sign ++ "0"
  else
    let (c, k) := shortest m e in
    let (c, k) := stripZeros c k 30 in
    let ds := decimal c in
    let n := Z.of_nat (String.length ds) in
    let dp := n + k in
    let ex := dp - 1 in
    if (ex <? - 6) || (21 <=? ex) then
      sign ++ substring 0 1 ds
           ++ (if 1 <? n then "." ++ substring 1 (String.length ds - 1) ds else "")
           ++ "e" ++ (if ex <? 0 then "-" else "+") ++ decimal (Z.abs ex)
    else if dp <=? 0 then sign ++ "0." ++ zeros (Z.to_nat (- dp)) ++ ds
    else if dp <? n then
      sign ++ substring 0 (Z.to_nat dp) ds ++ "."
           ++ substring (Z.to_nat dp) (String.length ds - Z.to_nat dp) ds
    else sign ++ ds ++ zeros (Z.to_nat (dp - n)).

(** A number literal as [json.Marshal] writes the float64 that
    [json.Unmarshal] reads it as; [None] when the literal is out of
    range. *)
Definition respell (lit : string) : option string :=
  match ParseFloat lit with
  | Some (neg, m, e) => Some (format neg m e)
  | None => None
  end.

End Float64.

(** ** Package encoding/json *)

Module Json.

(** A JSON text as a tree. Number literals are kept as written; object
    members are kept in the order of the text, repeated keys included.
    The same trees stand for Go values on their way to [json.Marshal]:
    there a number literal is what the encoder writes for the float64. *)
Inductive value : Type :=
| JNull
| JBool (b : bool)
| JNum (lit : string)
| JStr (s : string)
| JArr (items : list value)
| JObj (members : list (string * value)).

(** The text layer of [json.Unmarshal] and [json.Marshal]: the tree of a
    byte string, [None] where [json.Unmarshal] reports that the bytes are
    not one JSON text, and the bytes written for a tree, [None] where
    [json.Marshal] reports an error. *)
Class JsonCodec : Type := {
  jsonParse : string -> option value;
  jsonPrint : value -> option string
}.

(** A Go [map[string]interface{}]: members sorted by key, each key once,
    which is also the order [json.Marshal] writes a map in. *)
Definition gomap : Type := list (string * value).

(** [m[k] = v] *)
Fixpoint mapStore (m : gomap) (k : string) (v : value) : gomap :=
  match m with
  | [] => [(k, v)]
  | (k', v') :: m' =>
      match String.compare k k' with
      | Lt => (k, v) :: m
      | Eq => (k, v) :: m'
      | Gt => (k', v') :: mapStore m' k v
      end
  end.

(** [m[k]], [None] for a missing key (the nil interface). *)
Fixpoint mapIndex (m : gomap) (k : string) : option value :=
  match m with
  | [] => None
  | (k', v') :: m' => if String.eqb k k' then Some v' else mapIndex m' k
  end.

(** The [interface{}] value [json.Unmarshal] builds from a tree: every
    number becomes a float64, every object a map, a later member
    replacing an earlier one of the same key. [None] is the error that
    [json.Unmarshal] returns after the whole text was read, when a number
    is beyond the range of float64. [storeMembers] stores the members of
    an object into a map that may hold members already. *)
Fixpoint goValue (v : value) : option value :=
  match v with
  | JNum lit => option_map JNum (Float64.respell lit)
  | JArr items =>
      option_map JArr
        ((fix each (l : list value) : option (list value) :=
            match l with
            | [] => Some []
            | x :: rest =>
                match goValue x, each rest with
                | Some y, Some ys => Some (y :: ys)
                | _, _ => None
                end
            end) items)
  | JObj members =>
      option_map JObj
        ((fix store (l : list (string * value)) (m : gomap) : option gomap :=
            match l with
            | [] => Some m
            | (k, x) :: rest =>
                match goValue x with
                | Some y => store rest (mapStore m k y)
                | None => None
                end
            end) members [])
  | _ => Some v
  end.

Fixpoint storeMembers (members : list (string * value)) (m : gomap) : option gomap :=
  match members with
  | [] => Some m
  | (k, x) :: rest =>
      match goValue x with
      | Some y => storeMembers rest (mapStore m k y)
      | None => None
      end
  end.

Definition goMap (members : list (string * value)) : option gomap :=
  storeMembers members [].

(** Type assertions [x.(string)], [x.([]interface{})],
    [x.(map[string]interface{})] on an optional interface value. *)
Definition assertString (x : option value) : option string :=
  match x with Some (JStr s) => Some s | _ => None end.

Definition assertSlice (x : option value) : option (list value) :=
  match x with Some (JArr l) => Some l | _ => None end.

Definition assertMap (x : option value) : option gomap :=
  match x with Some (JObj m) => Some m | _ => None end.

(** *** Decoding into Go types

    A decoder takes the tree and the current Go value and returns the new
    Go value, or [None] when [json.Unmarshal] reports an error. JSON null
    leaves strings, numbers, booleans and structs as they are. *)
Definition decoder (T : Type) : Type := value -> T -> option T.

Definition decString : decoder string :=
  fun v cur =>
    match v with
    | JStr s => Some s
    | JNull => Some cur
    | _ => None
    end.

Definition decBool : decoder bool :=
  fun v cur =>
    match v with
    | JBool b => Some b
    | JNull => Some cur
    | _ => None
    end.

Definition int64Min : Z := - 2 ^ 63.
Definition int64Max : Z := 2 ^ 63 - 1.

(** [int] and [int64]: the literal has to be an integer in range. *)
Definition decInt : decoder Z :=
  fun v cur =>
    match v with
    | JNum lit =>
        match NilEmpty.int_of_string lit with
        | Some d =>
            let z := Z.of_int d in
            if (int64Min <=? z)%Z && (z <=? int64Max)%Z then Some z else None
        | None => None
        end
    | JNull => Some cur
    | _ => None
    end.

(** [interface{}]: any tree, null giving nil. *)
Definition decAny : decoder (option value) :=
  fun v _ =>
    match v with
    | JNull => Some None
    | _ => option_map Some (goValue v)
    end.

(** [json.RawMessage]: the text itself, null included. *)
Definition decRaw : decoder (option value) :=
  fun v _ => Some (Some v).

(** [map[string]interface{}]: members are stored into the current map. *)
Definition decMap : decoder (option gomap) :=
  fun v cur =>
    match v with
    | JObj members =>
        option_map Some
          (storeMembers members (match cur with Some m => m | None => [] end))
    | JNull => Some None
    | _ => None
    end.

Fixpoint decItems {T : Type} (dec : decoder T) (zero : T) (items : list value)
  : option (list T) :=
  match items with
  | [] => Some []
  | x :: rest =>
      match dec x zero, decItems dec zero rest with
      | Some t, Some ts => Some (t :: ts)
      | _, _ => None
      end
  end.

(** A slice, decoded into a nil slice or replacing the current one. *)
Definition decSlice {T : Type} (dec : decoder T) (zero : T) : decoder (list T) :=
  fun v _ =>
    match v with
    | JArr items => decItems dec zero items
    | JNull => Some []
    | _ => None
    end.

(** The key a struct field is matched by: ASCII letters in upper case,
    and the two runes that fold to ASCII letters, U+017F to S and
    U+212A to K. *)
Definition upperByte (c : ascii) : ascii :=
  let n := nat_of_ascii c in
  if (97 <=? n)%nat && (n <=? 122)%nat then ascii_of_nat (n - 32) else c.

Fixpoint foldName (s : string) : string :=
  match s with
  | "" => ""
  | String c r =>
      match cutPrefix s (bytes [197; 191]), cutPrefix s (bytes [226; 132; 170]) with
      | Some _, _ => String "S" (match r with String _ r' => foldName r' | "" => "" end)
      | _, Some _ =>
          String "K" (match r with
                      | String _ (String _ r') => foldName r'
                      | _ => ""
                      end)
      | None, None => String (upperByte c) (foldName r)
      end
  end.

(** A struct: [field name v s] decodes [v] into the field of [s] that the
    folded key [name] selects, and is [Some s] for a key of no field. *)
Fixpoint decMembers {S : Type} (field : string -> value -> S -> option S)
    (members : list (string * value)) (s : S) : option S :=
  match members with
  | [] => Some s
  | (k, v) :: rest =>
      match field (foldName k) v s with
      | Some s' => decMembers field rest s'
      | None => None
      end
  end.

Definition decStruct {S : Type} (field : string -> value -> S -> option S)
  : decoder S :=
  fun v cur =>
    match v with
    | JObj members => decMembers field members cur
    | JNull => Some cur
    | _ => None
    end.

Definition encInt (z : Z) : value := JNum (NilEmpty.string_of_int (Z.to_int z)).

End Json.

Import Json.

(** ** Package net/http, as far as the handlers use it *)

Module Http.

Definition header : Type := list (string * list string).

Fixpoint headerStore (h : header) (k : string) (vs : list string) : header :=
  match h with
  | [] => [(k, vs)]
  | (k', vs') :: h' =>
      if String.eqb k k' then (k, vs) :: h' else (k', vs') :: headerStore h' k vs
  end.

Fixpoint headerGet (h : header) (k : string) : string :=
  match h with
  | [] => ""
  | (k', vs) :: h' =>
      if String.eqb k k' then hd "" vs else headerGet h' k
  end.

(** The inbound body as the handler meets it: [io.ReadAll] may fail, and
    [json.Unmarshal] into the request struct of type [R] may fail. *)
Inductive inbound (R : Type) : Type :=
| ReadFails
| InvalidJSON
| Decoded (req : R).
Arguments ReadFails {R}.
Arguments InvalidJSON {R}.
Arguments Decoded {R} req.

Record Request (R : Type) : Type := {
  Method : string;
  URLPath : string;
  RawQuery : string;
  ReqHeader : header;
  ReqBody : inbound R
}.
Arguments Method {R} _.
Arguments URLPath {R} _.
Arguments RawQuery {R} _.
Arguments ReqHeader {R} _.
Arguments ReqBody {R} _.

(** An upstream response: the body is a byte stream that ends at EOF or,
    when [BodyBreaks], with a transport error after [Body]. *)
Record Response : Type := {
  StatusCode : Z;
  RespHeader : header;
  Body : string;
  BodyBreaks : bool
}.

Definition ReadAll (resp : Response) : option string :=
  if BodyBreaks resp then None else Some (Body resp).

(** The [http.ResponseWriter] of the server (Go 1.19 and later), as the
    handler drives it: the header map; the status of the response header
    once it is written; the codes of the informational responses sent
    before it; and the bytes handed to [Write], in order. How the server
    frames these bytes on the wire, and that it sends none of them for a
    HEAD request or with a status that has no body, is below this
    model. *)
Record ResponseWriter : Type := {
  Header : header;
  Status : option Z;
  Interim : list Z;
  Out : string
}.

Definition newWriter : ResponseWriter :=
  {| Header := []; Status := None; Interim := []; Out := "" |}.

Definition SetHeader (k v : string) (w : ResponseWriter) : ResponseWriter :=
  {| Header := headerStore (Header w) k [v]; Status := Status w;
     Interim := Interim w; Out := Out w |}.

Definition StoreHeader (k : string) (vs : list string) (w : ResponseWriter)
  : ResponseWriter :=
  {| Header := headerStore (Header w) k vs; Status := Status w;
     Interim := Interim w; Out := Out w |}.

(** How a handler, or a call it makes, ends: it returns, or it panics and
    the server drops the connection with what was written so far. *)
Inductive outcome : Type :=
| Returned (w : ResponseWriter)
| Panicked (w : ResponseWriter).

Definition written (o : outcome) : ResponseWriter :=
  match o with Returned w => w | Panicked w => w end.

(** The statements after a call that may panic. *)
Definition andThen (o : outcome) (k : ResponseWriter -> outcome) : outcome :=
  match o with
  | Returned w => k w
  | Panicked w => Panicked w
  end.

(** [checkWriteHeaderCode] accepts the codes of three digits. *)
Definition checkWriteHeaderCode (code : Z) : bool :=
  (100 <=? code)%Z && (code <=? 999)%Z.

(** The codes of informational responses; 101 is a final status. *)
Definition informational (code : Z) : bool :=
  (100 <=? code)%Z && (code <=? 199)%Z && negb (code =? 101)%Z.

(** [WriteHeader]: a call after the header was written is ignored,
    whatever the code; an invalid code panics; an informational code
    sends an interim response and leaves the header to be written. *)
Definition WriteHeader (code : Z) (w : ResponseWriter) : outcome :=
  match Status w with
  | Some _ => Returned w
  | None =>
      if negb (checkWriteHeaderCode code) then Panicked w
      else if informational code then
        Returned {| Header := Header w; Status := None;
                    Interim := (Interim w ++ [code])%list; Out := Out w |}
      else
        Returned {| Header := Header w; Status := Some code;
                    Interim := Interim w; Out := Out w |}
  end.

Definition StatusOK : Z := 200.

(** [Write] writes the header with the status 200 when none was written. *)
Definition Write (b : string) (w : ResponseWriter) : ResponseWriter :=
  let w' := written (WriteHeader StatusOK w) in
  {| Header := Header w'; Status := Status w'; Interim := Interim w';
     Out := Out w' ++ b |}.

(** [http.Error]: the two headers, the status, the message and a newline.
    Recent versions of Go also delete [Content-Length] and the headers
    of a cached entity, none of which a handler sets before the call. *)
Definition Error (msg : string) (code : Z) (w : ResponseWriter) : outcome :=
  andThen
    (WriteHeader code
       (SetHeader "X-Content-Type-Options" "nosniff"
          (SetHeader "Content-Type" "text/plain; charset=utf-8" w)))
    (fun w => Returned (Write (msg ++ LF) w)).

(** The status the client sees when the handler returns: 200 when it
    wrote none. *)
Definition statusSent (w : ResponseWriter) : Z :=
  match Status w with Some c => c | None => StatusOK end.

Definition StatusBadRequest : Z := 400.
Definition StatusUnauthorized : Z := 401.
Definition StatusNotFound : Z := 404.
Definition StatusUnprocessableEntity : Z := 422.
Definition StatusInternalServerError : Z := 500.
Definition StatusBadGateway : Z := 502.

End Http.

Import Http.

(** ** The stream relay

    [handleStreamingResponse] has the same loop in both proxies. *)

Module Relay.

(** [bufio.Reader.ReadBytes] with the newline delimiter on the bytes left
    to read: the line with its delimiter and the rest, or what is left
    without a rest when no delimiter comes before the end. *)
Fixpoint ReadBytes (r : string) : string * option string :=
  match r with
  | "" => ("", None)
  | String c r' =>
      if Ascii.eqb c (byte 10) then (String c "", Some r')
      else let (line, rest) := ReadBytes r' in (String c line, rest)
  end.

Lemma ReadBytes_shorter r line rest :
  ReadBytes r = (line, Some rest) -> (String.length rest < String.length r)%nat.
Proof.
  revert line rest. induction r as [|c r IH]; simpl; intros line rest H.
  - discriminate.
  - destruct (Ascii.eqb c (byte 10)).
    + inversion H; subst. lia.
    + destruct (ReadBytes r) as [l [r0|]] eqn:E; inversion H; subst.
      specialize (IH _ _ eq_refl). lia.
Qed.

Definition inspect {A : Type} (a : A) : {b : A | a = b} := exist _ a eq_refl.

(** What one turn of the loop does after a line was read. *)
Inductive turn : Type :=
| Continue (w : ResponseWriter)
| Break (w : ResponseWriter)
| Panic (w : ResponseWriter).

Section WithCodec.
Context {codec : JsonCodec}.

(** [json.Unmarshal(data, &chunk)] for [chunk map[string]interface{}]:
    [None] is an error, [Some None] the nil map that JSON null leaves. *)
Definition unmarshalChunk (data : string) : option (option gomap) :=
  match jsonParse data with
  | Some (JObj members) => option_map Some (goMap members)
  | Some JNull => Some None
  | _ => None
  end.

Definition relayLine (originalModel : string) (line : string)
    (w : ResponseWriter) : turn :=
  if (String.length (TrimSpace line) =? 0)%nat then
    Continue (Write line w)
  else if HasPrefix line "data: " then
    let data := TrimSpace (TrimPrefix line "data: ") in
    if String.eqb data "[DONE]" then
      Break (Write ("data: [DONE]" ++ LF ++ LF) w)
    else
      match unmarshalChunk data with
      | Some (Some chunk) =>
          match jsonPrint (JObj (mapStore chunk "model" (JStr originalModel))) with
          | Some modifiedData =>
              Continue (Write (LF ++ LF) (Write modifiedData (Write "data: " w)))
          | None => Continue (Write line w)
          end
      | Some None => Panic w
      | None => Continue (Write line w)
      end
  else
    Continue (Write line w).

(** The [for] loop over the reader. A read that ends without a newline
    leaves the loop, by [break] at EOF and by [return] on another error;
    what was read of that last line is not written. *)
Equations? relayLoop (originalModel : string) (r : string) (w : ResponseWriter)
  : outcome by wf (String.length r) lt :=
  relayLoop originalModel r w with inspect (ReadBytes r) := {
    | exist _ (line, None) _ => Returned w
    | exist _ (line, Some rest) E =>
        match relayLine originalModel line w with
        | Continue w' => relayLoop originalModel rest w'
        | Break w' => Returned w'
        | Panic w' => Panicked w'
        end
  }.
Proof. eapply ReadBytes_shorter; eauto. Qed.

(** The function around the loop: the headers of an event stream, the
    status of the upstream response, then the loop. [Flush] comes after a
    [Write] in every turn and adds nothing to the writer. *)
Definition relay (resp : Response) (originalModel : string) (w : ResponseWriter)
  : outcome :=
  andThen
    (WriteHeader (StatusCode resp)
       (SetHeader "Connection" "keep-alive"
          (SetHeader "Cache-Control" "no-cache"
             (SetHeader "Content-Type" "text/event-stream" w))))
    (relayLoop originalModel (Body resp)).

End WithCodec.

End Relay.

(** ** The upstream: [http.Client.Do] and the clock

    [client.Do] and the clock are the effects of the handlers besides the
    writes to the [ResponseWriter]. The world holds the readings the clock
    is going to give, [Clock s n] being the reading after [n] others, the
    results the transport is going to give, in order, and the requests
    sent so far. [B] is the type of the
    request body, kept as the struct that [json.Marshal] encoded. *)

Module Upstream.

Inductive doResult : Type :=
| DoError
| DoResponse (resp : Response).

Record ProxyRequest (B : Type) : Type := {
  PMethod : string;
  PURL : string;
  PHeader : header;
  PBody : B
}.
Arguments PMethod {B} _.
Arguments PURL {B} _.
Arguments PHeader {B} _.
Arguments PBody {B} _.

Record World (B : Type) : Type := {
  Clock : nat -> Z;
  Script : list doResult;
  Sent : list (ProxyRequest B)
}.
Arguments Clock {B} _.
Arguments Script {B} _.
Arguments Sent {B} _.

Definition M (B A : Type) : Type := World B -> A * World B.

Definition ret {B A : Type} (a : A) : M B A := fun s => (a, s).

Definition bind {B A C : Type} (m : M B A) (k : A -> M B C) : M B C :=
  fun s => let (a, s') := m s in k a s'.

(** [client.Do]: the request goes out, the next scripted result comes
    back; a transport with nothing left to give fails. *)
Definition clientDo {B : Type} (req : ProxyRequest B) : M B doResult :=
  fun s =>
    match Script s with
    | [] => (DoError, {| Clock := Clock s; Script := []; Sent := (Sent s ++ [req])%list |})
    | r :: rest => (r, {| Clock := Clock s; Script := rest; Sent := (Sent s ++ [req])%list |})
    end.

(** [time.Now().Unix()]: the clock is read, and the next reading is the
    one after. *)
Definition timeNow {B : Type} : M B Z :=
  fun s => (Clock s O,
            {| Clock := fun n => Clock s (S n); Script := Script s; Sent := Sent s |}).

(** [http.Header.Add] *)
Fixpoint headerAdd (h : header) (k v : string) : header :=
  match h with
  | [] => [(k, [v])]
  | (k', vs) :: h' =>
      if String.eqb k k' then (k', (vs ++ [v])%list) :: h' else (k', vs) :: headerAdd h' k v
  end.

(** What the handlers take from the platform: the decompressors of
    [readResponse] and whether [http.NewRequest] accepts a method and
    a URL. *)
Class Platform : Type := {
  gunzip : string -> option string;
  unbrotli : string -> option string;
  inflate : string -> option string;
  newRequestOK : string -> string -> bool
}.

(** [readResponse]: the body, decompressed by [Content-Encoding]. *)
Definition readResponse {platform : Platform} (resp : Response) : option string :=
  match ReadAll resp with
  | None => None
  | Some raw =>
      let enc := headerGet (RespHeader resp) "Content-Encoding" in
      if String.eqb enc "gzip" then gunzip raw
      else if String.eqb enc "br" then unbrotli raw
      else if String.eqb enc "deflate" then inflate raw
      else Some raw
  end.

(** [enableCors] *)
Definition enableCors (w : ResponseWriter) : ResponseWriter :=
  SetHeader "Access-Control-Allow-Credentials" "true"
    (SetHeader "Access-Control-Expose-Headers" "Content-Length"
       (SetHeader "Access-Control-Allow-Headers"
                  "Origin, Content-Type, Accept, Authorization"
          (SetHeader "Access-Control-Allow-Methods" "POST, GET, OPTIONS"
             (SetHeader "Access-Control-Allow-Origin" "*" w)))).

End Upstream.

Import Upstream.

Declare Scope upstream_scope.
Delimit Scope upstream_scope with upstream.
Notation "x <- m ;; k" := (bind m (fun x => k))
  (at level 61, m at next level, right associativity) : upstream_scope.

(** ** proxy.go: OpenAI format to DeepSeek *)

Module DeepSeek.

Definition deepseekEndpoint : string := "https://api.deepseek.com".
Definition deepseekBetaEndpoint : string := "https://api.deepseek.com/beta".
Definition deepseekChatModel : string := "deepseek-chat".
Definition deepseekCoderModel : string := "deepseek-coder".
Definition deepseekReasonerModel : string := "deepseek-reasoner".

(** A [float64] is only copied from request to request: its bits. *)
Definition float64 : Type := Z.

Module Config.
Record t : Type := { endpoint : string; model : string }.
End Config.

(** The loop of [init] over [os.Args]: an argument [-model] that has an
    argument after it sets the flag to that argument. *)
Fixpoint modelFlagOf (args : list string) (modelFlag : string) : string :=
  match args with
  | [] => modelFlag
  | arg :: rest =>
      modelFlagOf rest
        (match rest with
         | next :: _ => if String.eqb arg "-model" then next else modelFlag
         | [] => modelFlag
         end)
  end.

(** [init]: [deepseekAPIKey] from the environment, as [godotenv.Load]
    leaves it, and [activeConfig] from the command line. *)
Definition init (getenv : string -> string) (args : list string)
  : string * Config.t :=
  let deepseekAPIKey := getenv "DEEPSEEK_API_KEY" in
  let modelFlag := modelFlagOf args "chat" in
  (deepseekAPIKey,
   if String.eqb modelFlag "coder" then
     {| Config.endpoint := deepseekBetaEndpoint; Config.model := deepseekCoderModel |}
   else if String.eqb modelFlag "chat" then
     {| Config.endpoint := deepseekEndpoint; Config.model := deepseekChatModel |}
   else
     {| Config.endpoint := deepseekEndpoint; Config.model := deepseekChatModel |}).

(** The anonymous struct of [ToolCall.Function]. *)
Module FunctionCall.
Record t : Type := { Name : string; Arguments : string }.
Definition zero : t := {| Name := ""; Arguments := "" |}.
Definition field (name : string) (v : value) (s : t) : option t :=
  if String.eqb name "NAME" then
    option_map (fun x => {| Name := x; Arguments := Arguments s |})
               (decString v (Name s))
  else if String.eqb name "ARGUMENTS" then
    option_map (fun x => {| Name := Name s; Arguments := x |})
               (decString v (Arguments s))
  else Some s.
Definition encode (s : t) : value :=
  JObj [("name", JStr (Name s)); ("arguments", JStr (Arguments s))].
End FunctionCall.

Module ToolCall.
Record t : Type := { ID : string; Type_ : string; Function : FunctionCall.t }.
Definition zero : t := {| ID := ""; Type_ := ""; Function := FunctionCall.zero |}.
Definition field (name : string) (v : value) (s : t) : option t :=
  if String.eqb name "ID" then
    option_map (fun x => {| ID := x; Type_ := Type_ s; Function := Function s |})
               (decString v (ID s))
  else if String.eqb name "TYPE" then
    option_map (fun x => {| ID := ID s; Type_ := x; Function := Function s |})
               (decString v (Type_ s))
  else if String.eqb name "FUNCTION" then
    option_map (fun x => {| ID := ID s; Type_ := Type_ s; Function := x |})
               (decStruct FunctionCall.field v (Function s))
  else Some s.
Definition encode (s : t) : value :=
  JObj [("id", JStr (ID s)); ("type", JStr (Type_ s));
        ("function", FunctionCall.encode (Function s))].
End ToolCall.

(** [ContentPart]: a part of multimodal content. *)
Module ContentPart.
Record t : Type := { Type_ : string; Text : string }.
Definition zero : t := {| Type_ := ""; Text := "" |}.
Definition field (name : string) (v : value) (s : t) : option t :=
  if String.eqb name "TYPE" then
    option_map (fun x => {| Type_ := x; Text := Text s |}) (decString v (Type_ s))
  else if String.eqb name "TEXT" then
    option_map (fun x => {| Type_ := Type_ s; Text := x |}) (decString v (Text s))
  else Some s.
End ContentPart.

Module Message.
(** [Content] is a [json.RawMessage]: [None] is nil, [Some v] the JSON
    text [v]. *)
Record t : Type := {
  Role : string;
  Content : option value;
  ToolCalls : list ToolCall.t;
  ToolCallID : string;
  Name : string
}.
Definition zero : t :=
  {| Role := ""; Content := None; ToolCalls := []; ToolCallID := ""; Name := "" |}.

Definition field (name : string) (v : value) (s : t) : option t :=
  if String.eqb name "ROLE" then
    option_map (fun x => {| Role := x; Content := Content s; ToolCalls := ToolCalls s;
                            ToolCallID := ToolCallID s; Name := Name s |})
               (decString v (Role s))
  else if String.eqb name "CONTENT" then
    option_map (fun x => {| Role := Role s; Content := x; ToolCalls := ToolCalls s;
                            ToolCallID := ToolCallID s; Name := Name s |})
               (decRaw v (Content s))
  else if String.eqb name "TOOL_CALLS" then
    option_map (fun x => {| Role := Role s; Content := Content s; ToolCalls := x;
                            ToolCallID := ToolCallID s; Name := Name s |})
               (decSlice (decStruct ToolCall.field) ToolCall.zero v (ToolCalls s))
  else if String.eqb name "TOOL_CALL_ID" then
    option_map (fun x => {| Role := Role s; Content := Content s; ToolCalls := ToolCalls s;
                            ToolCallID := x; Name := Name s |})
               (decString v (ToolCallID s))
  else if String.eqb name "NAME" then
    option_map (fun x => {| Role := Role s; Content := Content s; ToolCalls := ToolCalls s;
                            ToolCallID := ToolCallID s; Name := x |})
               (decString v (Name s))
  else Some s.

(** [json.Marshal]: every field but [role] has [omitempty]. *)
Definition encode (s : t) : value :=
  JObj ([("role", JStr (Role s))]
        ++ match Content s with Some c => [("content", c)] | None => [] end
        ++ match ToolCalls s with
           | [] => []
           | tcs => [("tool_calls", JArr (map ToolCall.encode tcs))]
           end
        ++ (if String.eqb (ToolCallID s) "" then []
            else [("tool_call_id", JStr (ToolCallID s))])
        ++ (if String.eqb (Name s) "" then [] else [("name", JStr (Name s))])).

(** [GetContentString] extracts text content from [Content]: a string
    as it is, an array of parts as its text parts joined by newlines. *)
Definition GetContentString (m : t) : string :=
  match Content m with
  | None => ""
  | Some raw =>
      match decString raw "" with
      | Some strContent => strContent
      | None =>
          match decSlice (decStruct ContentPart.field) ContentPart.zero raw [] with
          | Some parts =>
              Join (map ContentPart.Text
                      (filter (fun part =>
                                 String.eqb (ContentPart.Type_ part) "text"
                                 && negb (String.eqb (ContentPart.Text part) ""))
                              parts))
                   LF
          | None => ""
          end
      end
  end.

Definition SetContentString (m : t) (content : string) : t :=
  {| Role := Role m; Content := Some (JStr content); ToolCalls := ToolCalls m;
     ToolCallID := ToolCallID m; Name := Name m |}.
End Message.

Module Function_.
Record t : Type := {
  Name : string;
  Description : string;
  Parameters : option value
}.
End Function_.

Module Tool.
Record t : Type := { Type_ : string; Function : Function_.t }.
End Tool.

(** The OpenAI compatible request. *)
Module ChatRequest.
Record t : Type := {
  Model : string;
  Messages : list Message.t;
  Stream : bool;
  Functions : list Function_.t;
  Tools : list Tool.t;
  ToolChoice : option value;
  Temperature : option float64;
  MaxTokens : option Z
}.
End ChatRequest.

Module DeepSeekRequest.
Record t : Type := {
  Model : string;
  Messages : list Message.t;
  Stream : bool;
  Temperature : float64;
  MaxTokens : Z;
  Tools : list Tool.t;
  ToolChoice : string
}.
Definition withModel (r : t) (m : string) : t :=
  {| Model := m; Messages := Messages r; Stream := Stream r;
     Temperature := Temperature r; MaxTokens := MaxTokens r;
     Tools := Tools r; ToolChoice := ToolChoice r |}.
End DeepSeekRequest.

(** [convertToolChoice]: the empty string stands for no tool choice, and
    the [omitempty] tag of [DeepSeekRequest.ToolChoice] leaves it out. *)
Definition convertToolChoice (choice : option value) : string :=
  match choice with
  | None => ""
  | Some (JStr str) =>
      if String.eqb str "auto" || String.eqb str "none" then str else ""
  | Some (JObj choiceMap) =>
      match mapIndex choiceMap "type" with
      | Some (JStr t) => if String.eqb t "function" then "auto" else ""
      | _ => ""
      end
  | Some _ => ""
  end.

Definition convertMessage (msg : Message.t) : Message.t :=
  let contentStr := Message.GetContentString msg in
  let c0 := Message.SetContentString msg contentStr in
  let c1 :=
    if String.eqb (Message.Role msg) "assistant"
       && (0 <? List.length (Message.ToolCalls msg))%nat
    then
      {| Message.Role := Message.Role c0; Message.Content := Message.Content c0;
         Message.ToolCalls :=
           map (fun tc => {| ToolCall.ID := ToolCall.ID tc;
                             ToolCall.Type_ := "function";
                             ToolCall.Function := ToolCall.Function tc |})
               (Message.ToolCalls msg);
         Message.ToolCallID := Message.ToolCallID c0; Message.Name := Message.Name c0 |}
    else c0 in
  if String.eqb (Message.Role msg) "function" then
    {| Message.Role := "tool"; Message.Content := Message.Content c1;
       Message.ToolCalls := Message.ToolCalls c1;
       Message.ToolCallID := Message.ToolCallID c1; Message.Name := Message.Name c1 |}
  else c1.

(** [convertMessages] fills [converted[i]] from [messages[i]] for every
    index. *)
Definition convertMessages (messages : list Message.t) : list Message.t :=
  map convertMessage messages.

(** [isModelNotFoundError] *)
Definition isModelNotFoundError (statusCode : Z) (body : string) : bool :=
  if (statusCode =? StatusNotFound)%Z then true
  else if (statusCode =? StatusBadRequest)%Z
          || (statusCode =? StatusUnprocessableEntity)%Z then
    let lower := ToLower body in
    Contains lower "model"
    && (Contains lower "not found"
        || Contains lower "not exist"
        || Contains lower "invalid model"
        || Contains lower "does not exist"
        || Contains lower "no such model")
  else false.

(** The response struct of [handleRegularResponse], which the function
    declares twice without a name. *)
Module Usage.
Record t : Type := {
  PromptTokens : Z;
  CompletionTokens : Z;
  TotalTokens : Z
}.
Definition zero : t :=
  {| PromptTokens := 0; CompletionTokens := 0; TotalTokens := 0 |}.
Definition field (name : string) (v : value) (s : t) : option t :=
  if String.eqb name "PROMPT_TOKENS" then
    option_map (fun x => {| PromptTokens := x; CompletionTokens := CompletionTokens s;
                            TotalTokens := TotalTokens s |})
               (decInt v (PromptTokens s))
  else if String.eqb name "COMPLETION_TOKENS" then
    option_map (fun x => {| PromptTokens := PromptTokens s; CompletionTokens := x;
                            TotalTokens := TotalTokens s |})
               (decInt v (CompletionTokens s))
  else if String.eqb name "TOTAL_TOKENS" then
    option_map (fun x => {| PromptTokens := PromptTokens s;
                            CompletionTokens := CompletionTokens s; TotalTokens := x |})
               (decInt v (TotalTokens s))
  else Some s.
Definition encode (s : t) : value :=
  JObj [("prompt_tokens", encInt (PromptTokens s));
        ("completion_tokens", encInt (CompletionTokens s));
        ("total_tokens", encInt (TotalTokens s))].
End Usage.

Module Choice.
Record t : Type := {
  Index : Z;
  Message : Message.t;
  FinishReason : string
}.
Definition zero : t :=
  {| Index := 0; Message := Message.zero; FinishReason := "" |}.
Definition field (name : string) (v : value) (s : t) : option t :=
  if String.eqb name "INDEX" then
    option_map (fun x => {| Index := x; Message := Message s;
                            FinishReason := FinishReason s |})
               (decInt v (Index s))
  else if String.eqb name "MESSAGE" then
    option_map (fun x => {| Index := Index s; Message := x;
                            FinishReason := FinishReason s |})
               (decStruct Message.field v (Message s))
  else if String.eqb name "FINISH_REASON" then
    option_map (fun x => {| Index := Index s; Message := Message s;
                            FinishReason := x |})
               (decString v (FinishReason s))
  else Some s.
Definition encode (s : t) : value :=
  JObj [("index", encInt (Index s));
        ("message", Message.encode (Message s));
        ("finish_reason", JStr (FinishReason s))].
End Choice.

Module Completion.
Record t : Type := {
  ID : string;
  Object : string;
  Created : Z;
  Model : string;
  Choices : list Choice.t;
  Usage : Usage.t
}.
Definition zero : t :=
  {| ID := ""; Object := ""; Created := 0; Model := ""; Choices := [];
     Usage := Usage.zero |}.
Definition field (name : string) (v : value) (s : t) : option t :=
  if String.eqb name "ID" then
    option_map (fun x => {| ID := x; Object := Object s; Created := Created s;
                            Model := Model s; Choices := Choices s; Usage := Usage s |})
               (decString v (ID s))
  else if String.eqb name "OBJECT" then
    option_map (fun x => {| ID := ID s; Object := x; Created := Created s;
                            Model := Model s; Choices := Choices s; Usage := Usage s |})
               (decString v (Object s))
  else if String.eqb name "CREATED" then
    option_map (fun x => {| ID := ID s; Object := Object s; Created := x;
                            Model := Model s; Choices := Choices s; Usage := Usage s |})
               (decInt v (Created s))
  else if String.eqb name "MODEL" then
    option_map (fun x => {| ID := ID s; Object := Object s; Created := Created s;
                            Model := x; Choices := Choices s; Usage := Usage s |})
               (decString v (Model s))
  else if String.eqb name "CHOICES" then
    option_map (fun x => {| ID := ID s; Object := Object s; Created := Created s;
                            Model := Model s; Choices := x; Usage := Usage s |})
               (decSlice (decStruct Choice.field) Choice.zero v (Choices s))
  else if String.eqb name "USAGE" then
    option_map (fun x => {| ID := ID s; Object := Object s; Created := Created s;
                            Model := Model s; Choices := Choices s; Usage := x |})
               (decStruct Usage.field v (Usage s))
  else Some s.
(** The reply's [Choices] come from [make], so they are written as an
    array also when there are none. *)
Definition encode (s : t) : value :=
  JObj [("id", JStr (ID s)); ("object", JStr (Object s));
        ("created", encInt (Created s)); ("model", JStr (Model s));
        ("choices", JArr (map Choice.encode (Choices s)));
        ("usage", Usage.encode (Usage s))].
End Completion.

(** The loop over [deepseekResp.Choices]: the choice is copied, message
    and tool calls included, and then every tool call with a function
    name is appended to the copy's tool calls. *)
Definition convertChoice (choice : Choice.t) : Choice.t :=
  let msg := Choice.Message choice in
  let toolCalls :=
    if (0 <? List.length (Message.ToolCalls msg))%nat then
      fold_left
        (fun acc tc =>
           if String.eqb (FunctionCall.Name (ToolCall.Function tc)) "" then acc
           else (acc ++ [tc])%list)
        (Message.ToolCalls msg)
        (Message.ToolCalls msg)
    else Message.ToolCalls msg in
  {| Choice.Index := Choice.Index choice;
     Choice.Message :=
       {| Message.Role := Message.Role msg; Message.Content := Message.Content msg;
          Message.ToolCalls := toolCalls;
          Message.ToolCallID := Message.ToolCallID msg;
          Message.Name := Message.Name msg |};
     Choice.FinishReason := Choice.FinishReason choice |}.

Definition convertCompletion (deepseekResp : Completion.t) (originalModel : string)
  : Completion.t :=
  {| Completion.ID := Completion.ID deepseekResp;
     Completion.Object := "chat.completion";
     Completion.Created := Completion.Created deepseekResp;
     Completion.Model := originalModel;
     Completion.Choices := map convertChoice (Completion.Choices deepseekResp);
     Completion.Usage := Completion.Usage deepseekResp |}.

Section Handlers.
Context {codec : JsonCodec} {platform : Platform}.

(** The process-wide configuration that [init] reads once. *)
Variable deepseekAPIKey : string.
Variable activeConfig : Config.t.

Local Open Scope upstream_scope.

Definition skipHeaders (k : string) : bool :=
  String.eqb k "Content-Length" || String.eqb k "Content-Encoding"
  || String.eqb k "Transfer-Encoding" || String.eqb k "Connection".

Definition copyHeaders (dst src : header) : header :=
  fold_left
    (fun d kv =>
       if skipHeaders (fst kv) then d
       else fold_left (fun d' v => headerAdd d' (fst kv) v) (snd kv) d)
    src dst.

(** [buildDeepSeekHTTPRequest]; [None] is the error of
    [http.NewRequest]. *)
Definition buildDeepSeekHTTPRequest {R : Type} (origReq : Request R)
    (body : DeepSeekRequest.t) (stream : bool) (apiKey : string)
  : option (ProxyRequest DeepSeekRequest.t) :=
  let targetURL := Config.endpoint activeConfig ++ URLPath origReq in
  let targetURL :=
    if negb (String.eqb (RawQuery origReq) "")
    then targetURL ++ "?" ++ RawQuery origReq else targetURL in
  if newRequestOK (Method origReq) targetURL then
    let h := copyHeaders [] (ReqHeader origReq) in
    let h := headerStore h "Authorization" ["Bearer " ++ apiKey] in
    let h := headerStore h "Content-Type" ["application/json"] in
    let h := if stream then headerStore h "Accept" ["text/event-stream"] else h in
    let acceptLanguage := headerGet (ReqHeader origReq) "Accept-Language" in
    let h :=
      if negb (String.eqb acceptLanguage "")
      then headerStore h "Accept-Language" [acceptLanguage] else h in
    Some {| PMethod := Method origReq; PURL := targetURL; PHeader := h;
            PBody := body |}
  else None.

(** The second attempt of [doDeepSeekRequestWithFallback], the end of
    the function: the request is rebuilt with the reasoner model and sent
    once. *)
Definition fallbackAttempt {R : Type} (origReq : Request R)
    (dsReq : DeepSeekRequest.t) (stream : bool) (apiKey : string)
  : M DeepSeekRequest.t (option (Response * string)) :=
  let dsReq := DeepSeekRequest.withModel dsReq deepseekReasonerModel in
  match buildDeepSeekHTTPRequest origReq dsReq stream apiKey with
  | None => ret None
  | Some fallbackReq =>
      r <- clientDo fallbackReq ;;
      match r with
      | DoError => ret None
      | DoResponse resp => ret (Some (resp, deepseekReasonerModel))
      end
  end.

(** [doDeepSeekRequestWithFallback]: first the model the user asked
    for, then, when that model does not exist or the connection fails,
    the reasoner model. The result is the response with the model
    used, or [None] for an error. *)
Definition doDeepSeekRequestWithFallback {R : Type} (origReq : Request R)
    (body : DeepSeekRequest.t) (dsReq : DeepSeekRequest.t) (stream : bool)
    (apiKey : string)
  : M DeepSeekRequest.t (option (Response * string)) :=
  match buildDeepSeekHTTPRequest origReq body stream apiKey with
  | None => ret None
  | Some proxyReq =>
      r <- clientDo proxyReq ;;
      match r with
      | DoResponse resp =>
          if (StatusCode resp <? 400)%Z then
            ret (Some (resp, DeepSeekRequest.Model dsReq))
          else
            match ReadAll resp with
            | None => ret None
            | Some respBody =>
                if negb (isModelNotFoundError (StatusCode resp) respBody) then
                  ret (Some ({| StatusCode := StatusCode resp;
                                RespHeader := RespHeader resp;
                                Body := respBody; BodyBreaks := false |},
                             DeepSeekRequest.Model dsReq))
                else fallbackAttempt origReq dsReq stream apiKey
            end
      | DoError => fallbackAttempt origReq dsReq stream apiKey
      end
  end.

Definition handleStreamingResponse (w : ResponseWriter) (resp : Response)
    (originalModel : string) : outcome :=
  Relay.relay resp originalModel w.

Definition handleRegularResponse (w : ResponseWriter) (resp : Response)
    (originalModel : string) : outcome :=
  match readResponse resp with
  | None =>
      Error "Error reading response from upstream" StatusInternalServerError w
  | Some body =>
      match
        match jsonParse body with
        | Some tree => decStruct Completion.field tree Completion.zero
        | None => None
        end
      with
      | None => WriteHeader StatusInternalServerError w
      | Some deepseekResp =>
          let openAIResp := convertCompletion deepseekResp originalModel in
          match jsonPrint (Completion.encode openAIResp) with
          | None => WriteHeader StatusInternalServerError w
          | Some modifiedBody =>
              andThen
                (WriteHeader (StatusCode resp)
                   (SetHeader "Content-Type" "application/json" w))
                (fun w => Returned (Write modifiedBody w))
          end
      end
  end.

Definition modelEntry (id : string) (created : Z) : value :=
  JObj [("id", JStr id); ("object", JStr "model");
        ("created", encInt created); ("owned_by", JStr "deepseek")].

Definition handleModelsRequest (w : ResponseWriter)
  : M DeepSeekRequest.t ResponseWriter :=
  t1 <- timeNow ;;
  t2 <- timeNow ;;
  t3 <- timeNow ;;
  let response :=
    JObj [("object", JStr "list");
          ("data", JArr [modelEntry deepseekChatModel t1;
                         modelEntry deepseekReasonerModel t2;
                         modelEntry deepseekCoderModel t3])] in
  let w := SetHeader "Content-Type" "application/json" w in
  ret match jsonPrint response with
      | Some b => Write (b ++ LF) w
      | None => w
      end.

(** The request the handler builds for DeepSeek from the decoded
    [chatReq] and the model it settled on. *)
Definition buildDeepSeekRequest (chatReq : ChatRequest.t) (requestModel : string)
  : DeepSeekRequest.t :=
  let '(tools, toolChoice) :=
    if (0 <? List.length (ChatRequest.Tools chatReq))%nat then
      (ChatRequest.Tools chatReq, convertToolChoice (ChatRequest.ToolChoice chatReq))
    else if (0 <? List.length (ChatRequest.Functions chatReq))%nat then
      (map (fun fn => {| Tool.Type_ := "function"; Tool.Function := fn |})
           (ChatRequest.Functions chatReq),
       convertToolChoice (ChatRequest.ToolChoice chatReq))
    else ([], "") in
  {| DeepSeekRequest.Model := requestModel;
     DeepSeekRequest.Messages := convertMessages (ChatRequest.Messages chatReq);
     DeepSeekRequest.Stream := ChatRequest.Stream chatReq;
     DeepSeekRequest.Temperature :=
       match ChatRequest.Temperature chatReq with Some t => t | None => 0%Z end;
     DeepSeekRequest.MaxTokens :=
       match ChatRequest.MaxTokens chatReq with Some n => n | None => 0%Z end;
     DeepSeekRequest.Tools := tools;
     DeepSeekRequest.ToolChoice := toolChoice |}.

Definition proxyHandler (w : ResponseWriter) (r : Request ChatRequest.t)
  : M DeepSeekRequest.t outcome :=
  if String.eqb (Method r) "OPTIONS" then ret (Returned (enableCors w))
  else
    let w := enableCors w in
    let authHeader := headerGet (ReqHeader r) "Authorization" in
    let userAPIKey := TrimPrefix authHeader "Bearer " in
    let noUserKey := String.eqb userAPIKey "" || String.eqb userAPIKey authHeader in
    if noUserKey && String.eqb deepseekAPIKey "" then
      ret (Error ("API key required: please provide Authorization header "
                  ++ "or configure DEEPSEEK_API_KEY environment variable")
                 StatusUnauthorized w)
    else
      let userAPIKey := if noUserKey then deepseekAPIKey else userAPIKey in
      if String.eqb (URLPath r) "/v1/models" && String.eqb (Method r) "GET" then
        w' <- handleModelsRequest w ;; ret (Returned w')
      else
        match ReqBody r with
        | ReadFails => ret (Error "Error reading request" StatusBadRequest w)
        | InvalidJSON => ret (Error "Invalid JSON" StatusBadRequest w)
        | Decoded chatReq =>
            if String.eqb (URLPath r) "/v1/models" || String.eqb (URLPath r) "/models"
            then w' <- handleModelsRequest w ;; ret (Returned w')
            else
              let requestPath :=
                if negb (HasPrefix (URLPath r) "/v1/")
                then "/v1" ++ URLPath r else URLPath r in
              if negb (String.eqb requestPath "/v1/chat/completions") then
                ret (Error "Not found" StatusNotFound w)
              else
                let requestModel :=
                  if String.eqb (ChatRequest.Model chatReq) ""
                  then deepseekChatModel else ChatRequest.Model chatReq in
                let deepseekReq := buildDeepSeekRequest chatReq requestModel in
                res <- doDeepSeekRequestWithFallback r deepseekReq deepseekReq
                         (ChatRequest.Stream chatReq) userAPIKey ;;
                match res with
                | None => ret (Error "Error forwarding request" StatusBadGateway w)
                | Some (resp, usedModel) =>
                    let originalModel :=
                      if negb (String.eqb usedModel requestModel)
                      then usedModel else requestModel in
                    if (400 <=? StatusCode resp)%Z then
                      match ReadAll resp with
                      | None =>
                          ret (Error "Error reading response"
                                     StatusInternalServerError w)
                      | Some respBody =>
                          let w :=
                            fold_left (fun w kv => StoreHeader (fst kv) (snd kv) w)
                                      (RespHeader resp) w in
                          ret (andThen
                                 (WriteHeader (StatusCode resp)
                                    (SetHeader "Content-Type" "application/json" w))
                                 (fun w => Returned (Write respBody w)))
                      end
                    else if ChatRequest.Stream chatReq then
                      ret (handleStreamingResponse w resp originalModel)
                    else
                      ret (handleRegularResponse w resp originalModel)
                end
        end.

End Handlers.

End DeepSeek.

(** ** proxy-poe.go: Claude format to the OpenAI endpoint of POE *)

Module Poe.

Definition openAIEndpoint : string := "https://api.poe.com".
Definition claudeSonnetModel : string := "claude-sonnet-4.5".
Definition defaultOpenAIModel : string := "claude-sonnet-4.5".

Definition float64 : Type := Z.

(** [ClaudeToolCall] and [OpenAIToolCall] have the same fields. *)
Module FunctionCall.
Record t : Type := { Name : string; Arguments : string }.
Definition zero : t := {| Name := ""; Arguments := "" |}.
Definition field (name : string) (v : value) (s : t) : option t :=
  if String.eqb name "NAME" then
    option_map (fun x => {| Name := x; Arguments := Arguments s |})
               (decString v (Name s))
  else if String.eqb name "ARGUMENTS" then
    option_map (fun x => {| Name := Name s; Arguments := x |})
               (decString v (Arguments s))
  else Some s.
Definition encode (s : t) : value :=
  JObj [("name", JStr (Name s)); ("arguments", JStr (Arguments s))].
End FunctionCall.

Module ClaudeToolCall.
Record t : Type := { ID : string; Type_ : string; Function : FunctionCall.t }.
End ClaudeToolCall.

Module OpenAIToolCall.
Record t : Type := { ID : string; Type_ : string; Function : FunctionCall.t }.
Definition zero : t := {| ID := ""; Type_ := ""; Function := FunctionCall.zero |}.
Definition field (name : string) (v : value) (s : t) : option t :=
  if String.eqb name "ID" then
    option_map (fun x => {| ID := x; Type_ := Type_ s; Function := Function s |})
               (decString v (ID s))
  else if String.eqb name "TYPE" then
    option_map (fun x => {| ID := ID s; Type_ := x; Function := Function s |})
               (decString v (Type_ s))
  else if String.eqb name "FUNCTION" then
    option_map (fun x => {| ID := ID s; Type_ := Type_ s; Function := x |})
               (decStruct FunctionCall.field v (Function s))
  else Some s.
Definition encode (s : t) : value :=
  JObj [("id", JStr (ID s)); ("type", JStr (Type_ s));
        ("function", FunctionCall.encode (Function s))].
End OpenAIToolCall.

Module ClaudeMessage.
Record t : Type := {
  Role : string;
  Content : option value;
  ToolCalls : list ClaudeToolCall.t;
  ToolCallID : string;
  Name : string
}.
End ClaudeMessage.

Module ClaudeContentPart.
Record t : Type := {
  Type_ : string;
  Text : string;
  CacheControl : option gomap;
  ID : string;
  Name : string;
  Input : option gomap
}.
Definition zero : t :=
  {| Type_ := ""; Text := ""; CacheControl := None; ID := ""; Name := "";
     Input := None |}.
Definition field (name : string) (v : value) (s : t) : option t :=
  if String.eqb name "TYPE" then
    option_map (fun x => {| Type_ := x; Text := Text s; CacheControl := CacheControl s;
                            ID := ID s; Name := Name s; Input := Input s |})
               (decString v (Type_ s))
  else if String.eqb name "TEXT" then
    option_map (fun x => {| Type_ := Type_ s; Text := x; CacheControl := CacheControl s;
                            ID := ID s; Name := Name s; Input := Input s |})
               (decString v (Text s))
  else if String.eqb name "CACHE_CONTROL" then
    option_map (fun x => {| Type_ := Type_ s; Text := Text s; CacheControl := x;
                            ID := ID s; Name := Name s; Input := Input s |})
               (decMap v (CacheControl s))
  else if String.eqb name "ID" then
    option_map (fun x => {| Type_ := Type_ s; Text := Text s;
                            CacheControl := CacheControl s;
                            ID := x; Name := Name s; Input := Input s |})
               (decString v (ID s))
  else if String.eqb name "NAME" then
    option_map (fun x => {| Type_ := Type_ s; Text := Text s;
                            CacheControl := CacheControl s;
                            ID := ID s; Name := x; Input := Input s |})
               (decString v (Name s))
  else if String.eqb name "INPUT" then
    option_map (fun x => {| Type_ := Type_ s; Text := Text s;
                            CacheControl := CacheControl s;
                            ID := ID s; Name := Name s; Input := x |})
               (decMap v (Input s))
  else Some s.
End ClaudeContentPart.

Module ClaudeSystemMessage.
Record t : Type := {
  Type_ : string;
  Text : string;
  CacheControl : option gomap
}.
End ClaudeSystemMessage.

Module ClaudeTool.
Record t : Type := {
  Name : string;
  Description : string;
  InputSchema : option gomap
}.
End ClaudeTool.

Module ClaudeRequest.
Record t : Type := {
  Model : string;
  Messages : list ClaudeMessage.t;
  MaxTokens : option Z;
  System : list ClaudeSystemMessage.t;
  Tools : list ClaudeTool.t;
  ToolChoice : option value;
  Temperature : option float64;
  Stream : bool;
  StreamOptions : option gomap;
  Metadata : option gomap
}.
End ClaudeRequest.

Module OpenAIMessage.
(** [Content] is an [interface{}]: [None] is nil. *)
Record t : Type := {
  Role : string;
  Content : option value;
  ToolCalls : list OpenAIToolCall.t;
  ToolCallID : string;
  Name : string
}.
Definition zero : t :=
  {| Role := ""; Content := None; ToolCalls := []; ToolCallID := ""; Name := "" |}.
Definition field (name : string) (v : value) (s : t) : option t :=
  if String.eqb name "ROLE" then
    option_map (fun x => {| Role := x; Content := Content s; ToolCalls := ToolCalls s;
                            ToolCallID := ToolCallID s; Name := Name s |})
               (decString v (Role s))
  else if String.eqb name "CONTENT" then
    option_map (fun x => {| Role := Role s; Content := x; ToolCalls := ToolCalls s;
                            ToolCallID := ToolCallID s; Name := Name s |})
               (decAny v (Content s))
  else if String.eqb name "TOOL_CALLS" then
    option_map (fun x => {| Role := Role s; Content := Content s; ToolCalls := x;
                            ToolCallID := ToolCallID s; Name := Name s |})
               (decSlice (decStruct OpenAIToolCall.field) OpenAIToolCall.zero v
                         (ToolCalls s))
  else if String.eqb name "TOOL_CALL_ID" then
    option_map (fun x => {| Role := Role s; Content := Content s; ToolCalls := ToolCalls s;
                            ToolCallID := x; Name := Name s |})
               (decString v (ToolCallID s))
  else if String.eqb name "NAME" then
    option_map (fun x => {| Role := Role s; Content := Content s; ToolCalls := ToolCalls s;
                            ToolCallID := ToolCallID s; Name := x |})
               (decString v (Name s))
  else Some s.

(** [json.Marshal] by the struct tags: [role] is always written;
    [content], [tool_calls], [tool_call_id] and [name] have
    [omitempty], which leaves out a nil interface, an empty slice and
    an empty string. *)
Definition encode (s : t) : value :=
  JObj ([("role", JStr (Role s))]
        ++ match Content s with Some c => [("content", c)] | None => [] end
        ++ match ToolCalls s with
           | [] => []
           | tcs => [("tool_calls", JArr (map OpenAIToolCall.encode tcs))]
           end
        ++ (if String.eqb (ToolCallID s) "" then []
            else [("tool_call_id", JStr (ToolCallID s))])
        ++ (if String.eqb (Name s) "" then [] else [("name", JStr (Name s))])).
End OpenAIMessage.

Module OpenAIFunc.
Record t : Type := {
  Name : string;
  Description : string;
  Parameters : option gomap
}.
End OpenAIFunc.

Module OpenAITool.
Record t : Type := { Type_ : string; Function : OpenAIFunc.t }.
End OpenAITool.

Module OpenAIRequest.
Record t : Type := {
  Model : string;
  Messages : list OpenAIMessage.t;
  MaxTokens : option Z;
  Temperature : option float64;
  Stream : bool;
  Tools : list OpenAITool.t;
  ToolChoice : option value
}.
End OpenAIRequest.

Module OpenAIUsage.
Record t : Type := {
  PromptTokens : Z;
  CompletionTokens : Z;
  TotalTokens : Z
}.
Definition zero : t :=
  {| PromptTokens := 0; CompletionTokens := 0; TotalTokens := 0 |}.
Definition field (name : string) (v : value) (s : t) : option t :=
  if String.eqb name "PROMPT_TOKENS" then
    option_map (fun x => {| PromptTokens := x; CompletionTokens := CompletionTokens s;
                            TotalTokens := TotalTokens s |})
               (decInt v (PromptTokens s))
  else if String.eqb name "COMPLETION_TOKENS" then
    option_map (fun x => {| PromptTokens := PromptTokens s; CompletionTokens := x;
                            TotalTokens := TotalTokens s |})
               (decInt v (CompletionTokens s))
  else if String.eqb name "TOTAL_TOKENS" then
    option_map (fun x => {| PromptTokens := PromptTokens s;
                            CompletionTokens := CompletionTokens s; TotalTokens := x |})
               (decInt v (TotalTokens s))
  else Some s.
Definition encode (s : t) : value :=
  JObj [("prompt_tokens", encInt (PromptTokens s));
        ("completion_tokens", encInt (CompletionTokens s));
        ("total_tokens", encInt (TotalTokens s))].
End OpenAIUsage.

Module OpenAIChoice.
Record t : Type := {
  Index : Z;
  Message : OpenAIMessage.t;
  FinishReason : string
}.
Definition zero : t :=
  {| Index := 0; Message := OpenAIMessage.zero; FinishReason := "" |}.
Definition field (name : string) (v : value) (s : t) : option t :=
  if String.eqb name "INDEX" then
    option_map (fun x => {| Index := x; Message := Message s;
                            FinishReason := FinishReason s |})
               (decInt v (Index s))
  else if String.eqb name "MESSAGE" then
    option_map (fun x => {| Index := Index s; Message := x;
                            FinishReason := FinishReason s |})
               (decStruct OpenAIMessage.field v (Message s))
  else if String.eqb name "FINISH_REASON" then
    option_map (fun x => {| Index := Index s; Message := Message s;
                            FinishReason := x |})
               (decString v (FinishReason s))
  else Some s.
Definition encode (s : t) : value :=
  JObj [("index", encInt (Index s));
        ("message", OpenAIMessage.encode (Message s));
        ("finish_reason", JStr (FinishReason s))].
End OpenAIChoice.

Module OpenAIResponse.
(** [Choices] is [None] for the nil slice, which is written as null. *)
Record t : Type := {
  ID : string;
  Object : string;
  Created : Z;
  Model : string;
  Choices : option (list OpenAIChoice.t);
  Usage : OpenAIUsage.t
}.
Definition zero : t :=
  {| ID := ""; Object := ""; Created := 0; Model := ""; Choices := None;
     Usage := OpenAIUsage.zero |}.
Definition decChoices : decoder (option (list OpenAIChoice.t)) :=
  fun v _ =>
    match v with
    | JArr items =>
        option_map Some (decItems (decStruct OpenAIChoice.field) OpenAIChoice.zero items)
    | JNull => Some None
    | _ => None
    end.
Definition field (name : string) (v : value) (s : t) : option t :=
  if String.eqb name "ID" then
    option_map (fun x => {| ID := x; Object := Object s; Created := Created s;
                            Model := Model s; Choices := Choices s; Usage := Usage s |})
               (decString v (ID s))
  else if String.eqb name "OBJECT" then
    option_map (fun x => {| ID := ID s; Object := x; Created := Created s;
                            Model := Model s; Choices := Choices s; Usage := Usage s |})
               (decString v (Object s))
  else if String.eqb name "CREATED" then
    option_map (fun x => {| ID := ID s; Object := Object s; Created := x;
                            Model := Model s; Choices := Choices s; Usage := Usage s |})
               (decInt v (Created s))
  else if String.eqb name "MODEL" then
    option_map (fun x => {| ID := ID s; Object := Object s; Created := Created s;
                            Model := x; Choices := Choices s; Usage := Usage s |})
               (decString v (Model s))
  else if String.eqb name "CHOICES" then
    option_map (fun x => {| ID := ID s; Object := Object s; Created := Created s;
                            Model := Model s; Choices := x; Usage := Usage s |})
               (decChoices v (Choices s))
  else if String.eqb name "USAGE" then
    option_map (fun x => {| ID := ID s; Object := Object s; Created := Created s;
                            Model := Model s; Choices := Choices s; Usage := x |})
               (decStruct OpenAIUsage.field v (Usage s))
  else Some s.
Definition encode (s : t) : value :=
  JObj [("id", JStr (ID s)); ("object", JStr (Object s));
        ("created", encInt (Created s)); ("model", JStr (Model s));
        ("choices", match Choices s with
                    | Some cs => JArr (map OpenAIChoice.encode cs)
                    | None => JNull
                    end);
        ("usage", OpenAIUsage.encode (Usage s))].
Definition withModel (s : t) (m : string) : t :=
  {| ID := ID s; Object := Object s; Created := Created s; Model := m;
     Choices := Choices s; Usage := Usage s |}.
End OpenAIResponse.

(** [m[k]] on a map that may be nil. *)
Definition index (m : option gomap) (k : string) : option value :=
  match m with Some m' => mapIndex m' k | None => None end.

(** The tool message built for one [tool_result] part. *)
Definition toolResultMessage (part : option gomap) : OpenAIMessage.t :=
  let toolCallID :=
    match assertString (index part "tool_use_id") with
    | Some toolUseID => toolUseID
    | None => ""
    end in
  let content :=
    match assertSlice (index part "content") with
    | Some content =>
        let resultTexts :=
          flat_map
            (fun c =>
               match assertMap (Some c) with
               | Some contentMap =>
                   match assertString (mapIndex contentMap "text") with
                   | Some text => [text]
                   | None => []
                   end
               | None => []
               end)
            content in
        if (0 <? List.length resultTexts)%nat
        then Some (JStr (Join resultTexts LF)) else None
    | None =>
        match assertString (index part "content") with
        | Some contentStr => Some (JStr contentStr)
        | None => None
        end
    end in
  {| OpenAIMessage.Role := "tool"; OpenAIMessage.Content := content;
     OpenAIMessage.ToolCalls := []; OpenAIMessage.ToolCallID := toolCallID;
     OpenAIMessage.Name := "" |}.

Definition isToolResult (part : option gomap) : bool :=
  match assertString (index part "type") with
  | Some partType => String.eqb partType "tool_result"
  | None => false
  end.

(** The loop over the parts of a user message: every [tool_result] part
    appends a tool message and sets [hasToolResult]. *)
Definition scanToolResults (parts : list (option gomap))
    (messages : list OpenAIMessage.t) : list OpenAIMessage.t * bool :=
  fold_left
    (fun st part =>
       if isToolResult part
       then ((fst st ++ [toolResultMessage part])%list, true)
       else st)
    parts (messages, false).

Section Translate.
Context {codec : JsonCodec}.

Definition toolUseCall (part : ClaudeContentPart.t) : OpenAIToolCall.t :=
  let inputJSON :=
    match jsonPrint (match ClaudeContentPart.Input part with
                     | Some m => JObj m
                     | None => JNull
                     end) with
    | Some b => b
    | None => ""
    end in
  {| OpenAIToolCall.ID := ClaudeContentPart.ID part;
     OpenAIToolCall.Type_ := "function";
     OpenAIToolCall.Function :=
       {| FunctionCall.Name := ClaudeContentPart.Name part;
          FunctionCall.Arguments := inputJSON |} |}.

(** The regular handling of a message up to the point where the
    message is added: role and linkage fields, content, tool calls. *)
Definition regularMessage (msg : ClaudeMessage.t) : OpenAIMessage.t :=
  let '(content, toolCalls) :=
    match ClaudeMessage.Content msg with
    | None => (None, [])
    | Some raw =>
        match decString raw "" with
        | Some strContent => (Some (JStr strContent), [])
        | None =>
            match decSlice (decStruct ClaudeContentPart.field)
                           ClaudeContentPart.zero raw [] with
            | Some parts =>
                let textParts :=
                  flat_map
                    (fun part =>
                       if String.eqb (ClaudeContentPart.Type_ part) "text"
                          && negb (String.eqb (ClaudeContentPart.Text part) "")
                       then [ClaudeContentPart.Text part] else [])
                    parts in
                let toolCalls :=
                  flat_map
                    (fun part =>
                       if String.eqb (ClaudeContentPart.Type_ part) "text"
                          && negb (String.eqb (ClaudeContentPart.Text part) "")
                       then []
                       else if String.eqb (ClaudeContentPart.Type_ part) "tool_use"
                       then [toolUseCall part] else [])
                    parts in
                (if (0 <? List.length textParts)%nat
                 then Some (JStr (Join textParts LF)) else None,
                 toolCalls)
            | None => (None, [])
            end
        end
    end in
  let toolCalls :=
    if (0 <? List.length (ClaudeMessage.ToolCalls msg))%nat then
      map (fun tc =>
             {| OpenAIToolCall.ID := ClaudeToolCall.ID tc;
                OpenAIToolCall.Type_ := ClaudeToolCall.Type_ tc;
                OpenAIToolCall.Function :=
                  {| FunctionCall.Name :=
                       FunctionCall.Name (ClaudeToolCall.Function tc);
                     FunctionCall.Arguments :=
                       FunctionCall.Arguments (ClaudeToolCall.Function tc) |} |})
          (ClaudeMessage.ToolCalls msg)
    else toolCalls in
  {| OpenAIMessage.Role := ClaudeMessage.Role msg;
     OpenAIMessage.Content := content;
     OpenAIMessage.ToolCalls := toolCalls;
     OpenAIMessage.ToolCallID := ClaudeMessage.ToolCallID msg;
     OpenAIMessage.Name := ClaudeMessage.Name msg |}.

Definition hasContent (m : OpenAIMessage.t) : bool :=
  match OpenAIMessage.Content m with
  | None => false
  | Some c =>
      let contentStr := match c with JStr s => s | _ => "" end in
      negb (String.eqb contentStr "")
  end.

Definition hasToolCalls (m : OpenAIMessage.t) : bool :=
  (0 <? List.length (OpenAIMessage.ToolCalls m))%nat.

(** Adding the message: only with content or tool calls, and an
    assistant message with tool calls and no content gets [Content]
    set to nil first. *)
Definition addMessage (messages : list OpenAIMessage.t) (openAIMsg : OpenAIMessage.t)
  : list OpenAIMessage.t :=
  if hasContent openAIMsg || hasToolCalls openAIMsg then
    let openAIMsg :=
      if String.eqb (OpenAIMessage.Role openAIMsg) "assistant"
         && hasToolCalls openAIMsg && negb (hasContent openAIMsg)
      then {| OpenAIMessage.Role := OpenAIMessage.Role openAIMsg;
              OpenAIMessage.Content := None;
              OpenAIMessage.ToolCalls := OpenAIMessage.ToolCalls openAIMsg;
              OpenAIMessage.ToolCallID := OpenAIMessage.ToolCallID openAIMsg;
              OpenAIMessage.Name := OpenAIMessage.Name openAIMsg |}
      else openAIMsg in
    (messages ++ [openAIMsg])%list
  else messages.

(** One turn of the loop over [claudeReq.Messages]. *)
Definition convertMessage (messages : list OpenAIMessage.t) (msg : ClaudeMessage.t)
  : list OpenAIMessage.t :=
  let '(messages, hasToolResult) :=
    if String.eqb (ClaudeMessage.Role msg) "user" then
      match ClaudeMessage.Content msg with
      | Some raw =>
          match decSlice decMap None raw [] with
          | Some parts => scanToolResults parts messages
          | None => (messages, false)
          end
      | None => (messages, false)
      end
    else (messages, false) in
  if hasToolResult then messages
  else addMessage messages (regularMessage msg).

Definition systemMessages (system : list ClaudeSystemMessage.t)
  : list OpenAIMessage.t :=
  let systemTexts :=
    flat_map (fun sys =>
                if negb (String.eqb (ClaudeSystemMessage.Text sys) "")
                then [ClaudeSystemMessage.Text sys] else [])
             system in
  if (0 <? List.length systemTexts)%nat then
    [ {| OpenAIMessage.Role := "system";
         OpenAIMessage.Content := Some (JStr (Join systemTexts (LF ++ LF)));
         OpenAIMessage.ToolCalls := []; OpenAIMessage.ToolCallID := "";
         OpenAIMessage.Name := "" |} ]
  else [].

(** [convertClaudeToOpenAI]; its error result is always nil. *)
Definition convertClaudeToOpenAI (claudeReq : ClaudeRequest.t) : OpenAIRequest.t :=
  let modelName :=
    if String.eqb (ClaudeRequest.Model claudeReq) ""
    then defaultOpenAIModel else ClaudeRequest.Model claudeReq in
  {| OpenAIRequest.Model := modelName;
     OpenAIRequest.Messages :=
       fold_left convertMessage (ClaudeRequest.Messages claudeReq)
                 (systemMessages (ClaudeRequest.System claudeReq));
     OpenAIRequest.MaxTokens := ClaudeRequest.MaxTokens claudeReq;
     OpenAIRequest.Temperature := ClaudeRequest.Temperature claudeReq;
     OpenAIRequest.Stream := ClaudeRequest.Stream claudeReq;
     OpenAIRequest.Tools :=
       map (fun tool =>
              {| OpenAITool.Type_ := "function";
                 OpenAITool.Function :=
                   {| OpenAIFunc.Name := ClaudeTool.Name tool;
                      OpenAIFunc.Description := ClaudeTool.Description tool;
                      OpenAIFunc.Parameters := ClaudeTool.InputSchema tool |} |})
           (ClaudeRequest.Tools claudeReq);
     OpenAIRequest.ToolChoice := ClaudeRequest.ToolChoice claudeReq |}.

End Translate.

Section Handlers.
Context {codec : JsonCodec} {platform : Platform}.

(** The key [init] reads from the environment. *)
Variable poeAPIKey : string.

Local Open Scope upstream_scope.

Definition handleStreamingResponse (w : ResponseWriter) (resp : Response)
    (originalModel : string) : outcome :=
  Relay.relay resp originalModel w.

Definition handleRegularResponse (w : ResponseWriter) (resp : Response)
    (originalModel : string) : outcome :=
  match readResponse resp with
  | None =>
      Error "Error reading response from upstream" StatusInternalServerError w
  | Some body =>
      match
        match jsonParse body with
        | Some tree => decStruct OpenAIResponse.field tree OpenAIResponse.zero
        | None => None
        end
      with
      | None => WriteHeader StatusInternalServerError w
      | Some openAIResp =>
          let openAIResp := OpenAIResponse.withModel openAIResp originalModel in
          match jsonPrint (OpenAIResponse.encode openAIResp) with
          | None => WriteHeader StatusInternalServerError w
          | Some modifiedBody =>
              andThen
                (WriteHeader (StatusCode resp)
                   (SetHeader "Content-Type" "application/json" w))
                (fun w => Returned (Write modifiedBody w))
          end
      end
  end.

(** The response is a map here, written with its keys sorted. *)
Definition handleModelsRequest (w : ResponseWriter)
  : M OpenAIRequest.t ResponseWriter :=
  t <- timeNow ;;
  let response :=
    JObj [("data", JArr [JObj [("created", encInt t);
                               ("id", JStr claudeSonnetModel);
                               ("object", JStr "model");
                               ("owned_by", JStr "anthropic")]]);
          ("object", JStr "list")] in
  let w := SetHeader "Content-Type" "application/json" w in
  ret match jsonPrint response with
      | Some b => Write (b ++ LF) w
      | None => w
      end.

Definition proxyHandler (w : ResponseWriter) (r : Request ClaudeRequest.t)
  : M OpenAIRequest.t outcome :=
  if String.eqb (Method r) "OPTIONS" then ret (Returned (enableCors w))
  else
    let w := enableCors w in
    let authHeader := headerGet (ReqHeader r) "Authorization" in
    if negb (HasPrefix authHeader "Bearer ") then
      ret (Error "Missing or invalid Authorization header" StatusUnauthorized w)
    else
      let userAPIKey := TrimPrefix authHeader "Bearer " in
      let activeAPIKey :=
        if String.eqb userAPIKey "" then poeAPIKey else userAPIKey in
      if String.eqb activeAPIKey "" then
        ret (Error "No API key available" StatusUnauthorized w)
      else if String.eqb (URLPath r) "/v1/models" && String.eqb (Method r) "GET" then
        w' <- handleModelsRequest w ;; ret (Returned w')
      else
        match ReqBody r with
        | ReadFails => ret (Error "Error reading request" StatusBadRequest w)
        | InvalidJSON => ret (Error "Invalid JSON" StatusBadRequest w)
        | Decoded claudeReq =>
            let openAIReq := convertClaudeToOpenAI claudeReq in
            let targetURL := openAIEndpoint ++ "/v1/chat/completions" in
            if negb (newRequestOK "POST" targetURL) then
              ret (Error "Error creating proxy request" StatusInternalServerError w)
            else
              let h := headerStore [] "Authorization" ["Bearer " ++ activeAPIKey] in
              let h := headerStore h "Content-Type" ["application/json"] in
              let h :=
                if ClaudeRequest.Stream claudeReq
                then headerStore h "Accept" ["text/event-stream"] else h in
              r <- clientDo {| PMethod := "POST"; PURL := targetURL; PHeader := h;
                               PBody := openAIReq |} ;;
              match r with
              | DoError => ret (Error "Error forwarding request" StatusBadGateway w)
              | DoResponse resp =>
                  if (400 <=? StatusCode resp)%Z then
                    match ReadAll resp with
                    | None =>
                        ret (Error "Error reading response" StatusInternalServerError w)
                    | Some respBody =>
                        let w :=
                          fold_left (fun w kv => StoreHeader (fst kv) (snd kv) w)
                                    (RespHeader resp) w in
                        ret (andThen (WriteHeader (StatusCode resp) w)
                                     (fun w => Returned (Write respBody w)))
                    end
                  else if ClaudeRequest.Stream claudeReq then
                    ret (handleStreamingResponse w resp (ClaudeRequest.Model claudeReq))
                  else
                    ret (handleRegularResponse w resp (ClaudeRequest.Model claudeReq))
              end
        end.

End Handlers.

End Poe.

(** ** A text codec

    Reads and writes JSON texts the way [encoding/json] does, for texts
    without [\u] escapes; a string is written with the escapes of
    [json.Marshal] for ASCII, and a number with the literal it was read
    with. *)

Module TextCodec.

Definition isWs (c : ascii) : bool :=
  let n := nat_of_ascii c in
  (n =? 32)%nat || (n =? 9)%nat || (n =? 10)%nat || (n =? 13)%nat.

Fixpoint skipWs (s : string) : string :=
  match s with
  | String c r => if isWs c then skipWs r else s
  | "" => ""
  end.

Definition unescape (e : ascii) : option ascii :=
  let n := nat_of_ascii e in
  if (n =? 34)%nat then Some (byte 34)
  else if (n =? 92)%nat then Some (byte 92)
  else if (n =? 47)%nat then Some (byte 47)
  else if (n =? 98)%nat then Some (byte 8)
  else if (n =? 102)%nat then Some (byte 12)
  else if (n =? 110)%nat then Some (byte 10)
  else if (n =? 114)%nat then Some (byte 13)
  else if (n =? 116)%nat then Some (byte 9)
  else None.

(** The string after its opening quote: its bytes and what follows the
    closing quote. *)
Fixpoint scanString (s : string) : option (string * string) :=
  match s with
  | "" => None
  | String c r =>
      let n := nat_of_ascii c in
      if (n =? 34)%nat then Some ("", r)
      else if (n =? 92)%nat then
        match r with
        | String e r' =>
            match unescape e, scanString r' with
            | Some ch, Some (str, rest) => Some (String ch str, rest)
            | _, _ => None
            end
        | "" => None
        end
      else if (n <? 32)%nat then None
      else
        match scanString r with
        | Some (str, rest) => Some (String c str, rest)
        | None => None
        end
  end.

Definition isDigit (c : ascii) : bool :=
  let n := nat_of_ascii c in (48 <=? n)%nat && (n <=? 57)%nat.

Definition isNumChar (c : ascii) : bool :=
  let n := nat_of_ascii c in
  isDigit c || (n =? 45)%nat || (n =? 43)%nat || (n =? 46)%nat
  || (n =? 101)%nat || (n =? 69)%nat.

Fixpoint spanNum (s : string) : string * string :=
  match s with
  | String c r =>
      if isNumChar c then let (a, b) := spanNum r in (String c a, b) else ("", s)
  | "" => ("", "")
  end.

(** The number grammar as an automaton: 0 start, 1 after the sign, 2 after
    a leading zero, 3 in the integer digits, 4 after the point, 5 in the
    fraction, 6 after the exponent mark, 7 after its sign, 8 in the
    exponent. *)
Fixpoint numberFrom (st : nat) (s : string) : bool :=
  match s with
  | "" => (st =? 2)%nat || (st =? 3)%nat || (st =? 5)%nat || (st =? 8)%nat
  | String c r =>
      let n := nat_of_ascii c in
      let isE := (n =? 101)%nat || (n =? 69)%nat in
      match st with
      | 0 => if (n =? 45)%nat then numberFrom 1 r
             else if (n =? 48)%nat then numberFrom 2 r
             else if isDigit c then numberFrom 3 r else false
      | 1 => if (n =? 48)%nat then numberFrom 2 r
             else if isDigit c then numberFrom 3 r else false
      | 2 => if (n =? 46)%nat then numberFrom 4 r
             else if isE then numberFrom 6 r else false
      | 3 => if isDigit c then numberFrom 3 r
             else if (n =? 46)%nat then numberFrom 4 r
             else if isE then numberFrom 6 r else false
      | 4 => if isDigit c then numberFrom 5 r else false
      | 5 => if isDigit c then numberFrom 5 r
             else if isE then numberFrom 6 r else false
      | 6 => if (n =? 43)%nat || (n =? 45)%nat then numberFrom 7 r
             else if isDigit c then numberFrom 8 r else false
      | 7 => if isDigit c then numberFrom 8 r else false
      | _ => if isDigit c then numberFrom 8 r else false
      end
  end.

Definition parseLiteral (s : string) : option (value * string) :=
  match cutPrefix s "null", cutPrefix s "true", cutPrefix s "false" with
  | Some r, _, _ => Some (JNull, r)
  | _, Some r, _ => Some (JBool true, r)
  | _, _, Some r => Some (JBool false, r)
  | None, None, None =>
      let (lit, r) := spanNum s in
      if numberFrom 0 lit then Some (JNum lit, r) else None
  end.

Fixpoint parseValue (fuel : nat) (s : string) : option (value * string) :=
  match fuel with
  | O => None
  | S fuel' =>
      match skipWs s with
      | "" => None
      | String c r as s' =>
          let n := nat_of_ascii c in
          if (n =? 123)%nat then
            match skipWs r with
            | String c' r' =>
                if (nat_of_ascii c' =? 125)%nat then Some (JObj [], r')
                else option_map (fun p => (JObj (fst p), snd p)) (parseMembers fuel' r)
            | "" => None
            end
          else if (n =? 91)%nat then
            match skipWs r with
            | String c' r' =>
                if (nat_of_ascii c' =? 93)%nat then Some (JArr [], r')
                else option_map (fun p => (JArr (fst p), snd p)) (parseItems fuel' r)
            | "" => None
            end
          else if (n =? 34)%nat then
            option_map (fun p => (JStr (fst p), snd p)) (scanString r)
          else parseLiteral s'
      end
  end

with parseItems (fuel : nat) (s : string) : option (list value * string) :=
  match fuel with
  | O => None
  | S fuel' =>
      match parseValue fuel' s with
      | Some (v, r) =>
          match skipWs r with
          | String c r' =>
              if (nat_of_ascii c =? 44)%nat then
                option_map (fun p => (v :: fst p, snd p)) (parseItems fuel' r')
              else if (nat_of_ascii c =? 93)%nat then Some ([v], r')
              else None
          | "" => None
          end
      | None => None
      end
  end

with parseMembers (fuel : nat) (s : string) : option (list (string * value) * string) :=
  match fuel with
  | O => None
  | S fuel' =>
      match skipWs s with
      | String q r =>
          if (nat_of_ascii q =? 34)%nat then
            match scanString r with
            | Some (k, r1) =>
                match skipWs r1 with
                | String colon r2 =>
                    if (nat_of_ascii colon =? 58)%nat then
                      match parseValue fuel' r2 with
                      | Some (v, r3) =>
                          match skipWs r3 with
                          | String c r4 =>
                              if (nat_of_ascii c =? 44)%nat then
                                option_map (fun p => ((k, v) :: fst p, snd p))
                                           (parseMembers fuel' r4)
                              else if (nat_of_ascii c =? 125)%nat
                              then Some ([(k, v)], r4)
                              else None
                          | "" => None
                          end
                      | None => None
                      end
                    else None
                | "" => None
                end
            | None => None
            end
          else None
      | "" => None
      end
  end.

Definition parse (s : string) : option value :=
  match parseValue (2 * String.length s + 2) s with
  | Some (v, r) => match skipWs r with "" => Some v | _ => None end
  | None => None
  end.

Definition hexDigit (n : nat) : ascii :=
  if (n <? 10)%nat then ascii_of_nat (48 + n) else ascii_of_nat (87 + n).

Fixpoint escape (s : string) : string :=
  match s with
  | "" => ""
  | String c r =>
      let n := nat_of_ascii c in
      (if (n =? 34)%nat then String (byte 92) (String (byte 34) "")
       else if (n =? 92)%nat then String (byte 92) (String (byte 92) "")
       else if (n =? 10)%nat then String (byte 92) "n"
       else if (n =? 13)%nat then String (byte 92) "r"
       else if (n =? 9)%nat then String (byte 92) "t"
       else if (n <? 32)%nat || (n =? 60)%nat || (n =? 62)%nat || (n =? 38)%nat then
         String (byte 92)
           ("u00" ++ String (hexDigit (n / 16)) (String (hexDigit (n mod 16)) ""))
       else String c "")
      ++ escape r
  end.

Definition quote (s : string) : string := DQ ++ escape s ++ DQ.

Fixpoint print (v : value) : string :=
  match v with
  | JNull => "null"
  | JBool true => "true"
  | JBool false => "false"
  | JNum lit => lit
  | JStr s => quote s
  | JArr items =>
      "[" ++ (fix go (l : list value) : string :=
                match l with
                | [] => ""
                | x :: rest =>
                    print x ++ match rest with [] => "" | _ => "," ++ go rest end
                end) items ++ "]"
  | JObj members =>
      "{" ++ (fix go (l : list (string * value)) : string :=
                match l with
                | [] => ""
                | (k, x) :: rest =>
                    quote k ++ ":" ++ print x
                    ++ match rest with [] => "" | _ => "," ++ go rest end
                end) members ++ "}"
  end.

#[export] Instance codec : JsonCodec :=
  {| jsonParse := parse; jsonPrint := fun v => Some (print v) |}.

(** A platform without decompressors, on which [http.NewRequest] accepts
    the methods GET and POST. *)
#[export] Instance platform : Platform :=
  {| gunzip := fun _ => None;
     unbrotli := fun _ => None;
     inflate := fun _ => None;
     newRequestOK := fun method _ => String.eqb method "POST" || String.eqb method "GET" |}.

End TextCodec.

(** * Properties *)

(** ** Strings *)

Example TrimSpace_ascii : TrimSpace ("  a b " ++ String (byte 13) LF) = "a b".
Proof. reflexivity. Qed.

(** U+2003 and U+00A0 around a letter. *)
Example TrimSpace_unicode : TrimSpace (bytes [226; 128; 131; 120; 194; 160]) = "x".
Proof. reflexivity. Qed.

Example Contains_lower :
  Contains (ToLower "The MODEL Does Not Exist") "does not exist" = true.
Proof. reflexivity. Qed.

(** The capital I with a dot, U+0130, lowers to [i]. *)
Example ToLower_dotted_I :
  ToLower ("NOT EX" ++ bytes [196; 176] ++ "ST") = "not exist".
Proof. reflexivity. Qed.

Lemma append_nil_r (s : string) : s ++ "" = s.
Proof. induction s as [|c s IH]; simpl; [reflexivity | now rewrite IH]. Qed.

Lemma append_assoc (a b c : string) : (a ++ b) ++ c = a ++ (b ++ c).
Proof. induction a as [|x a IH]; simpl; [reflexivity | now rewrite IH]. Qed.

Lemma cutPrefix_append (p s : string) : cutPrefix (p ++ s) p = Some s.
Proof.
  induction p as [|a p IH]; simpl; [reflexivity |].
  now rewrite Ascii.eqb_refl.
Qed.

Lemma cutPrefix_inv (s p r : string) : cutPrefix s p = Some r -> s = p ++ r.
Proof.
  revert s. induction p as [|a p IH]; simpl; intros s H.
  - now inversion H.
  - destruct s as [|b s]; [discriminate |].
    destruct (Ascii.eqb a b) eqn:E; [| discriminate].
    apply Ascii.eqb_eq in E. subst b. now rewrite (IH _ H).
Qed.

Lemma HasPrefix_append (p s : string) : HasPrefix (p ++ s) p = true.
Proof. unfold HasPrefix. now rewrite cutPrefix_append. Qed.

Lemma TrimPrefix_append (p s : string) : TrimPrefix (p ++ s) p = s.
Proof. unfold TrimPrefix. now rewrite cutPrefix_append. Qed.

Lemma HasPrefix_inv (s p : string) :
  HasPrefix s p = true -> s = p ++ TrimPrefix s p.
Proof.
  unfold HasPrefix, TrimPrefix.
  destruct (cutPrefix s p) eqn:E; [| discriminate].
  intros _. now apply cutPrefix_inv.
Qed.

Lemma rev_snoc (s : string) (c : ascii) : rev (s ++ String c "") = String c (rev s).
Proof. induction s as [|a s IH]; simpl; [reflexivity | now rewrite IH]. Qed.

(** [occurs c s]: the byte [c] occurs in [s]. *)
Fixpoint occurs (c : ascii) (s : string) : bool :=
  match s with
  | "" => false
  | String a r => Ascii.eqb a c || occurs c r
  end.

(** A byte of no white-space rune stops the trimming from either side. *)
Definition spaceByte (c : ascii) : bool :=
  existsb (occurs c) spaceRunes || existsb (occurs c) (map rev spaceRunes).

Lemma cutPrefix_head (c : ascii) (r p : string) :
  occurs c p = false -> p <> "" -> cutPrefix (String c r) p = None.
Proof.
  destruct p as [|a p]; [congruence |]. simpl. intros H _.
  apply orb_false_iff in H. destruct H as [H _]. now rewrite H.
Qed.

Lemma cutPrefix_last (c : ascii) (p t x : string) :
  occurs c p = false ->
  cutPrefix (t ++ String c "") p = Some x ->
  exists t', x = t' ++ String c "".
Proof.
  revert t. induction p as [|a p IH]; simpl; intros t Hc H.
  - inversion H. now exists t.
  - apply orb_false_iff in Hc. destruct Hc as [Hac Hc].
    destruct t as [|b t]; simpl in H.
    + rewrite Hac in H. discriminate.
    + destruct (Ascii.eqb a b); [| discriminate]. now apply (IH t).
Qed.

Lemma cutFirst_head (c : ascii) (r : string) (ps : list string) :
  forallb (fun p => negb (occurs c p) && negb (String.eqb p "")) ps = true ->
  cutFirst ps (String c r) = None.
Proof.
  induction ps as [|p ps IH]; simpl; [reflexivity |].
  intros H. apply andb_true_iff in H. destruct H as [Hp Hps].
  apply andb_true_iff in Hp. destruct Hp as [H1 H2].
  apply negb_true_iff in H1. apply negb_true_iff in H2.
  apply String.eqb_neq in H2.
  rewrite (cutPrefix_head c r p H1 H2). now apply IH.
Qed.

Lemma cutFirst_last (c : ascii) (ps : list string) (t x : string) :
  forallb (fun p => negb (occurs c p)) ps = true ->
  cutFirst ps (t ++ String c "") = Some x ->
  exists t', x = t' ++ String c "".
Proof.
  induction ps as [|p ps IH]; simpl; [discriminate |].
  intros H Hx. apply andb_true_iff in H. destruct H as [Hp Hps].
  apply negb_true_iff in Hp.
  destruct (cutPrefix (t ++ String c "") p) eqn:E.
  - inversion Hx; subst. now apply (cutPrefix_last c p t x).
  - now apply IH.
Qed.

Lemma trimLeftN_last (c : ascii) (ps : list string) (n : nat) (t : string) :
  forallb (fun p => negb (occurs c p)) ps = true ->
  exists t', trimLeftN ps n (t ++ String c "") = t' ++ String c "".
Proof.
  intros Hps. revert t. induction n as [|n IH]; simpl; intros t.
  - now exists t.
  - destruct (cutFirst ps (t ++ String c "")) eqn:E.
    + destruct (cutFirst_last c ps t s Hps E) as [t' ->]. apply IH.
    + now exists t.
Qed.

(** Trimming keeps a first byte that belongs to no white-space rune. *)
Lemma TrimSpace_head (c : ascii) (r : string) :
  forallb (fun p => negb (occurs c p) && negb (String.eqb p "")) spaceRunes = true ->
  forallb (fun p => negb (occurs c p)) (map rev spaceRunes) = true ->
  exists r', TrimSpace (String c r) = String c r'.
Proof.
  intros H1 H2. unfold TrimSpace, TrimLeftSpace.
  assert (E : trimLeftN spaceRunes (String.length (String c r)) (String c r) = String c r).
  { cbn [String.length trimLeftN]. now rewrite (cutFirst_head c r spaceRunes H1). }
  rewrite E. unfold TrimRightSpace. cbn [rev].
  destruct (trimLeftN_last c (map rev spaceRunes) (String.length (String c r)) (rev r) H2)
    as [t' ->].
  rewrite rev_snoc. now exists (rev t').
Qed.

Lemma TrimSpace_data (line : string) :
  HasPrefix line "data: " = true ->
  (String.length (TrimSpace line) =? 0)%nat = false.
Proof.
  intros H. apply HasPrefix_inv in H.
  remember (TrimPrefix line "data: ") as rest eqn:Hr. clear Hr. subst line.
  change ("data: " ++ rest) with (String "d" ("ata: " ++ rest)).
  destruct (TrimSpace_head "d" ("ata: " ++ rest)) as [r' ->]; reflexivity.
Qed.

(** ** The stream relay *)

(** One line of the stream: bytes without a newline, then the newline. *)
Fixpoint isLine (s : string) : bool :=
  match s with
  | "" => false
  | String c r =>
      if Ascii.eqb c (byte 10) then String.eqb r "" else isLine r
  end.

Lemma ReadBytes_line (line rest : string) :
  isLine line = true -> Relay.ReadBytes (line ++ rest) = (line, Some rest).
Proof.
  induction line as [|c line IH]; simpl; [discriminate |].
  destruct (Ascii.eqb c (byte 10)).
  - intros H. apply String.eqb_eq in H. now subst.
  - intros H. now rewrite (IH H).
Qed.

Lemma isLine_append (p : string) :
  occurs (byte 10) p = false -> isLine (p ++ LF) = true.
Proof.
  induction p as [|c p IH]; simpl; [reflexivity |].
  intros H. apply orb_false_iff in H. destruct H as [H1 H2].
  rewrite H1. now apply IH.
Qed.

Section RelayLoop.
Context {codec : JsonCodec}.

Lemma relayLoop_unfold (m r : string) (w : ResponseWriter) :
  Relay.relayLoop m r w =
  match Relay.ReadBytes r with
  | (_, None) => Returned w
  | (line, Some rest) =>
      match Relay.relayLine m line w with
      | Relay.Continue w' => Relay.relayLoop m rest w'
      | Relay.Break w' => Returned w'
      | Relay.Panic w' => Panicked w'
      end
  end.
Proof.
  funelim (Relay.relayLoop m r w);
    match goal with E : Relay.ReadBytes _ = _ |- _ => rewrite E end; reflexivity.
Qed.

(** A turn on a complete line. *)
Lemma relayLoop_line (m line rest : string) (w : ResponseWriter) :
  isLine line = true ->
  Relay.relayLoop m (line ++ rest) w =
  match Relay.relayLine m line w with
  | Relay.Continue w' => Relay.relayLoop m rest w'
  | Relay.Break w' => Returned w'
  | Relay.Panic w' => Panicked w'
  end.
Proof.
  intros H. rewrite relayLoop_unfold. now rewrite (ReadBytes_line line rest H).
Qed.

(** A data line whose payload is neither the end marker nor a JSON object
    or null is written as it is. *)
Lemma relayLine_undecoded (m line : string) (w : ResponseWriter) :
  HasPrefix line "data: " = true ->
  TrimSpace (TrimPrefix line "data: ") <> "[DONE]" ->
  Relay.unmarshalChunk (TrimSpace (TrimPrefix line "data: ")) = None ->
  Relay.relayLine m line w = Relay.Continue (Write line w).
Proof.
  intros Hp Hd Hu. unfold Relay.relayLine.
  rewrite (TrimSpace_data line Hp), Hp.
  apply String.eqb_neq in Hd. now rewrite Hd, Hu.
Qed.

Lemma relayLine_done (m line : string) (w : ResponseWriter) :
  HasPrefix line "data: " = true ->
  TrimSpace (TrimPrefix line "data: ") = "[DONE]" ->
  Relay.relayLine m line w = Relay.Break (Write ("data: [DONE]" ++ LF ++ LF) w).
Proof.
  intros Hp Hd. unfold Relay.relayLine.
  now rewrite (TrimSpace_data line Hp), Hp, Hd.
Qed.

Lemma relayLine_blank (m line : string) (w : ResponseWriter) :
  TrimSpace line = "" ->
  Relay.relayLine m line w = Relay.Continue (Write line w).
Proof. intros H. unfold Relay.relayLine. now rewrite H. Qed.

Lemma relayLine_decoded (m line md : string) (chunk : gomap) (w : ResponseWriter) :
  HasPrefix line "data: " = true ->
  TrimSpace (TrimPrefix line "data: ") <> "[DONE]" ->
  Relay.unmarshalChunk (TrimSpace (TrimPrefix line "data: ")) = Some (Some chunk) ->
  jsonPrint (JObj (mapStore chunk "model" (JStr m))) = Some md ->
  Relay.relayLine m line w =
  Relay.Continue (Write (LF ++ LF) (Write md (Write "data: " w))).
Proof.
  intros Hp Hd Hu Hm. unfold Relay.relayLine.
  rewrite (TrimSpace_data line Hp), Hp.
  apply String.eqb_neq in Hd. now rewrite Hd, Hu, Hm.
Qed.

End RelayLoop.

(** [m[k] = v] and then [m[k]]. *)
Lemma mapIndex_mapStore_same (m : gomap) (k : string) (v : value) :
  mapIndex (mapStore m k v) k = Some v.
Proof.
  induction m as [|[k' v'] m IH]; simpl.
  - now rewrite String.eqb_refl.
  - destruct (String.compare k k') eqn:E; simpl.
    + now rewrite String.eqb_refl.
    + now rewrite String.eqb_refl.
    + assert (Hne : String.eqb k k' = false).
      { apply String.eqb_neq. intros ->.
        pose proof (String.compare_antisym k' k') as Ha.
        rewrite E in Ha. discriminate. }
      now rewrite Hne.
Qed.

Lemma mapIndex_mapStore_other (m : gomap) (k k0 : string) (v : value) :
  k0 <> k -> mapIndex (mapStore m k v) k0 = mapIndex m k0.
Proof.
  intros Hne. induction m as [|[k' v'] m IH]; simpl.
  - apply String.eqb_neq in Hne. now rewrite Hne.
  - destruct (String.compare k k') eqn:E; simpl.
    + apply String.compare_eq_iff in E. subst k'.
      apply String.eqb_neq in Hne. now rewrite Hne.
    + apply String.eqb_neq in Hne. now rewrite Hne.
    + now rewrite IH.
Qed.

Lemma Write_Out (b : string) (w : ResponseWriter) : Out (Write b w) = Out w ++ b.
Proof. unfold Write, WriteHeader. now destruct (Status w). Qed.

Lemma Write_Header (b : string) (w : ResponseWriter) : Header (Write b w) = Header w.
Proof. unfold Write, WriteHeader. now destruct (Status w). Qed.

Lemma Write_Status (b : string) (w : ResponseWriter) :
  Status (Write b w) = Some (statusSent w).
Proof.
  unfold Write, WriteHeader, statusSent.
  destruct (Status w) eqn:E; cbn [written Status]; [exact E | reflexivity].
Qed.

Lemma WriteHeader_Header (c : Z) (w : ResponseWriter) :
  Header (written (WriteHeader c w)) = Header w.
Proof.
  unfold WriteHeader. destruct (Status w); [reflexivity |].
  destruct (negb (checkWriteHeaderCode c)); [reflexivity |].
  now destruct (informational c).
Qed.

Lemma WriteHeader_Out (c : Z) (w : ResponseWriter) :
  Out (written (WriteHeader c w)) = Out w.
Proof.
  unfold WriteHeader. destruct (Status w); [reflexivity |].
  destruct (negb (checkWriteHeaderCode c)); [reflexivity |].
  now destruct (informational c).
Qed.

(** A code that [WriteHeader] takes for the status of the response. *)
Definition finalCode (code : Z) : bool :=
  checkWriteHeaderCode code && negb (informational code).

Lemma WriteHeader_fresh (code : Z) (w : ResponseWriter) :
  Status w = None -> finalCode code = true ->
  WriteHeader code w
  = Returned {| Header := Header w; Status := Some code; Interim := Interim w;
                Out := Out w |}.
Proof.
  intros Hs Hc. unfold finalCode in Hc. apply andb_true_iff in Hc.
  destruct Hc as [H1 H2]. apply negb_true_iff in H2.
  unfold WriteHeader. now rewrite Hs, H1, H2.
Qed.

Lemma WriteHeader_invalid (code : Z) (w : ResponseWriter) :
  Status w = None -> checkWriteHeaderCode code = false ->
  WriteHeader code w = Panicked w.
Proof. intros Hs Hc. unfold WriteHeader. now rewrite Hs, Hc. Qed.

Lemma Write_fresh (b : string) (w : ResponseWriter) :
  Status w = None ->
  Write b w = {| Header := Header w; Status := Some 200%Z; Interim := Interim w;
                 Out := Out w ++ b |}.
Proof. intros Hs. unfold Write, WriteHeader. now rewrite Hs. Qed.

Lemma Write_rest (b : string) (w : ResponseWriter) (c : Z) :
  Status w = Some c -> Status (Write b w) = Some c /\ Out (Write b w) = Out w ++ b.
Proof. intros H. unfold Write, WriteHeader. rewrite H. now split. Qed.

Lemma unmarshalChunk_invalid {codec : JsonCodec} (data : string) :
  jsonParse data = None -> Relay.unmarshalChunk data = None.
Proof. intros H. unfold Relay.unmarshalChunk. now rewrite H. Qed.

(** What the relay writes for the bytes [r] of a body, on a writer that
    has written nothing. *)
Definition relayed {codec : JsonCodec} (originalModel r : string) : string :=
  Out (written (Relay.relayLoop originalModel r newWriter)).

Definition turnWriter (t : Relay.turn) : ResponseWriter :=
  match t with Relay.Continue w => w | Relay.Break w => w | Relay.Panic w => w end.

(** A turn adds the same bytes and ends the same way on every writer. *)
Lemma relayLine_Out {codec : JsonCodec} (m line : string) (w : ResponseWriter) :
  match Relay.relayLine m line w, Relay.relayLine m line newWriter with
  | Relay.Continue w1, Relay.Continue w0 => Out w1 = Out w ++ Out w0
  | Relay.Break w1, Relay.Break w0 => Out w1 = Out w ++ Out w0
  | Relay.Panic w1, Relay.Panic w0 => Out w1 = Out w ++ Out w0
  | _, _ => False
  end.
Proof.
  unfold Relay.relayLine.
  destruct (String.length (TrimSpace line) =? 0)%nat; [now rewrite !Write_Out |].
  destruct (HasPrefix line "data: "); [| now rewrite !Write_Out].
  destruct (String.eqb _ "[DONE]"); [now rewrite !Write_Out |].
  destruct (Relay.unmarshalChunk _) as [[chunk|]|].
  - destruct (jsonPrint _); rewrite !Write_Out; cbn [Out newWriter append];
      now rewrite ?append_assoc.
  - cbn [Out newWriter]. now rewrite append_nil_r.
  - now rewrite !Write_Out.
Qed.

(** The relay adds to what the writer holds what it writes on a writer
    that holds nothing. *)
Lemma relayLoop_Out {codec : JsonCodec} (m r : string) (w : ResponseWriter) :
  Out (written (Relay.relayLoop m r w)) = Out w ++ relayed m r.
Proof.
  unfold relayed.
  assert (H : forall n r w, (String.length r < n)%nat ->
            Out (written (Relay.relayLoop m r w))
            = Out w ++ Out (written (Relay.relayLoop m r newWriter))).
  { clear r w. induction n as [|n IH]; intros r w Hn; [lia |].
    rewrite (relayLoop_unfold m r w), (relayLoop_unfold m r newWriter).
    destruct (Relay.ReadBytes r) as [line [rest|]] eqn:E.
    - pose proof (relayLine_Out m line w) as Hl.
      pose proof (Relay.ReadBytes_shorter r line rest E) as Hlt.
      destruct (Relay.relayLine m line w) as [w1|w1|w1];
        destruct (Relay.relayLine m line newWriter) as [w2|w2|w2];
        try contradiction; cbn [written]; try exact Hl.
      rewrite (IH rest w1 ltac:(lia)), (IH rest w2 ltac:(lia)), Hl.
      now rewrite append_assoc.
    - cbn [written Out newWriter]. now rewrite append_nil_r. }
  apply (H (S (String.length r)) r w). lia.
Qed.

(** A complete line that a turn writes as it is. *)
Lemma relayLoop_forwarded {codec : JsonCodec} (m line rest : string)
    (w : ResponseWriter) :
  isLine line = true ->
  Relay.relayLine m line w = Relay.Continue (Write line w) ->
  Relay.relayLoop m (line ++ rest) w = Relay.relayLoop m rest (Write line w)
  /\ Out (written (Relay.relayLoop m (line ++ rest) w))
     = Out w ++ line ++ relayed m rest.
Proof.
  intros Hl Ht.
  assert (E : Relay.relayLoop m (line ++ rest) w = Relay.relayLoop m rest (Write line w))
    by (rewrite (relayLoop_line m line rest w Hl); now rewrite Ht).
  split; [exact E |].
  now rewrite E, relayLoop_Out, Write_Out, append_assoc.
Qed.

(** C8, amended. A data line of the stream that ends with a newline and
    whose payload is not the [DONE] token and does not decode (it is not
    a JSON text, or it is one that is neither an object nor null, or an
    object with a number beyond float64) is written to the client byte
    for byte, after what was written before and before what the relay
    writes for the lines after it: the event is not dropped and it does
    not end the stream. *)
Theorem malformed_event_forwarded {codec : JsonCodec}
    (originalModel line rest : string) (w : ResponseWriter) :
  isLine line = true ->
  HasPrefix line "data: " = true ->
  TrimSpace (TrimPrefix line "data: ") <> "[DONE]" ->
  Relay.unmarshalChunk (TrimSpace (TrimPrefix line "data: ")) = None ->
  Relay.relayLoop originalModel (line ++ rest) w
  = Relay.relayLoop originalModel rest (Write line w)
  /\ Out (written (Relay.relayLoop originalModel (line ++ rest) w))
     = Out w ++ line ++ relayed originalModel rest.
Proof.
  intros Hl Hp Hd Hu. apply relayLoop_forwarded; [exact Hl |].
  now apply relayLine_undecoded.
Qed.

Lemma malformed_event_forwarded_witness :
  Relay.relayLoop (codec := TextCodec.codec) "deepseek-chat"
    (("data: {bad" ++ LF) ++ ("data: [DONE]" ++ LF)) newWriter
  = Relay.relayLoop (codec := TextCodec.codec) "deepseek-chat"
      ("data: [DONE]" ++ LF) (Write ("data: {bad" ++ LF) newWriter)
  /\ Out (written
            (Relay.relayLoop (codec := TextCodec.codec) "deepseek-chat"
               (("data: {bad" ++ LF) ++ ("data: [DONE]" ++ LF)) newWriter))
     = Out newWriter ++ ("data: {bad" ++ LF)
       ++ relayed (codec := TextCodec.codec) "deepseek-chat" ("data: [DONE]" ++ LF).
Proof.
  apply (malformed_event_forwarded (codec := TextCodec.codec)).
  - reflexivity.
  - reflexivity.
  - vm_compute. discriminate.
  - reflexivity.
Defined.

(** Where C8 fails. The upstream ends the stream after a malformed event
    without a newline: the event is dropped, only the line before it
    is written. *)
Lemma malformed_event_counterexample :
  Relay.relayLoop (codec := TextCodec.codec) "deepseek-chat"
    ((": ok" ++ LF) ++ "data: {bad") newWriter
  = Returned (Write (": ok" ++ LF) newWriter)
  /\ Out (Write (": ok" ++ LF) newWriter) = ": ok" ++ LF.
Proof. split; vm_compute; reflexivity. Qed.

(** ** An event as [encoding/json] re-encodes it

    In the words of the package documentation: an object becomes a map,
    in which a key holds the value of its last member; a map is written
    with its keys sorted; a number becomes the float64 nearest to it, and
    is an error when there is none. *)

Module ByKey <: Orders.TotalLeBool.
Definition t : Type := (string * value)%type.
Definition leb (a b : t) : bool := String.leb (fst a) (fst b).
Lemma leb_total (a b : t) : leb a b = true \/ leb b a = true.
Proof. apply String.leb_total. Qed.
End ByKey.

Module KeySort := Mergesort.Sort ByKey.

(** The members whose key does not come again later. *)
Fixpoint lastWins (members : list (string * value)) : list (string * value) :=
  match members with
  | [] => []
  | kv :: rest =>
      if existsb (String.eqb (fst kv)) (map fst rest) then lastWins rest
      else kv :: lastWins rest
  end.

Fixpoint allOf {A : Type} (l : list (option A)) : option (list A) :=
  match l with
  | [] => Some []
  | Some a :: rest => option_map (cons a) (allOf rest)
  | None :: _ => None
  end.

Fixpoint reencoded (v : value) : option value :=
  match v with
  | JNum lit => option_map JNum (Float64.respell lit)
  | JArr items => option_map JArr (allOf (map reencoded items))
  | JObj members =>
      option_map (fun ms => JObj (KeySort.sort (lastWins ms)))
        (allOf (map (fun kv => option_map (pair (fst kv)) (reencoded (snd kv)))
                    members))
  | _ => Some v
  end.

(** The event with the members [members] after [model] was set to
    [originalModel]. *)
Definition reencodedEvent (members : list (string * value)) (originalModel : string)
  : option value :=
  reencoded (JObj (members ++ [("model", JStr originalModel)])%list).

Definition keyLt (a b : string * value) : Prop :=
  String.compare (fst a) (fst b) = Lt.

Lemma compare_refl (a : string) : String.compare a a = Eq.
Proof.
  pose proof (String.compare_antisym a a) as H.
  destruct (String.compare a a); try reflexivity; discriminate.
Qed.

Lemma compare_Lt_trans (a b c : string) :
  String.compare a b = Lt -> String.compare b c = Lt -> String.compare a c = Lt.
Proof.
  intros H1 H2. apply String_as_OT.cmp_lt.
  apply (String_as_OT.lt_trans a b c); now apply String_as_OT.cmp_lt.
Qed.

Lemma compare_Gt_Lt (a b : string) :
  String.compare a b = Gt -> String.compare b a = Lt.
Proof. intros H. rewrite String.compare_antisym, H. reflexivity. Qed.

Lemma compare_Lt_neq (a b : string) : String.compare a b = Lt -> String.eqb a b = false.
Proof.
  intros H. apply String.eqb_neq. intros ->. rewrite compare_refl in H. discriminate.
Qed.

(** A map: the keys go up strictly. *)
Definition isMap (m : gomap) : Prop := StronglySorted keyLt m.

Lemma mapIndex_above (m : gomap) (k : string) :
  Forall (fun kv => String.compare k (fst kv) = Lt) m -> mapIndex m k = None.
Proof.
  induction 1 as [|[k' v'] m H _ IH]; [reflexivity |].
  cbn [mapIndex]. cbn [fst] in H. now rewrite (compare_Lt_neq k k' H).
Qed.

Lemma isMap_mapStore (m : gomap) (k : string) (v : value) :
  isMap m -> isMap (mapStore m k v).
Proof.
  unfold isMap. induction 1 as [|[k' v'] m Hs IH Hf]; cbn [mapStore].
  - repeat constructor.
  - destruct (String.compare k k') eqn:E.
    + apply String.compare_eq_iff in E. subst k'. now constructor.
    + constructor; [now constructor |].
      constructor; [exact E |].
      eapply Forall_impl; [| exact Hf]. intros [k2 v2] H2. unfold keyLt in *.
      cbn [fst] in *. now apply (compare_Lt_trans k k' k2).
    + constructor; [exact IH |].
      assert (Hk : keyLt (k', v') (k, v)) by (now apply compare_Gt_Lt).
      clear -Hf Hk. induction m as [|[k2 v2] m IHm]; cbn [mapStore].
      * now constructor.
      * inversion Hf as [|? ? H2 Hf']; subst.
        destruct (String.compare k k2); constructor; auto.
Qed.

(** Two maps with the same value at every key are the same map. *)
Lemma isMap_ext (a b : gomap) :
  isMap a -> isMap b -> (forall k, mapIndex a k = mapIndex b k) -> a = b.
Proof.
  unfold isMap. intros Ha. revert b.
  induction Ha as [|[k v] a Ha IH Hfa]; intros b Hb Hext.
  - destruct b as [|[k2 v2] b]; [reflexivity |].
    specialize (Hext k2). cbn in Hext. rewrite String.eqb_refl in Hext. discriminate.
  - destruct b as [|[k2 v2] b].
    { specialize (Hext k). cbn in Hext. rewrite String.eqb_refl in Hext. discriminate. }
    inversion Hb as [|? ? Hb' Hfb]; subst.
    assert (Hka : mapIndex a k = None)
      by (apply mapIndex_above; eapply Forall_impl; [| exact Hfa]; now intros [? ?]).
    assert (Hkb : mapIndex b k2 = None)
      by (apply mapIndex_above; eapply Forall_impl; [| exact Hfb]; now intros [? ?]).
    destruct (String.compare k k2) eqn:E.
    + apply String.compare_eq_iff in E. subst k2.
      pose proof (Hext k) as Hk. cbn in Hk. rewrite String.eqb_refl in Hk.
      inversion Hk; subst v2. f_equal.
      apply IH; [exact Hb' |]. intros k0.
      destruct (String.eqb_spec k0 k) as [->|Hne]; [now rewrite Hka, Hkb |].
      specialize (Hext k0). cbn in Hext.
      apply String.eqb_neq in Hne. now rewrite Hne in Hext.
    + exfalso. specialize (Hext k). cbn in Hext.
      rewrite String.eqb_refl, (compare_Lt_neq k k2 E) in Hext.
      rewrite mapIndex_above in Hext; [discriminate |].
      eapply Forall_impl; [| exact Hfb]. intros [k3 v3] H3. unfold keyLt in *.
      cbn [fst] in *. now apply (compare_Lt_trans k k2 k3).
    + exfalso. apply compare_Gt_Lt in E. specialize (Hext k2). cbn in Hext.
      rewrite String.eqb_refl, (compare_Lt_neq k2 k E) in Hext.
      rewrite mapIndex_above in Hext; [discriminate |].
      eapply Forall_impl; [| exact Hfa]. intros [k3 v3] H3. unfold keyLt in *.
      cbn [fst] in *. now apply (compare_Lt_trans k2 k k3).
Qed.

Lemma mapIndex_app (a b : gomap) (k : string) :
  mapIndex (a ++ b)%list k
  = match mapIndex a k with Some v => Some v | None => mapIndex b k end.
Proof.
  induction a as [|[k' v'] a IH]; [reflexivity |].
  cbn [app mapIndex]. now destruct (String.eqb k k').
Qed.

Lemma mapIndex_In (l : gomap) (k : string) (v : value) :
  mapIndex l k = Some v -> In (k, v) l.
Proof.
  induction l as [|[k' v'] l IH]; [discriminate |].
  cbn [mapIndex]. destruct (String.eqb_spec k k') as [->|_].
  - intros H. inversion H. now left.
  - intros H. right. now apply IH.
Qed.

Lemma mapIndex_missing (l : gomap) (k : string) :
  mapIndex l k = None <-> ~ In k (map fst l).
Proof.
  induction l as [|[k' v'] l IH]; [now split |].
  cbn [mapIndex map fst In]. destruct (String.eqb_spec k k') as [->|Hne].
  - split; [discriminate | intros H; exfalso; apply H; now left].
  - rewrite IH. split; [intros H [E|Hin]; [congruence | contradiction] |].
    intros H Hin. apply H. now right.
Qed.

Lemma In_mapIndex (l : gomap) (k : string) (v : value) :
  NoDup (map fst l) -> In (k, v) l -> mapIndex l k = Some v.
Proof.
  induction l as [|[k' v'] l IH]; [contradiction |].
  cbn [map fst]. intros Hnd Hin. inversion Hnd as [|? ? Hnotin Hnd']; subst.
  cbn [mapIndex]. destruct Hin as [E|Hin].
  - inversion E; subst. now rewrite String.eqb_refl.
  - destruct (String.eqb_spec k k') as [->|_]; [| now apply IH].
    exfalso. apply Hnotin. now apply (in_map fst l (k', v)).
Qed.

(** The value at a key does not depend on the order of the members when
    no key comes twice. *)
Lemma mapIndex_Permutation (l l' : gomap) (k : string) :
  NoDup (map fst l) -> Permutation l l' -> mapIndex l k = mapIndex l' k.
Proof.
  intros Hnd Hp.
  assert (Hnd' : NoDup (map fst l'))
    by (eapply Permutation_NoDup; [apply Permutation_map; exact Hp | exact Hnd]).
  destruct (mapIndex l k) as [v|] eqn:E.
  - symmetry. apply In_mapIndex; [exact Hnd' |].
    eapply Permutation_in; [exact Hp |]. now apply mapIndex_In.
  - symmetry. apply mapIndex_missing. apply mapIndex_missing in E.
    intros Hin. apply E. eapply Permutation_in; [| exact Hin].
    apply Permutation_map. now apply Permutation_sym.
Qed.

Lemma existsb_key (k : string) (l : gomap) :
  existsb (String.eqb k) (map fst l) = true <-> In k (map fst l).
Proof.
  rewrite existsb_exists. split.
  - intros [x [Hin E]]. apply String.eqb_eq in E. now subst.
  - intros H. exists k. split; [exact H | apply String.eqb_refl].
Qed.

Lemma lastWins_keys (members : list (string * value)) (k : string) :
  In k (map fst (lastWins members)) <-> In k (map fst members).
Proof.
  induction members as [|[k' v'] rest IH]; [now split |].
  cbn [lastWins fst].
  destruct (existsb (String.eqb k') (map fst rest)) eqn:E.
  - rewrite IH. cbn [map fst In]. apply existsb_key in E.
    split; [now right | intros [<-|H]; assumption].
  - cbn [map fst In]. now rewrite IH.
Qed.

Lemma lastWins_NoDup (members : list (string * value)) :
  NoDup (map fst (lastWins members)).
Proof.
  induction members as [|[k' v'] rest IH]; [constructor |].
  cbn [lastWins fst].
  destruct (existsb (String.eqb k') (map fst rest)) eqn:E; [exact IH |].
  cbn [map fst]. constructor; [| exact IH].
  rewrite lastWins_keys. intros Hin. apply existsb_key in Hin. congruence.
Qed.

(** A key holds the value of its last member. *)
Lemma mapIndex_lastWins (members : list (string * value)) (k : string) :
  mapIndex (lastWins members) k = mapIndex (List.rev members) k.
Proof.
  induction members as [|[k' v'] rest IH]; [reflexivity |].
  cbn [lastWins fst List.rev]. rewrite mapIndex_app. cbn [mapIndex].
  destruct (existsb (String.eqb k') (map fst rest)) eqn:E.
  - rewrite IH. destruct (mapIndex (List.rev rest) k) as [v|] eqn:El; [reflexivity |].
    destruct (String.eqb_spec k k') as [->|_]; [| reflexivity].
    exfalso. apply mapIndex_missing in El. apply El.
    rewrite map_rev, <- in_rev. now apply existsb_key.
  - cbn [mapIndex]. rewrite <- IH.
    destruct (String.eqb_spec k k') as [->|_]; [| now destruct (mapIndex _ k)].
    assert (Hn : mapIndex (lastWins rest) k' = None).
    { apply mapIndex_missing. rewrite lastWins_keys. intros Hin.
      apply existsb_key in Hin. congruence. }
    now rewrite Hn.
Qed.

Lemma leb_trans : Transitive (fun a b => is_true (ByKey.leb a b)).
Proof.
  intros [a va] [b vb] [c vc]. unfold ByKey.leb, String.leb, is_true. cbn [fst].
  destruct (String.compare a b) eqn:E1; try discriminate;
    destruct (String.compare b c) eqn:E2; try discriminate; intros _ _.
  - apply String.compare_eq_iff in E1, E2. subst. now rewrite compare_refl.
  - apply String.compare_eq_iff in E1. subst. now rewrite E2.
  - apply String.compare_eq_iff in E2. subst. now rewrite E1.
  - now rewrite (compare_Lt_trans a b c E1 E2).
Qed.

Lemma sort_isMap (l : gomap) : NoDup (map fst l) -> isMap (KeySort.sort l).
Proof.
  intros Hnd.
  assert (Hnd' : NoDup (map fst (KeySort.sort l)))
    by (eapply Permutation_NoDup;
        [apply Permutation_map; apply KeySort.Permuted_sort | exact Hnd]).
  pose proof (KeySort.StronglySorted_sort l leb_trans) as Hs.
  unfold isMap. induction Hs as [|[k v] m Hs IH Hf]; [constructor |].
  cbn [map fst] in Hnd'. inversion Hnd' as [|? ? Hnotin Hnd'']; subst.
  constructor; [now apply IH |].
  rewrite Forall_forall in *. intros [k2 v2] Hin. specialize (Hf _ Hin).
  unfold keyLt, ByKey.leb, String.leb, is_true in *. cbn [fst] in *.
  destruct (String.compare k k2) eqn:E; [| reflexivity | discriminate].
  apply String.compare_eq_iff in E. subst k2.
  exfalso. apply Hnotin. now apply (in_map fst m (k, v2)).
Qed.

(** [m[k] = v] for the members of a list, in order. *)
Definition storeAll (members : list (string * value)) (m : gomap) : gomap :=
  fold_left (fun m kv => mapStore m (fst kv) (snd kv)) members m.

Lemma mapIndex_mapStore (m : gomap) (k k0 : string) (v : value) :
  mapIndex (mapStore m k v) k0 = if String.eqb k0 k then Some v else mapIndex m k0.
Proof.
  destruct (String.eqb_spec k0 k) as [->|H].
  - apply mapIndex_mapStore_same.
  - now apply mapIndex_mapStore_other.
Qed.

Lemma mapIndex_storeAll (members : list (string * value)) (m : gomap) (k : string) :
  mapIndex (storeAll members m) k
  = match mapIndex (List.rev members) k with
    | Some v => Some v
    | None => mapIndex m k
    end.
Proof.
  revert m. induction members as [|[k' v'] rest IH]; intros m; [reflexivity |].
  cbn [storeAll fold_left fst snd List.rev]. fold (storeAll rest (mapStore m k' v')).
  rewrite IH, mapIndex_app, mapIndex_mapStore. cbn [mapIndex].
  destruct (mapIndex (List.rev rest) k); [reflexivity |].
  now destruct (String.eqb k k').
Qed.

Lemma storeAll_isMap (members : list (string * value)) (m : gomap) :
  isMap m -> isMap (storeAll members m).
Proof.
  revert m. induction members as [|[k' v'] rest IH]; intros m H; [exact H |].
  cbn [storeAll fold_left]. apply IH. now apply isMap_mapStore.
Qed.

(** Storing the members one after the other gives the map of the
    documentation. *)
Lemma storeAll_sort (members : list (string * value)) :
  storeAll members [] = KeySort.sort (lastWins members).
Proof.
  apply isMap_ext.
  - apply storeAll_isMap. constructor.
  - apply sort_isMap, lastWins_NoDup.
  - intros k. rewrite mapIndex_storeAll.
    rewrite <- (mapIndex_Permutation (lastWins members) _ k (lastWins_NoDup members)
                  (KeySort.Permuted_sort (lastWins members))).
    rewrite mapIndex_lastWins. now destruct (mapIndex (List.rev members) k).
Qed.

Lemma storeAll_app (a b : list (string * value)) (m : gomap) :
  storeAll (a ++ b)%list m = storeAll b (storeAll a m).
Proof. unfold storeAll. apply fold_left_app. Qed.

Section ValueInduction.
Variable P : value -> Prop.
Hypothesis HNull : P JNull.
Hypothesis HBool : forall b, P (JBool b).
Hypothesis HNum : forall lit, P (JNum lit).
Hypothesis HStr : forall s, P (JStr s).
Hypothesis HArr : forall items, Forall P items -> P (JArr items).
Hypothesis HObj : forall members, Forall (fun kv => P (snd kv)) members -> P (JObj members).

Fixpoint value_nested_ind (v : value) : P v :=
  match v with
  | JNull => HNull
  | JBool b => HBool b
  | JNum lit => HNum lit
  | JStr s => HStr s
  | JArr items =>
      HArr items
        ((fix all (l : list value) : Forall P l :=
            match l with
            | [] => Forall_nil P
            | x :: rest => Forall_cons x (value_nested_ind x) (all rest)
            end) items)
  | JObj members =>
      HObj members
        ((fix all (l : list (string * value)) : Forall (fun kv => P (snd kv)) l :=
            match l with
            | [] => Forall_nil _
            | kv :: rest =>
                Forall_cons (P := fun kv => P (snd kv)) kv
                  (value_nested_ind (snd kv)) (all rest)
            end) members)
  end.
End ValueInduction.

Lemma storeMembers_storeAll (members : list (string * value)) (m : gomap) :
  Forall (fun kv => goValue (snd kv) = reencoded (snd kv)) members ->
  storeMembers members m
  = option_map (fun ms => storeAll ms m)
      (allOf (map (fun kv => option_map (pair (fst kv)) (reencoded (snd kv))) members)).
Proof.
  intros H. revert m. induction H as [|[k x] rest Hx _ IH]; intros m; [reflexivity |].
  cbn [storeMembers map allOf fst snd]. cbn [snd] in Hx. rewrite Hx.
  destruct (reencoded x) as [y|]; [| reflexivity].
  cbn [option_map]. rewrite IH.
  destruct (allOf _) as [ms|]; reflexivity.
Qed.

(** [json.Unmarshal] into an [interface{}] gives the value of the
    documentation. *)
Lemma goValue_reencoded (v : value) : goValue v = reencoded v.
Proof.
  induction v as [| | | |items IH|members IH] using value_nested_ind;
    try reflexivity.
  - cbn [goValue reencoded]. f_equal.
    induction IH as [|x rest Hx _ IHrest]; [reflexivity |].
    cbn [map allOf]. rewrite Hx, IHrest.
    destruct (reencoded x); [| reflexivity]. now destruct (allOf _).
  - cbn [reencoded].
    transitivity (option_map JObj (storeMembers members [])); [reflexivity |].
    rewrite (storeMembers_storeAll members [] IH).
    destruct (allOf _) as [ms|]; [| reflexivity].
    cbn [option_map]. now rewrite storeAll_sort.
Qed.

(** The chunk of the relay after [chunk["model"] = originalModel]. *)
Lemma chunk_reencodedEvent (members : list (string * value)) (originalModel : string) :
  option_map (fun chunk => JObj (mapStore chunk "model" (JStr originalModel)))
             (goMap members)
  = reencodedEvent members originalModel.
Proof.
  unfold reencodedEvent, goMap. cbn [reencoded].
  assert (H : Forall (fun kv => goValue (snd kv) = reencoded (snd kv)) members)
    by (apply Forall_forall; intros kv _; apply goValue_reencoded).
  rewrite (storeMembers_storeAll members [] H).
  rewrite map_app. cbn [map fst snd reencoded option_map].
  assert (Happ : forall l : list (option (string * value)),
            allOf (l ++ [Some ("model", JStr originalModel)])%list
            = option_map (fun ms => (ms ++ [("model", JStr originalModel)])%list)
                         (allOf l)).
  { induction l as [|[a|] l IHl]; [reflexivity | | reflexivity].
    cbn [app allOf]. rewrite IHl. now destruct (allOf l). }
  rewrite Happ. destruct (allOf _) as [ms|]; [| reflexivity].
  cbn [option_map]. rewrite <- storeAll_sort, storeAll_app. reflexivity.
Qed.

(** JSON texts are written below with the apostrophe for the double
    quote. *)
Fixpoint dq (s : string) : string :=
  match s with
  | "" => ""
  | String c r => String (if Ascii.eqb c (byte 39) then byte 34 else c) (dq r)
  end.

(** What the relay writes for the line [data: p] whose payload is the
    object with the members [members]: the event re-encoded with the
    model set, between [data: ] and two newlines; the line as it came
    when the event has a number beyond float64 or cannot be written. *)
Definition relayedEvent {codec : JsonCodec} (originalModel p : string)
    (members : list (string * value)) : string :=
  match reencodedEvent members originalModel with
  | Some event =>
      match jsonPrint event with
      | Some md => "data: " ++ md ++ LF ++ LF
      | None => "data: " ++ p ++ LF
      end
  | None => "data: " ++ p ++ LF
  end.

(** C3, amended. On the input lines [data: {...}], a blank line and
    [data: [DONE]], whatever follows them, the relay writes the event,
    the blank line, and [data: [DONE]] with two newlines, and then
    returns: nothing that comes after the [DONE] line is written. The
    event is written re-encoded, [model] being the effective model: the
    members sorted by key, a repeated key with its last value, every
    number as the float64 nearest to it; an event with a number beyond
    float64 is written as it came, its model included. *)
Theorem relay_scenario {codec : JsonCodec}
    (originalModel p rest : string) (members : list (string * value))
    (w : ResponseWriter) :
  occurs (byte 10) p = false ->
  HasPrefix p "{" = true ->
  jsonParse (TrimSpace (p ++ LF)) = Some (JObj members) ->
  exists w',
    Relay.relayLoop originalModel
      ("data: " ++ p ++ LF ++ LF ++ "data: [DONE]" ++ LF ++ rest) w = Returned w'
    /\ Out w' = Out w ++ relayedEvent originalModel p members
                ++ LF ++ "data: [DONE]" ++ LF ++ LF.
Proof.
  intros Hp Hb Hj.
  set (line1 := "data: " ++ p ++ LF).
  set (line3 := "data: [DONE]" ++ LF).
  assert (Hin : "data: " ++ p ++ LF ++ LF ++ "data: [DONE]" ++ LF ++ rest
                = line1 ++ LF ++ line3 ++ rest).
  { unfold line1, line3. now rewrite !append_assoc. }
  assert (Hl1 : isLine line1 = true).
  { unfold line1. rewrite <- append_assoc. apply isLine_append.
    simpl. exact Hp. }
  assert (Hp1 : HasPrefix line1 "data: " = true) by apply HasPrefix_append.
  assert (Ht1 : TrimPrefix line1 "data: " = p ++ LF) by apply TrimPrefix_append.
  assert (Hd1 : TrimSpace (p ++ LF) <> "[DONE]").
  { apply HasPrefix_inv in Hb.
    remember (TrimPrefix p "{") as p' eqn:E. clear E. subst p.
    change (("{" ++ p') ++ LF) with (String "{" (p' ++ LF)).
    destruct (TrimSpace_head "{" (p' ++ LF)) as [r' ->]; try reflexivity.
    discriminate. }
  assert (Hturn : exists w1,
            Relay.relayLine originalModel line1 w = Relay.Continue w1
            /\ Out w1 = Out w ++ relayedEvent originalModel p members).
  { pose proof (chunk_reencodedEvent members originalModel) as Hc.
    unfold relayedEvent. rewrite <- Hc.
    destruct (goMap members) as [chunk|] eqn:Eg; cbn [option_map].
    - destruct (jsonPrint (JObj (mapStore chunk "model" (JStr originalModel))))
        as [md|] eqn:Em.
      + eexists. split.
        * apply (relayLine_decoded originalModel line1 md chunk w Hp1);
            [now rewrite Ht1 | | exact Em].
          rewrite Ht1. unfold Relay.unmarshalChunk. now rewrite Hj, Eg.
        * rewrite !Write_Out. now rewrite !append_assoc.
      + eexists. split; [| apply Write_Out].
        unfold Relay.relayLine. rewrite (TrimSpace_data line1 Hp1), Hp1, Ht1.
        apply String.eqb_neq in Hd1. rewrite Hd1.
        unfold Relay.unmarshalChunk. rewrite Hj, Eg. cbn [option_map].
        now rewrite Em.
    - eexists. split; [| apply Write_Out].
      apply (relayLine_undecoded originalModel line1 w Hp1); [now rewrite Ht1 |].
      rewrite Ht1. unfold Relay.unmarshalChunk. now rewrite Hj, Eg. }
  destruct Hturn as [w1 [Hturn Hout]].
  exists (Write (line3 ++ LF) (Write LF w1)). split.
  - rewrite Hin.
    rewrite (relayLoop_line originalModel line1 _ w Hl1), Hturn.
    rewrite (relayLoop_line originalModel LF _ _ eq_refl).
    rewrite (relayLine_blank originalModel LF _ eq_refl).
    rewrite (relayLoop_line originalModel line3 _ _ eq_refl).
    rewrite (relayLine_done originalModel line3 _ eq_refl eq_refl).
    unfold line3. now rewrite !append_assoc.
  - rewrite !Write_Out, Hout. unfold line3. now rewrite !append_assoc.
Qed.

(** An event with a repeated key and a number with a trailing zero, and
    what the relay makes of it for the model deepseek-chat. *)
Definition sampleEvent : string := dq "{'model':'x','id':'c1','n':1.50,'id':'c2'}".

Definition sampleEventOut : string := dq "{'id':'c2','model':'deepseek-chat','n':1.5}".

Lemma relay_scenario_witness :
  exists w',
    Relay.relayLoop (codec := TextCodec.codec) "deepseek-chat"
      ("data: " ++ sampleEvent ++ LF ++ LF ++ "data: [DONE]" ++ LF
       ++ ("data: late" ++ LF)) newWriter = Returned w'
    /\ Out w' = "data: " ++ sampleEventOut ++ LF ++ LF ++ LF
                ++ "data: [DONE]" ++ LF ++ LF.
Proof.
  destruct (relay_scenario (codec := TextCodec.codec) "deepseek-chat" sampleEvent
              ("data: late" ++ LF)
              [("model", JStr "x"); ("id", JStr "c1"); ("n", JNum "1.50");
               ("id", JStr "c2")] newWriter)
    as [w' [Hr Ho]].
  - reflexivity.
  - reflexivity.
  - reflexivity.
  - exists w'. split; [exact Hr |]. rewrite Ho. vm_compute. reflexivity.
Defined.

(** Where C3 fails. An event with a number beyond float64 is written as
    it came, with the model of the upstream; and an integer that is not
    a float64 comes out as another integer. *)
Lemma relay_scenario_counterexample :
  Out (written
         (Relay.relayLoop (codec := TextCodec.codec) "deepseek-chat"
            ("data: " ++ dq "{'model':'x','n':1e999}" ++ LF ++ LF
             ++ "data: [DONE]" ++ LF) newWriter))
  = "data: " ++ dq "{'model':'x','n':1e999}" ++ LF ++ LF ++ "data: [DONE]" ++ LF ++ LF
  /\ Out (written
            (Relay.relayLoop (codec := TextCodec.codec) "deepseek-chat"
               ("data: " ++ dq "{'model':'x','id':9007199254740993}" ++ LF ++ LF
                ++ "data: [DONE]" ++ LF) newWriter))
     = "data: " ++ dq "{'id':9007199254740992,'model':'deepseek-chat'}" ++ LF ++ LF ++ LF
       ++ "data: [DONE]" ++ LF ++ LF.
Proof. split; vm_compute; reflexivity. Qed.

(** ** The fallback of the DeepSeek dispatcher *)

Definition notFoundPhrases : list string :=
  ["not found"; "not exist"; "invalid model"; "does not exist"; "no such model"].

(** The model-not-found condition on a response, in the words of the
    specification. *)
Definition modelNotFound (status : Z) (body : string) : Prop :=
  status = 404%Z
  \/ ((status = 400%Z \/ status = 422%Z)
      /\ Contains (ToLower body) "model" = true
      /\ exists phrase, In phrase notFoundPhrases
                        /\ Contains (ToLower body) phrase = true).

Lemma isModelNotFoundError_spec (status : Z) (body : string) :
  DeepSeek.isModelNotFoundError status body = true <-> modelNotFound status body.
Proof.
  unfold DeepSeek.isModelNotFoundError, modelNotFound, notFoundPhrases,
    StatusNotFound, StatusBadRequest, StatusUnprocessableEntity.
  destruct (Z.eqb_spec status 404) as [E404|N404].
  { split; [now left | reflexivity]. }
  destruct (Z.eqb_spec status 400) as [E400|N400];
    destruct (Z.eqb_spec status 422) as [E422|N422]; simpl orb.
  all: split; intros H.
  all: try (right; split; [now (left + right) |];
            apply andb_true_iff in H; destruct H as [Hm Hp]; split; [exact Hm |];
            repeat (apply orb_true_iff in Hp; destruct Hp as [Hp|Hp]);
            eexists; (split; [| exact Hp]); simpl; tauto).
  all: try (destruct H as [H|[_ [Hm [ph [Hin Hc]]]]]; [contradiction |];
            apply andb_true_iff; split; [exact Hm |];
            simpl in Hin;
            repeat (destruct Hin as [<-|Hin]; [rewrite Hc, ?orb_true_r; reflexivity |]);
            contradiction).
  - discriminate.
  - destruct H as [H|[[H|H] _]]; contradiction.
Qed.

Example model_error_400 :
  DeepSeek.isModelNotFoundError 400 "Model Not Exist" = true
  /\ DeepSeek.isModelNotFoundError 422 "invalid MODEL name" = true
  /\ DeepSeek.isModelNotFoundError 400 "model is overloaded" = false
  /\ DeepSeek.isModelNotFoundError 429 "model not found" = false
  /\ DeepSeek.isModelNotFoundError 404 "" = true.
Proof. repeat split; reflexivity. Qed.

(** What makes the first attempt fall back. *)
Definition fallbackCondition (first : doResult) : Prop :=
  first = DoError
  \/ exists resp, first = DoResponse resp /\ modelNotFound (StatusCode resp) (Body resp).

Definition sentModels (s : World DeepSeek.DeepSeekRequest.t) : list string :=
  map (fun q => DeepSeek.DeepSeekRequest.Model (PBody q)) (Sent s).

Lemma modelNotFound_status (status : Z) (body : string) :
  modelNotFound status body -> (status <? 400)%Z = false.
Proof.
  intros [H|[[H|H] _]]; subst; reflexivity.
Qed.

Lemma build_ignores_body {platform : Platform} (cfg : DeepSeek.Config.t) {R : Type}
    (origReq : Request R) (b1 b2 : DeepSeek.DeepSeekRequest.t) (stream : bool)
    (apiKey : string) :
  DeepSeek.buildDeepSeekHTTPRequest cfg origReq b1 stream apiKey <> None ->
  exists q, DeepSeek.buildDeepSeekHTTPRequest cfg origReq b2 stream apiKey = Some q
            /\ PBody q = b2.
Proof.
  unfold DeepSeek.buildDeepSeekHTTPRequest.
  destruct (newRequestOK _ _); [| congruence].
  intros _. eexists. split; reflexivity.
Qed.

Lemma fallbackAttempt_run {platform : Platform} (cfg : DeepSeek.Config.t) {R : Type}
    (origReq : Request R) (dsReq : DeepSeek.DeepSeekRequest.t) (stream : bool)
    (apiKey : string) (s1 : World DeepSeek.DeepSeekRequest.t) :
  DeepSeek.buildDeepSeekHTTPRequest cfg origReq dsReq stream apiKey <> None ->
  exists q2,
    PBody q2 = DeepSeek.DeepSeekRequest.withModel dsReq DeepSeek.deepseekReasonerModel
    /\ DeepSeek.fallbackAttempt cfg origReq dsReq stream apiKey s1
       = (match Script s1 with
          | DoResponse resp2 :: _ => Some (resp2, DeepSeek.deepseekReasonerModel)
          | _ => None
          end,
          {| Clock := Clock s1; Script := tl (Script s1);
             Sent := (Sent s1 ++ [q2])%list |}).
Proof.
  intros Hb.
  destruct (build_ignores_body cfg origReq dsReq
              (DeepSeek.DeepSeekRequest.withModel dsReq DeepSeek.deepseekReasonerModel)
              stream apiKey Hb) as [q2 [Hq2 Hb2]].
  exists q2. split; [exact Hb2 |].
  unfold DeepSeek.fallbackAttempt. rewrite Hq2. unfold bind, clientDo, ret.
  destruct (Script s1) as [|[|resp2] later']; reflexivity.
Qed.

Lemma firstAttempt_run {platform : Platform} (cfg : DeepSeek.Config.t) {R : Type}
    (origReq : Request R) (dsReq : DeepSeek.DeepSeekRequest.t) (stream : bool)
    (apiKey : string) (s : World DeepSeek.DeepSeekRequest.t)
    (first : doResult) (later : list doResult)
    (q1 : ProxyRequest DeepSeek.DeepSeekRequest.t) :
  DeepSeek.buildDeepSeekHTTPRequest cfg origReq dsReq stream apiKey = Some q1 ->
  Script s = first :: later ->
  DeepSeek.doDeepSeekRequestWithFallback cfg origReq dsReq dsReq stream apiKey s
  = let s1 := {| Clock := Clock s; Script := later; Sent := (Sent s ++ [q1])%list |} in
    match first with
    | DoError => DeepSeek.fallbackAttempt cfg origReq dsReq stream apiKey s1
    | DoResponse resp =>
        if (StatusCode resp <? 400)%Z then
          (Some (resp, DeepSeek.DeepSeekRequest.Model dsReq), s1)
        else
          match ReadAll resp with
          | None => (None, s1)
          | Some respBody =>
              if DeepSeek.isModelNotFoundError (StatusCode resp) respBody then
                DeepSeek.fallbackAttempt cfg origReq dsReq stream apiKey s1
              else
                (Some ({| StatusCode := StatusCode resp; RespHeader := RespHeader resp;
                          Body := respBody; BodyBreaks := false |},
                       DeepSeek.DeepSeekRequest.Model dsReq), s1)
          end
    end.
Proof.
  intros Hq1 Hs. unfold DeepSeek.doDeepSeekRequestWithFallback.
  rewrite Hq1. unfold bind, clientDo. rewrite Hs. cbv zeta.
  destruct first as [|resp]; [reflexivity |].
  destruct (StatusCode resp <? 400)%Z; [reflexivity |].
  destruct (ReadAll resp); [| reflexivity].
  now destruct (DeepSeek.isModelNotFoundError (StatusCode resp) s0).
Qed.

(** The first attempt is answered with an error status and the body of
    the answer cannot be read. *)
Definition unreadable (first : doResult) : Prop :=
  exists resp, first = DoResponse resp /\ (400 <= StatusCode resp)%Z
               /\ BodyBreaks resp = true.

(** C2, amended. DeepSeek proxy, first upstream attempt answered by
    [first]. When [first] is a response with an error status whose body
    cannot be read, nothing more is sent and the dispatcher returns an
    error, whatever the status, a 404 included. Otherwise the attempt
    falls back exactly when [first] is a transport failure, a 404, or a
    400 or 422 whose body, in lower case, contains "model" and one of the
    not-found phrases. Then exactly one more request is sent, with the
    model deepseek-reasoner, and its result is returned as it is: two
    requests in all. In every other case ([first] is then a response, a
    success or any other error status such as 429) the first response is
    returned with the requested model and nothing more is sent. *)
Theorem fallback_once {platform : Platform} (cfg : DeepSeek.Config.t) {R : Type}
    (origReq : Request R) (dsReq : DeepSeek.DeepSeekRequest.t) (stream : bool)
    (apiKey : string) (s : World DeepSeek.DeepSeekRequest.t)
    (first : doResult) (later : list doResult) :
  DeepSeek.buildDeepSeekHTTPRequest cfg origReq dsReq stream apiKey <> None ->
  Script s = first :: later ->
  let out := DeepSeek.doDeepSeekRequestWithFallback cfg origReq dsReq dsReq stream apiKey s in
  (unreadable first ->
     sentModels (snd out)
     = (sentModels s ++ [DeepSeek.DeepSeekRequest.Model dsReq])%list
     /\ fst out = None)
  /\ (~ unreadable first -> fallbackCondition first ->
        sentModels (snd out)
        = (sentModels s
           ++ [DeepSeek.DeepSeekRequest.Model dsReq; DeepSeek.deepseekReasonerModel])%list
        /\ fst out = match later with
                     | DoResponse resp2 :: _ => Some (resp2, DeepSeek.deepseekReasonerModel)
                     | _ => None
                     end)
  /\ (~ unreadable first -> ~ fallbackCondition first ->
        sentModels (snd out)
        = (sentModels s ++ [DeepSeek.DeepSeekRequest.Model dsReq])%list
        /\ exists resp, first = DoResponse resp
                        /\ fst out = Some (resp, DeepSeek.DeepSeekRequest.Model dsReq))
  /\ (List.length (Sent (snd out)) <= List.length (Sent s) + 2)%nat.
Proof.
  intros Hb Hs out.
  destruct (build_ignores_body cfg origReq dsReq dsReq stream apiKey Hb)
    as [q1 [Hq1 Hb1]].
  set (s1 := {| Clock := Clock s; Script := later; Sent := (Sent s ++ [q1])%list |}).
  destruct (fallbackAttempt_run cfg origReq dsReq stream apiKey s1 Hb)
    as [q2 [Hb2 Hfall]].
  assert (Hone : sentModels s1
                 = (sentModels s ++ [DeepSeek.DeepSeekRequest.Model dsReq])%list).
  { unfold sentModels, s1. simpl. rewrite map_app. simpl. now rewrite Hb1. }
  assert (Htwo : sentModels {| Clock := Clock s1; Script := tl (Script s1);
                               Sent := (Sent s1 ++ [q2])%list |}
                 = (sentModels s ++ [DeepSeek.DeepSeekRequest.Model dsReq;
                                     DeepSeek.deepseekReasonerModel])%list).
  { unfold sentModels in *. cbn [Sent]. rewrite map_app, Hone, <- app_assoc.
    simpl. now rewrite Hb2. }
  assert (Hlen1 : List.length (Sent s1) = (List.length (Sent s) + 1)%nat).
  { unfold s1. simpl. now rewrite length_app. }
  subst out.
  rewrite (firstAttempt_run cfg origReq dsReq stream apiKey s first later q1 Hq1 Hs).
  cbv zeta. fold s1.
  destruct first as [|resp].
  - (* transport failure *)
    rewrite Hfall. cbn [fst snd Script s1].
    split; [intros [resp [Hr _]]; discriminate Hr |].
    split; [intros _ _; split; [exact Htwo | reflexivity] |].
    split; [intros _ Hn; exfalso; apply Hn; now left |].
    cbn [Sent]. rewrite length_app, Hlen1. simpl. lia.
  - destruct (StatusCode resp <? 400)%Z eqn:Elt.
    + (* not an error status *)
      cbn [fst snd].
      split.
      { intros [resp' [Hr [Hge _]]]. inversion Hr; subst resp'.
        apply Z.ltb_lt in Elt. lia. }
      split.
      { intros _ [Hc|[resp' [Hr Hm]]]; [discriminate |].
        inversion Hr; subst resp'.
        apply modelNotFound_status in Hm. congruence. }
      split; [intros _ _; split; [exact Hone | now exists resp] |].
      rewrite Hlen1. lia.
    + apply Z.ltb_ge in Elt. unfold ReadAll.
      destruct (BodyBreaks resp) eqn:Ebr.
      * (* the error body cannot be read *)
        cbn [fst snd].
        split; [intros _; split; [exact Hone | reflexivity] |].
        split; [intros Hn; exfalso; apply Hn; now exists resp |].
        split; [intros Hn; exfalso; apply Hn; now exists resp |].
        rewrite Hlen1. lia.
      * assert (Hread : ~ unreadable (DoResponse resp)).
        { intros [resp' [Hr [_ Hbr]]]. inversion Hr; subst resp'. congruence. }
        split; [intros Hu; contradiction |].
        destruct (DeepSeek.isModelNotFoundError (StatusCode resp) (Body resp)) eqn:Em.
        -- (* model not found *)
           rewrite Hfall. cbn [fst snd Script s1].
           split; [intros _ _; split; [exact Htwo | reflexivity] |].
           split.
           { intros _ Hn. exfalso. apply Hn. right. exists resp. split; [reflexivity |].
             now apply isModelNotFoundError_spec. }
           cbn [Sent]. rewrite length_app, Hlen1. simpl. lia.
        -- (* another error status *)
           cbn [fst snd].
           split.
           { intros _ [Hc|[resp' [Hr Hm]]]; [discriminate |].
             inversion Hr; subst resp'.
             apply isModelNotFoundError_spec in Hm. congruence. }
           split.
           { intros _ _. split; [exact Hone |].
             exists resp. split; [reflexivity |].
             destruct resp as [st hd bd br]. simpl in *. now subst br. }
           rewrite Hlen1. lia.
Qed.

(** Sample data: a chat-completions request for the model gpt-4. *)
Definition chatConfig : DeepSeek.Config.t :=
  {| DeepSeek.Config.endpoint := DeepSeek.deepseekEndpoint;
     DeepSeek.Config.model := DeepSeek.deepseekChatModel |}.

Definition userMessage (text : string) : DeepSeek.Message.t :=
  {| DeepSeek.Message.Role := "user"; DeepSeek.Message.Content := Some (JStr text);
     DeepSeek.Message.ToolCalls := []; DeepSeek.Message.ToolCallID := "";
     DeepSeek.Message.Name := "" |}.

Definition sampleChatRequest (model : string) (stream : bool) : DeepSeek.ChatRequest.t :=
  {| DeepSeek.ChatRequest.Model := model;
     DeepSeek.ChatRequest.Messages := [userMessage "hi"];
     DeepSeek.ChatRequest.Stream := stream;
     DeepSeek.ChatRequest.Functions := [];
     DeepSeek.ChatRequest.Tools := [];
     DeepSeek.ChatRequest.ToolChoice := None;
     DeepSeek.ChatRequest.Temperature := None;
     DeepSeek.ChatRequest.MaxTokens := None |}.

Definition samplePost {R : Type} (auth : string) (body : R) : Request R :=
  {| Method := "POST"; URLPath := "/v1/chat/completions"; RawQuery := "";
     ReqHeader := [("Authorization", [auth])]; ReqBody := Decoded body |}.

Definition sampleDsReq : DeepSeek.DeepSeekRequest.t :=
  DeepSeek.buildDeepSeekRequest (sampleChatRequest "gpt-4" false) "gpt-4".

Definition reply (status : Z) (body : string) : Response :=
  {| StatusCode := status; RespHeader := []; Body := body; BodyBreaks := false |}.

(** A world whose clock reads 1700000000 first and a second more at
    every reading after. *)
Definition worldOf {B : Type} (script : list doResult) : World B :=
  {| Clock := fun n => (1700000000 + Z.of_nat n)%Z; Script := script; Sent := [] |}.

Definition gone : Response := reply 404 "no such thing".

Lemma fallback_once_witness :
  let out :=
    DeepSeek.doDeepSeekRequestWithFallback (platform := TextCodec.platform) chatConfig
      (samplePost "Bearer k" (sampleChatRequest "gpt-4" false))
      sampleDsReq sampleDsReq false "k"
      (worldOf [DoResponse gone; DoResponse (reply 200 "{}")]) in
  sentModels (snd out) = ["gpt-4"; "deepseek-reasoner"]
  /\ fst out = Some (reply 200 "{}", "deepseek-reasoner").
Proof.
  destruct (fallback_once (platform := TextCodec.platform) chatConfig
              (samplePost "Bearer k" (sampleChatRequest "gpt-4" false))
              sampleDsReq false "k"
              (worldOf [DoResponse gone; DoResponse (reply 200 "{}")])
              (DoResponse gone) [DoResponse (reply 200 "{}")])
    as [_ [H _]].
  - vm_compute. discriminate.
  - reflexivity.
  - apply H.
    + intros [resp [Hr [_ Hbr]]]. inversion Hr; subst resp. discriminate Hbr.
    + right. exists gone. split; [reflexivity | now left].
Defined.

(** Where C2 fails. The upstream answers the first attempt with a 404,
    and then with a 429, whose body breaks off: the dispatcher sends
    nothing more and returns an error, and the caller gets 502. *)
Definition brokenReply (status : Z) : Response :=
  {| StatusCode := status; RespHeader := []; Body := "par"; BodyBreaks := true |}.

Lemma fallback_counterexample :
  (fallbackCondition (DoResponse (brokenReply 404))
   /\ sentModels
        (snd (DeepSeek.proxyHandler (codec := TextCodec.codec)
                (platform := TextCodec.platform) "" chatConfig newWriter
                (samplePost "Bearer k" (sampleChatRequest "gpt-4" false))
                (worldOf [DoResponse (brokenReply 404); DoResponse (reply 200 "{}")])))
      = ["gpt-4"]
   /\ statusSent
        (written
           (fst (DeepSeek.proxyHandler (codec := TextCodec.codec)
                   (platform := TextCodec.platform) "" chatConfig newWriter
                   (samplePost "Bearer k" (sampleChatRequest "gpt-4" false))
                   (worldOf [DoResponse (brokenReply 404);
                             DoResponse (reply 200 "{}")]))))
      = 502%Z)
  /\ (~ fallbackCondition (DoResponse (brokenReply 429))
      /\ statusSent
           (written
              (fst (DeepSeek.proxyHandler (codec := TextCodec.codec)
                      (platform := TextCodec.platform) "" chatConfig newWriter
                      (samplePost "Bearer k" (sampleChatRequest "gpt-4" false))
                      (worldOf [DoResponse (brokenReply 429)]))))
         = 502%Z).
Proof.
  split.
  - split; [right; exists (brokenReply 404); split; [reflexivity | now left] |].
    split; vm_compute; reflexivity.
  - split; [| vm_compute; reflexivity].
    intros [H|[resp [Hr Hm]]]; [discriminate H |].
    inversion Hr; subst resp. destruct Hm as [H|[[H|H] _]]; discriminate H.
Qed.

(** A 404 on the first attempt: two requests, the second for the reasoner
    model, whose response is the result. *)
Example fallback_on_404 :
  let out :=
    DeepSeek.doDeepSeekRequestWithFallback (platform := TextCodec.platform) chatConfig
      (samplePost "Bearer k" (sampleChatRequest "gpt-4" false))
      sampleDsReq sampleDsReq false "k"
      (worldOf [DoResponse (reply 404 "no such thing"); DoResponse (reply 200 "{}")]) in
  sentModels (snd out) = ["gpt-4"; "deepseek-reasoner"]
  /\ fst out = Some (reply 200 "{}", "deepseek-reasoner").
Proof. vm_compute. split; reflexivity. Qed.

(** A 400 that says, in any case, that the model was not found. *)
Example fallback_on_400_model_not_found :
  sentModels
    (snd (DeepSeek.doDeepSeekRequestWithFallback (platform := TextCodec.platform)
            chatConfig (samplePost "Bearer k" (sampleChatRequest "gpt-4" false))
            sampleDsReq sampleDsReq false "k"
            (worldOf [DoResponse (reply 400 "Model Not Found");
                      DoResponse (reply 200 "{}")])))
  = ["gpt-4"; "deepseek-reasoner"].
Proof. vm_compute. reflexivity. Qed.

(** A 429 is handed back as it is, after one request. *)
Example no_fallback_on_429 :
  let out :=
    DeepSeek.doDeepSeekRequestWithFallback (platform := TextCodec.platform) chatConfig
      (samplePost "Bearer k" (sampleChatRequest "gpt-4" false))
      sampleDsReq sampleDsReq false "k"
      (worldOf [DoResponse (reply 429 "model not found, slow down");
                DoResponse (reply 200 "{}")]) in
  sentModels (snd out) = ["gpt-4"]
  /\ fst out = Some (reply 429 "model not found, slow down", "gpt-4").
Proof. vm_compute. split; reflexivity. Qed.

(** An error response whose body cannot be read is an error of the
    dispatcher, after one request. *)
Example unreadable_error_body :
  let out :=
    DeepSeek.doDeepSeekRequestWithFallback (platform := TextCodec.platform) chatConfig
      (samplePost "Bearer k" (sampleChatRequest "gpt-4" false))
      sampleDsReq sampleDsReq false "k"
      (worldOf [DoResponse {| StatusCode := 500; RespHeader := []; Body := "par";
                              BodyBreaks := true |};
                DoResponse (reply 200 "{}")]) in
  sentModels (snd out) = ["gpt-4"] /\ fst out = None.
Proof. vm_compute. split; reflexivity. Qed.

(** A failing fallback attempt is not retried. *)
Example no_third_attempt :
  let out :=
    DeepSeek.doDeepSeekRequestWithFallback (platform := TextCodec.platform) chatConfig
      (samplePost "Bearer k" (sampleChatRequest "gpt-4" false))
      sampleDsReq sampleDsReq false "k"
      (worldOf [DoError; DoResponse (reply 404 "gone"); DoResponse (reply 200 "{}")]) in
  sentModels (snd out) = ["gpt-4"; "deepseek-reasoner"]
  /\ fst out = Some (reply 404 "gone", "deepseek-reasoner").
Proof. vm_compute. split; reflexivity. Qed.

(** ** The API key comes before the models endpoint *)

(** The header carries a bearer token: [Bearer ] and a token after it. *)
Definition hasBearerToken (authHeader : string) : Prop :=
  exists token, token <> "" /\ authHeader = "Bearer " ++ token.

Lemma no_bearer_token (authHeader : string) :
  ~ hasBearerToken authHeader ->
  String.eqb (TrimPrefix authHeader "Bearer ") ""
  || String.eqb (TrimPrefix authHeader "Bearer ") authHeader = true.
Proof.
  intros Hn. unfold TrimPrefix.
  destruct (cutPrefix authHeader "Bearer ") as [token|] eqn:E.
  - apply cutPrefix_inv in E.
    destruct (String.eqb_spec token "") as [->|Hne]; [reflexivity |].
    exfalso. apply Hn. now exists token.
  - now rewrite String.eqb_refl, orb_true_r.
Qed.

Definition deepseekKeyError : string :=
  "API key required: please provide Authorization header "
  ++ "or configure DEEPSEEK_API_KEY environment variable".

(** C10. A GET of /v1/models without a usable key is answered 401 with a
    plain-text error and without the model list, nothing being sent
    upstream: in the DeepSeek proxy when the Authorization header carries
    no bearer token and the server has no key, in the Claude proxy when
    the Authorization header does not start with [Bearer ]. The key is
    checked before the models endpoint is looked at. *)
Theorem models_need_api_key {codec : JsonCodec} {platform : Platform}
    (cfg : DeepSeek.Config.t) (poeAPIKey : string)
    (rd : Request DeepSeek.ChatRequest.t) (sd : World DeepSeek.DeepSeekRequest.t)
    (rp : Request Poe.ClaudeRequest.t) (sp : World Poe.OpenAIRequest.t) :
  (Method rd = "GET" -> URLPath rd = "/v1/models" ->
   ~ hasBearerToken (headerGet (ReqHeader rd) "Authorization") ->
   exists w,
     DeepSeek.proxyHandler "" cfg newWriter rd sd = (Returned w, sd)
     /\ statusSent w = 401%Z
     /\ headerGet (Header w) "Content-Type" = "text/plain; charset=utf-8"
     /\ Out w = deepseekKeyError ++ LF)
  /\ (Method rp = "GET" -> URLPath rp = "/v1/models" ->
      HasPrefix (headerGet (ReqHeader rp) "Authorization") "Bearer " = false ->
      exists w,
        Poe.proxyHandler poeAPIKey newWriter rp sp = (Returned w, sp)
        /\ statusSent w = 401%Z
        /\ headerGet (Header w) "Content-Type" = "text/plain; charset=utf-8"
        /\ Out w = "Missing or invalid Authorization header" ++ LF).
Proof.
  split.
  - intros Hm Hp Hn. apply no_bearer_token in Hn.
    eexists. unfold DeepSeek.proxyHandler. rewrite Hm.
    change (String.eqb "GET" "OPTIONS") with false. cbv iota zeta.
    rewrite Hn. change ("" =? "")%string with true. cbv iota.
    unfold andb, ret. split; [reflexivity |].
    split; [reflexivity | split; reflexivity].
  - intros Hm Hp Hn.
    eexists. unfold Poe.proxyHandler. rewrite Hm.
    change (String.eqb "GET" "OPTIONS") with false. cbv iota zeta.
    rewrite Hn. unfold negb, ret. split; [reflexivity |].
    split; [reflexivity | split; reflexivity].
Qed.

Definition getModels {R : Type} (hdr : header) : Request R :=
  {| Method := "GET"; URLPath := "/v1/models"; RawQuery := "";
     ReqHeader := hdr; ReqBody := ReadFails |}.

Lemma models_need_api_key_witness :
  (exists w,
     DeepSeek.proxyHandler (codec := TextCodec.codec) (platform := TextCodec.platform)
       "" chatConfig newWriter (getModels []) (worldOf []) = (Returned w, worldOf [])
     /\ statusSent w = 401%Z
     /\ headerGet (Header w) "Content-Type" = "text/plain; charset=utf-8"
     /\ Out w = deepseekKeyError ++ LF)
  /\ (exists w,
        Poe.proxyHandler (codec := TextCodec.codec) (platform := TextCodec.platform)
          "server-key" newWriter (getModels [("Authorization", ["k"])]) (worldOf [])
        = (Returned w, worldOf [])
        /\ statusSent w = 401%Z
        /\ headerGet (Header w) "Content-Type" = "text/plain; charset=utf-8"
        /\ Out w = "Missing or invalid Authorization header" ++ LF).
Proof.
  destruct (models_need_api_key (codec := TextCodec.codec)
              (platform := TextCodec.platform) chatConfig "server-key"
              (getModels []) (worldOf [])
              (getModels [("Authorization", ["k"])]) (worldOf [])) as [Hd Hp].
  split.
  - apply Hd; [reflexivity | reflexivity |].
    intros [token [_ H]]. simpl in H. discriminate H.
  - apply Hp; reflexivity.
Defined.

(** With a key the same request gets the list: the three model
    identifiers, status 200. *)
Example models_with_key :
  let out :=
    DeepSeek.proxyHandler (codec := TextCodec.codec) (platform := TextCodec.platform)
      "" chatConfig newWriter (getModels [("Authorization", ["Bearer k"])])
      (worldOf []) in
  statusSent (written (fst out)) = 200%Z
  /\ Contains (Out (written (fst out))) "deepseek-chat" = true
  /\ Contains (Out (written (fst out))) "deepseek-reasoner" = true
  /\ Contains (Out (written (fst out))) "deepseek-coder" = true
  /\ Sent (snd out) = [].
Proof. vm_compute. repeat split; reflexivity. Qed.

(** ** The buffered replies *)

Definition hasName (tc : DeepSeek.ToolCall.t) : bool :=
  negb (String.eqb (DeepSeek.FunctionCall.Name (DeepSeek.ToolCall.Function tc)) "").

Lemma append_named (l acc : list DeepSeek.ToolCall.t) :
  fold_left
    (fun acc tc =>
       if String.eqb (DeepSeek.FunctionCall.Name (DeepSeek.ToolCall.Function tc)) ""
       then acc else (acc ++ [tc])%list)
    l acc
  = (acc ++ filter hasName l)%list.
Proof.
  revert acc. induction l as [|tc l IH]; intros acc; simpl.
  - now rewrite app_nil_r.
  - rewrite IH. unfold hasName at 2.
    destruct (String.eqb _ ""); simpl; [reflexivity |].
    now rewrite <- app_assoc.
Qed.

(** What [handleRegularResponse] of the DeepSeek proxy makes of the tool
    calls of a choice: all of them, as received, followed by those with a
    function name once more. *)
Lemma convertChoice_toolCalls (choice : DeepSeek.Choice.t) :
  DeepSeek.Message.ToolCalls (DeepSeek.Choice.Message (DeepSeek.convertChoice choice))
  = (DeepSeek.Message.ToolCalls (DeepSeek.Choice.Message choice)
     ++ filter hasName (DeepSeek.Message.ToolCalls (DeepSeek.Choice.Message choice)))%list.
Proof.
  unfold DeepSeek.convertChoice. cbn [DeepSeek.Choice.Message DeepSeek.Message.ToolCalls].
  destruct (DeepSeek.Message.ToolCalls (DeepSeek.Choice.Message choice)) as [|tc l] eqn:E.
  - reflexivity.
  - change (0 <? List.length (tc :: l))%nat with true. cbv iota.
    apply append_named.
Qed.

Definition upstreamToolCallReply : string :=
  dq ("{'id':'r1','object':'chat.completion','created':1,'model':'deepseek-chat',"
      ++ "'choices':[{'index':0,'message':{'role':'assistant','content':'',"
      ++ "'tool_calls':[{'id':'a','type':'function',"
      ++ "'function':{'name':'f','arguments':'{}'}},"
      ++ "{'id':'b','type':'function','function':{'name':'','arguments':'{}'}}]},"
      ++ "'finish_reason':'tool_calls'}],"
      ++ "'usage':{'prompt_tokens':1,'completion_tokens':2,'total_tokens':3}}").

(** C9 on the code. The upstream reply carries a tool call [a] of the
    function [f] and a tool call [b] with an empty function name. The
    reply written to the caller carries [a], [b] and [a] again: the named
    tool call appears twice and the unnamed one is still there. *)
Theorem tool_calls_duplicated :
  Out (written
         (DeepSeek.handleRegularResponse (codec := TextCodec.codec)
            (platform := TextCodec.platform) newWriter
            (reply 200 upstreamToolCallReply) "deepseek-chat"))
  = dq ("{'id':'r1','object':'chat.completion','created':1,'model':'deepseek-chat',"
        ++ "'choices':[{'index':0,'message':{'role':'assistant','content':'',"
        ++ "'tool_calls':[{'id':'a','type':'function',"
        ++ "'function':{'name':'f','arguments':'{}'}},"
        ++ "{'id':'b','type':'function','function':{'name':'','arguments':'{}'}},"
        ++ "{'id':'a','type':'function','function':{'name':'f','arguments':'{}'}}]},"
        ++ "'finish_reason':'tool_calls'}],"
        ++ "'usage':{'prompt_tokens':1,'completion_tokens':2,'total_tokens':3}}").
Proof. vm_compute. reflexivity. Qed.

Definition claudeUserMessage (text : string) : Poe.ClaudeMessage.t :=
  {| Poe.ClaudeMessage.Role := "user"; Poe.ClaudeMessage.Content := Some (JStr text);
     Poe.ClaudeMessage.ToolCalls := []; Poe.ClaudeMessage.ToolCallID := "";
     Poe.ClaudeMessage.Name := "" |}.

Definition claudeRequest (model : string) (messages : list Poe.ClaudeMessage.t)
    (toolChoice : option value) (stream : bool) : Poe.ClaudeRequest.t :=
  {| Poe.ClaudeRequest.Model := model;
     Poe.ClaudeRequest.Messages := messages;
     Poe.ClaudeRequest.MaxTokens := None;
     Poe.ClaudeRequest.System := [];
     Poe.ClaudeRequest.Tools := [];
     Poe.ClaudeRequest.ToolChoice := toolChoice;
     Poe.ClaudeRequest.Temperature := None;
     Poe.ClaudeRequest.Stream := stream;
     Poe.ClaudeRequest.StreamOptions := None;
     Poe.ClaudeRequest.Metadata := None |}.

Definition upstreamReply (model : string) : string :=
  dq ("{'id':'r1','object':'chat.completion','created':1,'model':'" ++ model ++ "',"
      ++ "'choices':[{'index':0,'message':{'role':'assistant','content':'hello'},"
      ++ "'finish_reason':'stop'}],"
      ++ "'usage':{'prompt_tokens':1,'completion_tokens':2,'total_tokens':3}}").

(** C1 on the code, Claude proxy. The request names no model, so the
    upstream request goes out for the default model claude-sonnet-4.5 and
    the upstream answers for it; the reply written to the caller has the
    model field empty, the field of the request before the default was
    applied. The streamed event has it empty as well. *)
Theorem claude_reply_model_empty :
  (let out :=
     Poe.proxyHandler (codec := TextCodec.codec) (platform := TextCodec.platform)
       "" newWriter
       (samplePost "Bearer k" (claudeRequest "" [claudeUserMessage "hi"] None false))
       (worldOf [DoResponse (reply 200 (upstreamReply "claude-sonnet-4.5"))]) in
   map (fun q => Poe.OpenAIRequest.Model (PBody q)) (Sent (snd out))
   = ["claude-sonnet-4.5"]
   /\ Out (written (fst out)) = upstreamReply "")
  /\ (let out :=
        Poe.proxyHandler (codec := TextCodec.codec) (platform := TextCodec.platform)
          "" newWriter
          (samplePost "Bearer k" (claudeRequest "" [claudeUserMessage "hi"] None true))
          (worldOf [DoResponse
                      (reply 200 ("data: " ++ dq "{'id':'c1','model':'claude-sonnet-4.5'}"
                                  ++ LF ++ LF ++ "data: [DONE]" ++ LF))]) in
      map (fun q => Poe.OpenAIRequest.Model (PBody q)) (Sent (snd out))
      = ["claude-sonnet-4.5"]
      /\ Out (written (fst out))
         = "data: " ++ dq "{'id':'c1','model':''}" ++ LF ++ LF ++ LF
           ++ "data: [DONE]" ++ LF ++ LF).
Proof. vm_compute. repeat split; reflexivity. Qed.

(** The DeepSeek proxy on the same request: the reply carries the default
    model that was used; and after a fallback, the reasoner model. *)
Example deepseek_reply_model_default :
  let out :=
    DeepSeek.proxyHandler (codec := TextCodec.codec) (platform := TextCodec.platform)
      "" chatConfig newWriter
      (samplePost "Bearer k" (sampleChatRequest "" false))
      (worldOf [DoResponse (reply 200 (upstreamReply "deepseek-v3"))]) in
  sentModels (snd out) = ["deepseek-chat"]
  /\ Out (written (fst out)) = upstreamReply "deepseek-chat".
Proof. vm_compute. split; reflexivity. Qed.

Example deepseek_reply_model_fallback :
  let out :=
    DeepSeek.proxyHandler (codec := TextCodec.codec) (platform := TextCodec.platform)
      "" chatConfig newWriter
      (samplePost "Bearer k" (sampleChatRequest "gpt-4" false))
      (worldOf [DoResponse (reply 404 "unknown");
                DoResponse (reply 200 (upstreamReply "deepseek-v3"))]) in
  sentModels (snd out) = ["gpt-4"; "deepseek-reasoner"]
  /\ Out (written (fst out)) = upstreamReply "deepseek-reasoner".
Proof. vm_compute. split; reflexivity. Qed.

(** ** The Claude translator *)

Definition contentKey (kv : string * value) : bool := String.eqb (fst kv) "content".

Definition membersOf (v : value) : list (string * value) :=
  match v with JObj members => members | _ => [] end.

(** An assistant message with tool calls and no content is added with
    [Content] nil, and a nil [Content] is left out of the encoding. *)
Lemma assistant_content_omitted {codec : JsonCodec}
    (messages : list Poe.OpenAIMessage.t) (openAIMsg : Poe.OpenAIMessage.t) :
  Poe.OpenAIMessage.Role openAIMsg = "assistant" ->
  Poe.hasToolCalls openAIMsg = true ->
  Poe.hasContent openAIMsg = false ->
  exists m,
    Poe.addMessage messages openAIMsg = (messages ++ [m])%list
    /\ Poe.OpenAIMessage.Content m = None
    /\ Poe.OpenAIMessage.ToolCalls m = Poe.OpenAIMessage.ToolCalls openAIMsg
    /\ filter contentKey (membersOf (Poe.OpenAIMessage.encode m)) = [].
Proof.
  intros Hr Ht Hc. unfold Poe.addMessage. rewrite Hr, Ht, Hc. simpl.
  eexists. split; [reflexivity |]. split; [reflexivity |]. split; [reflexivity |].
  unfold Poe.OpenAIMessage.encode. simpl.
  destruct (Poe.OpenAIMessage.ToolCalls openAIMsg);
    destruct (String.eqb (Poe.OpenAIMessage.ToolCallID openAIMsg) "");
    destruct (String.eqb (Poe.OpenAIMessage.Name openAIMsg) ""); reflexivity.
Qed.

Definition toolUsePart : value :=
  JObj [("type", JStr "tool_use"); ("id", JStr "t1"); ("name", JStr "f");
        ("input", JObj [("a", JNum "1")])].

(** An assistant message whose content is one [tool_use] part, and one
    with an empty string for content and a tool call of its own. *)
Definition assistantToolUse : Poe.ClaudeMessage.t :=
  {| Poe.ClaudeMessage.Role := "assistant";
     Poe.ClaudeMessage.Content := Some (JArr [toolUsePart]);
     Poe.ClaudeMessage.ToolCalls := []; Poe.ClaudeMessage.ToolCallID := "";
     Poe.ClaudeMessage.Name := "" |}.

Definition assistantToolCall : Poe.ClaudeMessage.t :=
  {| Poe.ClaudeMessage.Role := "assistant";
     Poe.ClaudeMessage.Content := Some (JStr "");
     Poe.ClaudeMessage.ToolCalls :=
       [ {| Poe.ClaudeToolCall.ID := "t2"; Poe.ClaudeToolCall.Type_ := "function";
            Poe.ClaudeToolCall.Function :=
              {| Poe.FunctionCall.Name := "g"; Poe.FunctionCall.Arguments := "{}" |} |} ];
     Poe.ClaudeMessage.ToolCallID := ""; Poe.ClaudeMessage.Name := "" |}.

(** C5 on the code. Both assistant messages are translated to a message
    with a tool call and no text, and both are written without a
    [content] member: the field is left out, it is not written as null. *)
Theorem assistant_content_not_null :
  map (fun m => TextCodec.print (Poe.OpenAIMessage.encode m))
      (Poe.OpenAIRequest.Messages
         (Poe.convertClaudeToOpenAI (codec := TextCodec.codec)
            (claudeRequest "claude-sonnet-4.5" [assistantToolUse; assistantToolCall]
                           None false)))
  = [ dq ("{'role':'assistant','tool_calls':[{'id':'t1','type':'function',"
          ++ "'function':{'name':'f','arguments':'{\'a\':1}'}}]}");
      dq ("{'role':'assistant','tool_calls':[{'id':'t2','type':'function',"
          ++ "'function':{'name':'g','arguments':'{}'}}]}") ].
Proof. vm_compute. reflexivity. Qed.

(** A 429 of the upstream reaches the caller with its status and body,
    after one upstream request. *)
Example rate_limit_forwarded :
  let out :=
    DeepSeek.proxyHandler (codec := TextCodec.codec) (platform := TextCodec.platform)
      "" chatConfig newWriter
      (samplePost "Bearer k" (sampleChatRequest "gpt-4" false))
      (worldOf [DoResponse (reply 429 "slow down");
                DoResponse (reply 200 (upstreamReply "deepseek-v3"))]) in
  sentModels (snd out) = ["gpt-4"]
  /\ statusSent (written (fst out)) = 429%Z
  /\ Out (written (fst out)) = "slow down".
Proof. vm_compute. repeat split; reflexivity. Qed.

(** A streamed reply after a fallback: the events carry the reasoner
    model, and the relay stops at the end marker. *)
Example deepseek_stream_model_fallback :
  let out :=
    DeepSeek.proxyHandler (codec := TextCodec.codec) (platform := TextCodec.platform)
      "" chatConfig newWriter
      (samplePost "Bearer k" (sampleChatRequest "gpt-4" true))
      (worldOf [DoError;
                DoResponse
                  (reply 200 ("data: " ++ dq "{'id':'c1','model':'deepseek-v3'}"
                              ++ LF ++ LF ++ "data: [DONE]" ++ LF ++ "data: x" ++ LF))]) in
  sentModels (snd out) = ["gpt-4"; "deepseek-reasoner"]
  /\ Out (written (fst out))
     = "data: " ++ dq "{'id':'c1','model':'deepseek-reasoner'}" ++ LF ++ LF ++ LF
       ++ "data: [DONE]" ++ LF ++ LF.
Proof. vm_compute. split; reflexivity. Qed.

(** ** Tool choice *)

(** The normalisation of the specification: [auto] and [none] for these
    literals, [auto] for a selector object of type [function], nothing
    for every other shape. *)
Definition specToolChoice (choice : option value) : option string :=
  match choice with
  | Some (JStr s) =>
      if String.eqb s "auto" then Some "auto"
      else if String.eqb s "none" then Some "none"
      else None
  | Some (JObj selector) =>
      match assertString (mapIndex selector "type") with
      | Some t => if String.eqb t "function" then Some "auto" else None
      | None => None
      end
  | _ => None
  end.

(** The request declares a tool or a legacy function. *)
Definition declaresTools (chatReq : DeepSeek.ChatRequest.t) : bool :=
  negb (Nat.eqb (List.length (DeepSeek.ChatRequest.Tools chatReq)) 0)
  || negb (Nat.eqb (List.length (DeepSeek.ChatRequest.Functions chatReq)) 0).

Lemma convertToolChoice_spec (choice : option value) :
  DeepSeek.convertToolChoice choice
  = match specToolChoice choice with Some s => s | None => "" end.
Proof.
  destruct choice as [[| | |s| |m]|]; simpl; try reflexivity.
  - destruct (String.eqb_spec s "auto") as [->|Ha]; [reflexivity |].
    destruct (String.eqb_spec s "none") as [->|Hn]; reflexivity.
  - destruct (mapIndex m "type") as [[| | |t| |]|]; simpl; try reflexivity.
    now destruct (String.eqb t "function").
Qed.

Definition functionSelector : value :=
  JObj [("function", JObj [("name", JStr "foo")]); ("type", JStr "function")].

(** Where C7 fails. The Claude translator hands the selector on as it
    is, and the DeepSeek handler drops a tool choice of [auto] when the
    request declares neither tools nor functions. *)
Lemma tool_choice_counterexample :
  Poe.OpenAIRequest.ToolChoice
    (Poe.convertClaudeToOpenAI (codec := TextCodec.codec)
       (claudeRequest "claude-sonnet-4.5" [claudeUserMessage "hi"]
                      (Some functionSelector) false))
  <> option_map JStr (specToolChoice (Some functionSelector))
  /\ DeepSeek.DeepSeekRequest.ToolChoice
       (DeepSeek.buildDeepSeekRequest
          {| DeepSeek.ChatRequest.Model := "deepseek-chat";
             DeepSeek.ChatRequest.Messages := [userMessage "hi"];
             DeepSeek.ChatRequest.Stream := false;
             DeepSeek.ChatRequest.Functions := [];
             DeepSeek.ChatRequest.Tools := [];
             DeepSeek.ChatRequest.ToolChoice := Some (JStr "auto");
             DeepSeek.ChatRequest.Temperature := None;
             DeepSeek.ChatRequest.MaxTokens := None |}
          "deepseek-chat")
     <> match specToolChoice (Some (JStr "auto")) with Some s => s | None => "" end.
Proof. split; vm_compute; discriminate. Qed.

(** C7, amended. DeepSeek proxy: when the request declares a tool or a
    function, the tool choice sent is the normalisation of the
    specification, and the empty string, which [omitempty] leaves out of
    the body, where the normalisation gives nothing; when the request
    declares neither, no tool choice is sent. Claude proxy: the tool
    choice is sent on as received, whatever its shape. *)
Theorem tool_choice_translation {codec : JsonCodec}
    (chatReq : DeepSeek.ChatRequest.t) (requestModel : string)
    (claudeReq : Poe.ClaudeRequest.t) :
  DeepSeek.DeepSeekRequest.ToolChoice (DeepSeek.buildDeepSeekRequest chatReq requestModel)
  = (if declaresTools chatReq
     then match specToolChoice (DeepSeek.ChatRequest.ToolChoice chatReq) with
          | Some s => s
          | None => ""
          end
     else "")
  /\ Poe.OpenAIRequest.ToolChoice (Poe.convertClaudeToOpenAI claudeReq)
     = Poe.ClaudeRequest.ToolChoice claudeReq.
Proof.
  split; [| reflexivity].
  unfold DeepSeek.buildDeepSeekRequest, declaresTools.
  destruct (DeepSeek.ChatRequest.Tools chatReq) as [|t ts];
    destruct (DeepSeek.ChatRequest.Functions chatReq) as [|f fs]; simpl;
    try apply convertToolChoice_spec; reflexivity.
Qed.

(** ** Messages of the Claude translator, one turn at a time *)

(** The [tool_result] parts that make the translator replace a message by
    tool messages: the message is a user message and its content is an
    array of objects with such a part. *)
Definition toolResultParts (msg : Poe.ClaudeMessage.t) : option (list (option gomap)) :=
  if String.eqb (Poe.ClaudeMessage.Role msg) "user" then
    match Poe.ClaudeMessage.Content msg with
    | Some raw =>
        match decSlice decMap None raw [] with
        | Some parts =>
            if existsb Poe.isToolResult parts
            then Some (filter Poe.isToolResult parts) else None
        | None => None
        end
    | None => None
    end
  else None.

Lemma scanToolResults_acc (parts : list (option gomap))
    (messages : list Poe.OpenAIMessage.t) (seen : bool) :
  fold_left
    (fun st part =>
       if Poe.isToolResult part
       then ((fst st ++ [Poe.toolResultMessage part])%list, true)
       else st)
    parts (messages, seen)
  = ((messages ++ map Poe.toolResultMessage (filter Poe.isToolResult parts))%list,
     seen || existsb Poe.isToolResult parts).
Proof.
  revert messages seen. induction parts as [|part parts IH]; intros messages seen; simpl.
  - now rewrite app_nil_r, orb_false_r.
  - destruct (Poe.isToolResult part); simpl.
    + rewrite IH. simpl. now rewrite <- app_assoc, orb_true_r.
    + apply IH.
Qed.

Section ClaudeTurns.
Context {codec : JsonCodec}.

Lemma addMessage_app (messages : list Poe.OpenAIMessage.t) (m : Poe.OpenAIMessage.t) :
  Poe.addMessage messages m = (messages ++ Poe.addMessage [] m)%list.
Proof.
  unfold Poe.addMessage.
  destruct (Poe.hasContent m || Poe.hasToolCalls m); [reflexivity |].
  now rewrite app_nil_r.
Qed.

Lemma convertMessage_cases (messages : list Poe.OpenAIMessage.t)
    (msg : Poe.ClaudeMessage.t) :
  Poe.convertMessage messages msg
  = match toolResultParts msg with
    | Some parts => (messages ++ map Poe.toolResultMessage parts)%list
    | None => Poe.addMessage messages (Poe.regularMessage msg)
    end.
Proof.
  unfold Poe.convertMessage, toolResultParts, Poe.scanToolResults.
  destruct (String.eqb (Poe.ClaudeMessage.Role msg) "user"); [| reflexivity].
  destruct (Poe.ClaudeMessage.Content msg) as [raw|]; [| reflexivity].
  destruct (decSlice decMap None raw []) as [parts|]; [| reflexivity].
  rewrite scanToolResults_acc. simpl orb.
  destruct (existsb Poe.isToolResult parts) eqn:E; [reflexivity |].
  assert (Hf : filter Poe.isToolResult parts = []).
  { clear -E. induction parts as [|p ps IH]; [reflexivity |].
    simpl in *. apply orb_false_iff in E. destruct E as [E1 E2].
    rewrite E1. now apply IH. }
  rewrite Hf. simpl. now rewrite app_nil_r.
Qed.

Lemma convertMessage_app (messages : list Poe.OpenAIMessage.t)
    (msg : Poe.ClaudeMessage.t) :
  Poe.convertMessage messages msg = (messages ++ Poe.convertMessage [] msg)%list.
Proof.
  rewrite !convertMessage_cases.
  destruct (toolResultParts msg); [reflexivity | apply addMessage_app].
Qed.

(** The loop adds, message by message and in order, what one turn adds. *)
Lemma convertMessages_concat (msgs : list Poe.ClaudeMessage.t)
    (acc : list Poe.OpenAIMessage.t) :
  fold_left Poe.convertMessage msgs acc
  = (acc ++ flat_map (Poe.convertMessage []) msgs)%list.
Proof.
  revert acc. induction msgs as [|msg msgs IH]; intros acc; simpl.
  - now rewrite app_nil_r.
  - rewrite IH, (convertMessage_app acc msg). now rewrite <- app_assoc.
Qed.

Lemma convertClaudeToOpenAI_split (claudeReq : Poe.ClaudeRequest.t)
    (pre post : list Poe.ClaudeMessage.t) (msg : Poe.ClaudeMessage.t) :
  Poe.ClaudeRequest.Messages claudeReq = (pre ++ msg :: post)%list ->
  Poe.OpenAIRequest.Messages (Poe.convertClaudeToOpenAI claudeReq)
  = ((Poe.systemMessages (Poe.ClaudeRequest.System claudeReq)
      ++ flat_map (Poe.convertMessage []) pre)
     ++ Poe.convertMessage [] msg
     ++ flat_map (Poe.convertMessage []) post)%list.
Proof.
  intros H. unfold Poe.convertClaudeToOpenAI. cbn [Poe.OpenAIRequest.Messages].
  rewrite H, convertMessages_concat, flat_map_app. simpl.
  now rewrite <- !app_assoc.
Qed.

End ClaudeTurns.

(** ** Tool results *)

Definition toolResultPart : value :=
  JObj [("type", JStr "tool_result"); ("tool_use_id", JStr "t1");
        ("content", JStr "42")].

Definition textPart (text : string) : value :=
  JObj [("type", JStr "text"); ("text", JStr text)].

(** The texts of the nested content array of a [tool_result] part. *)
Definition resultTexts (items : list value) : list string :=
  flat_map
    (fun c =>
       match c with
       | JObj m => match mapIndex m "text" with Some (JStr t) => [t] | _ => [] end
       | _ => []
       end)
    items.

(** Where C4 fails. The DeepSeek translator has no tool messages: the
    message stays a user message, with the text parts for content. The
    Claude translator looks for tool results in user messages only: an
    assistant message with such a part is translated as a regular
    message. *)
Lemma tool_result_counterexample :
  DeepSeek.convertMessages
    [ {| DeepSeek.Message.Role := "user";
         DeepSeek.Message.Content := Some (JArr [toolResultPart]);
         DeepSeek.Message.ToolCalls := []; DeepSeek.Message.ToolCallID := "";
         DeepSeek.Message.Name := "" |} ]
  = [userMessage ""]
  /\ Poe.OpenAIRequest.Messages
       (Poe.convertClaudeToOpenAI (codec := TextCodec.codec)
          (claudeRequest "claude-sonnet-4.5"
             [ {| Poe.ClaudeMessage.Role := "assistant";
                  Poe.ClaudeMessage.Content :=
                    Some (JArr [toolResultPart; textPart "see above"]);
                  Poe.ClaudeMessage.ToolCalls := []; Poe.ClaudeMessage.ToolCallID := "";
                  Poe.ClaudeMessage.Name := "" |} ]
             None false))
     = [ {| Poe.OpenAIMessage.Role := "assistant";
            Poe.OpenAIMessage.Content := Some (JStr "see above");
            Poe.OpenAIMessage.ToolCalls := []; Poe.OpenAIMessage.ToolCallID := "";
            Poe.OpenAIMessage.Name := "" |} ].
Proof. split; reflexivity. Qed.

(** C4, amended. Claude translator, a user message whose content is an
    array of objects with at least one [tool_result] part: in the place
    of the message the outbound list has one message for each such part,
    in the order of the parts, and nothing else; each has the role
    [tool], the part's [tool_use_id] for [toolCallId], and for content
    the part's nested content, a string as it is and an array as its
    texts joined by newlines. *)
Theorem tool_result_translation {codec : JsonCodec} (claudeReq : Poe.ClaudeRequest.t)
    (pre post : list Poe.ClaudeMessage.t) (msg : Poe.ClaudeMessage.t)
    (raw : value) (parts : list (option gomap)) :
  Poe.ClaudeRequest.Messages claudeReq = (pre ++ msg :: post)%list ->
  Poe.ClaudeMessage.Role msg = "user" ->
  Poe.ClaudeMessage.Content msg = Some raw ->
  decSlice decMap None raw [] = Some parts ->
  existsb Poe.isToolResult parts = true ->
  Poe.OpenAIRequest.Messages (Poe.convertClaudeToOpenAI claudeReq)
  = ((Poe.systemMessages (Poe.ClaudeRequest.System claudeReq)
      ++ flat_map (Poe.convertMessage []) pre)
     ++ map Poe.toolResultMessage (filter Poe.isToolResult parts)
     ++ flat_map (Poe.convertMessage []) post)%list
  /\ forall part, In part (filter Poe.isToolResult parts) ->
       Poe.OpenAIMessage.Role (Poe.toolResultMessage part) = "tool"
       /\ (forall id, Poe.index part "tool_use_id" = Some (JStr id) ->
             Poe.OpenAIMessage.ToolCallID (Poe.toolResultMessage part) = id)
       /\ (forall s, Poe.index part "content" = Some (JStr s) ->
             Poe.OpenAIMessage.Content (Poe.toolResultMessage part) = Some (JStr s))
       /\ (forall items, Poe.index part "content" = Some (JArr items) ->
             Poe.OpenAIMessage.Content (Poe.toolResultMessage part)
             = match resultTexts items with
               | [] => None
               | texts => Some (JStr (Join texts LF))
               end).
Proof.
  intros Hm Hr Hc Hd He. split.
  - rewrite (convertClaudeToOpenAI_split claudeReq pre post msg Hm).
    rewrite (convertMessage_cases [] msg).
    unfold toolResultParts. now rewrite Hr, Hc, Hd, He.
  - intros part _. unfold Poe.toolResultMessage. cbn [Poe.OpenAIMessage.Role
      Poe.OpenAIMessage.ToolCallID Poe.OpenAIMessage.Content].
    split; [reflexivity |]. split; [| split].
    + intros id Hid. now rewrite Hid.
    + intros s Hs. now rewrite Hs.
    + intros items Hi. rewrite Hi. cbn [assertSlice].
      assert (Ht : flat_map
                     (fun c =>
                        match assertMap (Some c) with
                        | Some contentMap =>
                            match assertString (mapIndex contentMap "text") with
                            | Some text => [text]
                            | None => []
                            end
                        | None => []
                        end) items = resultTexts items).
      { unfold resultTexts. apply flat_map_ext. intros c.
        destruct c as [| | | | |m]; try reflexivity. simpl.
        now destruct (mapIndex m "text") as [[| | |t| |]|]. }
      rewrite Ht. now destruct (resultTexts items).
Qed.

Definition userToolResults : Poe.ClaudeMessage.t :=
  {| Poe.ClaudeMessage.Role := "user";
     Poe.ClaudeMessage.Content :=
       Some (JArr [toolResultPart; textPart "done";
                   JObj [("type", JStr "tool_result"); ("tool_use_id", JStr "t2");
                         ("content", JArr [textPart "a"; textPart "b"])]]);
     Poe.ClaudeMessage.ToolCalls := []; Poe.ClaudeMessage.ToolCallID := "";
     Poe.ClaudeMessage.Name := "" |}.

Definition toolMessage (id content : string) : Poe.OpenAIMessage.t :=
  {| Poe.OpenAIMessage.Role := "tool"; Poe.OpenAIMessage.Content := Some (JStr content);
     Poe.OpenAIMessage.ToolCalls := []; Poe.OpenAIMessage.ToolCallID := id;
     Poe.OpenAIMessage.Name := "" |}.

(** The two tool results above between two user messages. *)
Example tool_result_in_place :
  Poe.OpenAIRequest.Messages
    (Poe.convertClaudeToOpenAI (codec := TextCodec.codec)
       (claudeRequest "claude-sonnet-4.5"
          [claudeUserMessage "one"; userToolResults; claudeUserMessage "two"]
          None false))
  = [ {| Poe.OpenAIMessage.Role := "user"; Poe.OpenAIMessage.Content := Some (JStr "one");
         Poe.OpenAIMessage.ToolCalls := []; Poe.OpenAIMessage.ToolCallID := "";
         Poe.OpenAIMessage.Name := "" |};
      toolMessage "t1" "42";
      toolMessage "t2" ("a" ++ LF ++ "b");
      {| Poe.OpenAIMessage.Role := "user"; Poe.OpenAIMessage.Content := Some (JStr "two");
         Poe.OpenAIMessage.ToolCalls := []; Poe.OpenAIMessage.ToolCallID := "";
         Poe.OpenAIMessage.Name := "" |} ].
Proof. reflexivity. Qed.

Definition userToolResultsRaw : value :=
  JArr [toolResultPart; textPart "done";
        JObj [("type", JStr "tool_result"); ("tool_use_id", JStr "t2");
              ("content", JArr [textPart "a"; textPart "b"])]].

Definition userToolResultsParts : list (option gomap) :=
  Eval vm_compute in
    match decSlice decMap None userToolResultsRaw [] with
    | Some parts => parts
    | None => []
    end.

Definition threeMessages : Poe.ClaudeRequest.t :=
  claudeRequest "claude-sonnet-4.5"
    [claudeUserMessage "one"; userToolResults; claudeUserMessage "two"] None false.

Lemma tool_result_translation_witness :
  Poe.OpenAIRequest.Messages
    (Poe.convertClaudeToOpenAI (codec := TextCodec.codec) threeMessages)
  = ((Poe.systemMessages (Poe.ClaudeRequest.System threeMessages)
      ++ flat_map (Poe.convertMessage (codec := TextCodec.codec) [])
                  [claudeUserMessage "one"])
     ++ map Poe.toolResultMessage (filter Poe.isToolResult userToolResultsParts)
     ++ flat_map (Poe.convertMessage (codec := TextCodec.codec) [])
                 [claudeUserMessage "two"])%list
  /\ forall part, In part (filter Poe.isToolResult userToolResultsParts) ->
       Poe.OpenAIMessage.Role (Poe.toolResultMessage part) = "tool"
       /\ (forall id, Poe.index part "tool_use_id" = Some (JStr id) ->
             Poe.OpenAIMessage.ToolCallID (Poe.toolResultMessage part) = id)
       /\ (forall s, Poe.index part "content" = Some (JStr s) ->
             Poe.OpenAIMessage.Content (Poe.toolResultMessage part) = Some (JStr s))
       /\ (forall items, Poe.index part "content" = Some (JArr items) ->
             Poe.OpenAIMessage.Content (Poe.toolResultMessage part)
             = match resultTexts items with
               | [] => None
               | texts => Some (JStr (Join texts LF))
               end).
Proof.
  apply (tool_result_translation (codec := TextCodec.codec) threeMessages
           [claudeUserMessage "one"] [claudeUserMessage "two"] userToolResults
           userToolResultsRaw userToolResultsParts).
  - reflexivity.
  - reflexivity.
  - reflexivity.
  - reflexivity.
  - reflexivity.
Defined.

(** ** Which messages are emitted *)

Definition emptyToolResult : Poe.ClaudeMessage.t :=
  {| Poe.ClaudeMessage.Role := "user";
     Poe.ClaudeMessage.Content :=
       Some (JArr [JObj [("type", JStr "tool_result"); ("tool_use_id", JStr "t1")]]);
     Poe.ClaudeMessage.ToolCalls := []; Poe.ClaudeMessage.ToolCallID := "";
     Poe.ClaudeMessage.Name := "" |}.

(** Where C6 fails. The DeepSeek translator emits a message with empty
    content and no tool call; so does the Claude translator for a tool
    result without content. *)
Lemma emitted_counterexample :
  (let out := DeepSeek.convertMessages [userMessage ""] in
   List.length out = 1%nat
   /\ map DeepSeek.Message.GetContentString out = [""]
   /\ map DeepSeek.Message.ToolCalls out = [[]])
  /\ (let out :=
        Poe.OpenAIRequest.Messages
          (Poe.convertClaudeToOpenAI (codec := TextCodec.codec)
             (claudeRequest "claude-sonnet-4.5" [emptyToolResult] None false)) in
      List.length out = 1%nat
      /\ map Poe.OpenAIMessage.Content out = [None]
      /\ map Poe.OpenAIMessage.ToolCalls out = [[]]).
Proof. repeat split; reflexivity. Qed.

Lemma regularMessage_role {codec : JsonCodec} (msg : Poe.ClaudeMessage.t) :
  Poe.OpenAIMessage.Role (Poe.regularMessage msg) = Poe.ClaudeMessage.Role msg.
Proof.
  unfold Poe.regularMessage.
  destruct (Poe.ClaudeMessage.Content msg) as [raw|]; [| reflexivity].
  destruct (decString raw ""); [reflexivity |].
  now destruct (decSlice (decStruct Poe.ClaudeContentPart.field)
                         Poe.ClaudeContentPart.zero raw []).
Qed.

(** C6, amended. Claude translator, a message that is not replaced by
    tool messages: it is in the outbound list, once and in its place,
    exactly when its translation has non-empty content or a tool call;
    otherwise nothing stands for it. (A message replaced by tool messages
    gives one message for each tool result, with or without content, and
    the DeepSeek translator emits one message for every inbound
    message.) *)
Theorem message_emitted_iff {codec : JsonCodec} (claudeReq : Poe.ClaudeRequest.t)
    (pre post : list Poe.ClaudeMessage.t) (msg : Poe.ClaudeMessage.t)
    (inbound : list DeepSeek.Message.t) :
  Poe.ClaudeRequest.Messages claudeReq = (pre ++ msg :: post)%list ->
  toolResultParts msg = None ->
  let r := Poe.regularMessage msg in
  (exists emitted,
     Poe.OpenAIRequest.Messages (Poe.convertClaudeToOpenAI claudeReq)
     = ((Poe.systemMessages (Poe.ClaudeRequest.System claudeReq)
         ++ flat_map (Poe.convertMessage []) pre)
        ++ emitted
        ++ flat_map (Poe.convertMessage []) post)%list
     /\ (Poe.hasContent r || Poe.hasToolCalls r = true ->
         exists m, emitted = [m]
                   /\ Poe.OpenAIMessage.Role m = Poe.ClaudeMessage.Role msg
                   /\ Poe.OpenAIMessage.ToolCalls m = Poe.OpenAIMessage.ToolCalls r
                   /\ Poe.hasContent m = Poe.hasContent r
                   /\ (Poe.hasContent r = true ->
                       Poe.OpenAIMessage.Content m = Poe.OpenAIMessage.Content r))
     /\ (Poe.hasContent r || Poe.hasToolCalls r = false -> emitted = []))
  /\ List.length (DeepSeek.convertMessages inbound) = List.length inbound.
Proof.
  intros Hm Ht r. split; [| apply length_map].
  exists (Poe.addMessage [] r). split; [| split].
  - rewrite (convertClaudeToOpenAI_split claudeReq pre post msg Hm).
    rewrite (convertMessage_cases [] msg). now rewrite Ht.
  - intros He. unfold Poe.addMessage. rewrite He.
    destruct (String.eqb (Poe.OpenAIMessage.Role r) "assistant"
              && Poe.hasToolCalls r && negb (Poe.hasContent r)) eqn:Ea.
    + eexists. split; [reflexivity |].
      apply andb_true_iff in Ea. destruct Ea as [_ Hn].
      apply negb_true_iff in Hn.
      split; [apply regularMessage_role |]. split; [reflexivity |].
      split; [now rewrite Hn | intros Hc; congruence].
    + exists r. split; [reflexivity |].
      split; [apply regularMessage_role |]. repeat split; reflexivity.
  - intros He. unfold Poe.addMessage. now rewrite He.
Qed.

Lemma message_emitted_iff_witness :
  let r := Poe.regularMessage (codec := TextCodec.codec) assistantToolCall in
  (exists emitted,
     Poe.OpenAIRequest.Messages
       (Poe.convertClaudeToOpenAI (codec := TextCodec.codec)
          (claudeRequest "claude-sonnet-4.5"
             [claudeUserMessage ""; assistantToolCall; claudeUserMessage "two"]
             None false))
     = ((Poe.systemMessages
           (Poe.ClaudeRequest.System
              (claudeRequest "claude-sonnet-4.5"
                 [claudeUserMessage ""; assistantToolCall; claudeUserMessage "two"]
                 None false))
         ++ flat_map (Poe.convertMessage (codec := TextCodec.codec) [])
                     [claudeUserMessage ""])
        ++ emitted
        ++ flat_map (Poe.convertMessage (codec := TextCodec.codec) [])
                    [claudeUserMessage "two"])%list
     /\ (Poe.hasContent r || Poe.hasToolCalls r = true ->
         exists m, emitted = [m]
                   /\ Poe.OpenAIMessage.Role m = Poe.ClaudeMessage.Role assistantToolCall
                   /\ Poe.OpenAIMessage.ToolCalls m = Poe.OpenAIMessage.ToolCalls r
                   /\ Poe.hasContent m = Poe.hasContent r
                   /\ (Poe.hasContent r = true ->
                       Poe.OpenAIMessage.Content m = Poe.OpenAIMessage.Content r))
     /\ (Poe.hasContent r || Poe.hasToolCalls r = false -> emitted = []))
  /\ List.length (DeepSeek.convertMessages [userMessage ""; userMessage "hi"])
     = List.length [userMessage ""; userMessage "hi"].
Proof.
  apply (message_emitted_iff (codec := TextCodec.codec)
           (claudeRequest "claude-sonnet-4.5"
              [claudeUserMessage ""; assistantToolCall; claudeUserMessage "two"]
              None false)
           [claudeUserMessage ""] [claudeUserMessage "two"] assistantToolCall
           [userMessage ""; userMessage "hi"]).
  - reflexivity.
  - reflexivity.
Defined.

(** A message without content and without tool calls between two others
    leaves no trace. *)
Example empty_message_dropped :
  map Poe.OpenAIMessage.Content
    (Poe.OpenAIRequest.Messages
       (Poe.convertClaudeToOpenAI (codec := TextCodec.codec)
          (claudeRequest "claude-sonnet-4.5"
             [claudeUserMessage "one"; claudeUserMessage ""; claudeUserMessage "two"]
             None false)))
  = [Some (JStr "one"); Some (JStr "two")].
Proof. reflexivity. Qed.

(** * More of the code *)

(** ** The relay on other lines *)

(** X1. A complete line that does not start with [data: ] (a blank line,
    a comment, a heartbeat, an [event:] field) is written as it is, after
    what was written before, and the relay goes on: what it writes for
    the lines after it follows. *)
Theorem relay_forwards_other_lines {codec : JsonCodec}
    (originalModel line rest : string) (w : ResponseWriter) :
  isLine line = true ->
  HasPrefix line "data: " = false ->
  Relay.relayLoop originalModel (line ++ rest) w
  = Relay.relayLoop originalModel rest (Write line w)
  /\ Out (written (Relay.relayLoop originalModel (line ++ rest) w))
     = Out w ++ line ++ relayed originalModel rest.
Proof.
  intros Hl Hp. apply relayLoop_forwarded; [exact Hl |].
  unfold Relay.relayLine. rewrite Hp.
  now destruct (String.length (TrimSpace line) =? 0)%nat.
Qed.

Lemma relay_forwards_other_lines_witness :
  Relay.relayLoop (codec := TextCodec.codec) "m"
    ((": keep-alive" ++ LF) ++ ("data: [DONE]" ++ LF)) newWriter
  = Relay.relayLoop (codec := TextCodec.codec) "m" ("data: [DONE]" ++ LF)
      (Write (": keep-alive" ++ LF) newWriter)
  /\ Out (written
            (Relay.relayLoop (codec := TextCodec.codec) "m"
               ((": keep-alive" ++ LF) ++ ("data: [DONE]" ++ LF)) newWriter))
     = ": keep-alive" ++ LF ++ "data: [DONE]" ++ LF ++ LF.
Proof.
  destruct (relay_forwards_other_lines (codec := TextCodec.codec) "m"
              (": keep-alive" ++ LF) ("data: [DONE]" ++ LF) newWriter eq_refl eq_refl)
    as [H1 H2].
  split; [exact H1 |]. rewrite H2. vm_compute. reflexivity.
Defined.

(** X2. A data line whose payload, white space trimmed, is [[DONE]] ends
    the relay: the marker is written in the canonical framing, whatever
    spaces or carriage return the line had, and nothing of the rest of
    the stream is read. *)
Theorem relay_done_reframed {codec : JsonCodec}
    (originalModel line rest : string) (w : ResponseWriter) :
  isLine line = true ->
  HasPrefix line "data: " = true ->
  TrimSpace (TrimPrefix line "data: ") = "[DONE]" ->
  Relay.relayLoop originalModel (line ++ rest) w
  = Returned (Write ("data: [DONE]" ++ LF ++ LF) w).
Proof.
  intros Hl Hp Hd. rewrite (relayLoop_line originalModel line rest w Hl).
  now rewrite (relayLine_done originalModel line w Hp Hd).
Qed.

Lemma relay_done_reframed_witness :
  Relay.relayLoop (codec := TextCodec.codec) "m"
    (("data:   [DONE] " ++ String (byte 13) LF) ++ ("data: more" ++ LF)) newWriter
  = Returned (Write ("data: [DONE]" ++ LF ++ LF) newWriter).
Proof.
  apply (relay_done_reframed (codec := TextCodec.codec)); reflexivity.
Defined.

(** X3. A data line whose payload is the JSON text [null] decodes without
    error into a nil map, and the assignment of the model to it panics:
    the handler ends there, the line is not written and nothing after it
    is relayed. *)
Theorem relay_null_event_panics {codec : JsonCodec}
    (originalModel line rest : string) (w : ResponseWriter) :
  isLine line = true ->
  HasPrefix line "data: " = true ->
  TrimSpace (TrimPrefix line "data: ") <> "[DONE]" ->
  jsonParse (TrimSpace (TrimPrefix line "data: ")) = Some JNull ->
  Relay.relayLoop originalModel (line ++ rest) w = Panicked w.
Proof.
  intros Hl Hp Hd Hn. rewrite (relayLoop_line originalModel line rest w Hl).
  unfold Relay.relayLine. rewrite (TrimSpace_data line Hp), Hp.
  apply String.eqb_neq in Hd. rewrite Hd.
  unfold Relay.unmarshalChunk. now rewrite Hn.
Qed.

Lemma relay_null_event_panics_witness :
  Relay.relayLoop (codec := TextCodec.codec) "m"
    (("data: null" ++ LF) ++ ("data: [DONE]" ++ LF)) newWriter
  = Panicked newWriter.
Proof.
  apply (relay_null_event_panics (codec := TextCodec.codec)).
  - reflexivity.
  - reflexivity.
  - vm_compute. discriminate.
  - reflexivity.
Defined.

Lemma ReadBytes_no_newline (tail : string) :
  occurs (byte 10) tail = false -> Relay.ReadBytes tail = (tail, None).
Proof.
  induction tail as [|c t IH]; simpl; [reflexivity |].
  intros H. apply orb_false_iff in H. destruct H as [H1 H2].
  rewrite H1. now rewrite (IH H2).
Qed.

Lemma ReadBytes_append_line (r tail line rest : string) :
  Relay.ReadBytes r = (line, Some rest) ->
  Relay.ReadBytes (r ++ tail) = (line, Some (rest ++ tail)).
Proof.
  revert line rest. induction r as [|c r IH]; simpl; intros line rest H.
  - discriminate.
  - destruct (Ascii.eqb c (byte 10)).
    + now inversion H.
    + destruct (Relay.ReadBytes r) as [l [r0|]] eqn:E; inversion H; subst.
      now rewrite (IH l rest eq_refl).
Qed.

Lemma ReadBytes_append_tail (r tail l : string) :
  occurs (byte 10) tail = false ->
  Relay.ReadBytes r = (l, None) ->
  Relay.ReadBytes (r ++ tail) = (l ++ tail, None).
Proof.
  intros Ht. revert l. induction r as [|c r IH]; simpl; intros l H.
  - inversion H. now apply ReadBytes_no_newline.
  - destruct (Ascii.eqb c (byte 10)); [discriminate |].
    destruct (Relay.ReadBytes r) as [l0 [r0|]] eqn:E; inversion H; subst.
    now rewrite (IH l0 eq_refl).
Qed.

(** X4. What the upstream sends after its last newline never reaches the
    client and changes nothing of what is relayed: a stream that ends in
    the middle of a line is relayed as the stream cut at its last
    newline, whether it ends at EOF or with a read error. *)
Theorem relay_ignores_unterminated_tail {codec : JsonCodec}
    (originalModel r tail : string) (w : ResponseWriter) :
  occurs (byte 10) tail = false ->
  Relay.relayLoop originalModel (r ++ tail) w = Relay.relayLoop originalModel r w.
Proof.
  intros Ht.
  assert (H : forall n r w, (String.length r < n)%nat ->
            Relay.relayLoop originalModel (r ++ tail) w
            = Relay.relayLoop originalModel r w).
  { clear r w. induction n as [|n IH]; intros r w Hn; [lia |].
    rewrite (relayLoop_unfold originalModel (r ++ tail)).
    rewrite (relayLoop_unfold originalModel r).
    destruct (Relay.ReadBytes r) as [line [rest|]] eqn:E.
    - rewrite (ReadBytes_append_line r tail line rest E).
      destruct (Relay.relayLine originalModel line w); try reflexivity.
      apply IH. pose proof (Relay.ReadBytes_shorter r line rest E). lia.
    - now rewrite (ReadBytes_append_tail r tail line Ht E). }
  apply (H (S (String.length r))). lia.
Qed.

Lemma relay_ignores_unterminated_tail_witness :
  Relay.relayLoop (codec := TextCodec.codec) "m"
    ((": ping" ++ LF) ++ "data: [DONE]") newWriter
  = Relay.relayLoop (codec := TextCodec.codec) "m" (": ping" ++ LF) newWriter.
Proof.
  apply (relay_ignores_unterminated_tail (codec := TextCodec.codec)). reflexivity.
Defined.

(** A line the relay writes as it is: blank, or not a data line, or a
    data line whose payload is not the end marker and does not decode. *)
Definition forwardedAsIs {codec : JsonCodec} (line : string) : bool :=
  (String.length (TrimSpace line) =? 0)%nat
  || negb (HasPrefix line "data: ")
  || (negb (String.eqb (TrimSpace (TrimPrefix line "data: ")) "[DONE]")
      && match Relay.unmarshalChunk (TrimSpace (TrimPrefix line "data: ")) with
         | None => true
         | Some _ => false
         end).

Definition joinLines (lines : list string) : string := fold_right append "" lines.

Lemma relayLine_forwardedAsIs {codec : JsonCodec} (m line : string)
    (w : ResponseWriter) :
  forwardedAsIs line = true -> Relay.relayLine m line w = Relay.Continue (Write line w).
Proof.
  unfold forwardedAsIs, Relay.relayLine. intros H.
  destruct (String.length (TrimSpace line) =? 0)%nat; [reflexivity |].
  destruct (HasPrefix line "data: "); [| reflexivity].
  simpl in H. apply andb_true_iff in H. destruct H as [H1 H2].
  apply negb_true_iff in H1. rewrite H1.
  now destruct (Relay.unmarshalChunk (TrimSpace (TrimPrefix line "data: "))).
Qed.

(** X5. On a stream made of complete lines none of which is an event the
    relay rewrites or the end marker, the relay is the identity: the
    client receives the bytes of the upstream, all of them and in order,
    and the relay returns at the end of the stream. *)
Theorem relay_transparent {codec : JsonCodec} (originalModel : string)
    (lines : list string) (w : ResponseWriter) :
  Forall (fun line => isLine line = true /\ forwardedAsIs line = true) lines ->
  exists w',
    Relay.relayLoop originalModel (joinLines lines) w = Returned w'
    /\ Out w' = Out w ++ joinLines lines.
Proof.
  intros H. revert w. induction H as [|line lines [Hl Hf] _ IH]; intros w.
  - exists w. split; [reflexivity | now rewrite append_nil_r].
  - destruct (IH (Write line w)) as [w' [Hr Ho]].
    exists w'. cbn [joinLines fold_right]. fold (joinLines lines). split.
    + rewrite (relayLoop_line originalModel line _ w Hl).
      now rewrite (relayLine_forwardedAsIs originalModel line w Hf).
    + rewrite Ho, Write_Out. apply append_assoc.
Qed.

Lemma relay_transparent_witness :
  exists w',
    Relay.relayLoop (codec := TextCodec.codec) "m"
      (joinLines ["event: message" ++ LF; "data: [1,2]" ++ LF; LF; "data: {oops" ++ LF])
      newWriter = Returned w'
    /\ Out w' = Out newWriter
                ++ joinLines ["event: message" ++ LF; "data: [1,2]" ++ LF; LF;
                              "data: {oops" ++ LF].
Proof.
  apply (relay_transparent (codec := TextCodec.codec)).
  repeat constructor.
Defined.

(** ** What the handlers send upstream and what every reply carries *)

Lemma headerGet_headerStore (h : header) (k k0 : string) (vs : list string) :
  headerGet (headerStore h k vs) k0
  = if String.eqb k0 k then hd "" vs else headerGet h k0.
Proof.
  induction h as [|[k' vs'] h IH]; simpl.
  - reflexivity.
  - destruct (String.eqb_spec k k') as [->|Hk]; simpl.
    + now destruct (String.eqb k0 k').
    + destruct (String.eqb_spec k0 k') as [->|Hk0].
      * destruct (String.eqb_spec k' k); [congruence | reflexivity].
      * exact IH.
Qed.

Lemma Write_Interim (b : string) (w : ResponseWriter) :
  Interim (Write b w) = Interim w.
Proof. unfold Write, WriteHeader. now destruct (Status w). Qed.

(** The writer after the relay: the headers stay, and so does a status
    already written. *)
Lemma relayLine_keeps {codec : JsonCodec} (m line : string) (w : ResponseWriter) :
  Header (turnWriter (Relay.relayLine m line w)) = Header w
  /\ Interim (turnWriter (Relay.relayLine m line w)) = Interim w
  /\ forall c, Status w = Some c ->
                Status (turnWriter (Relay.relayLine m line w)) = Some c.
Proof.
  assert (HW : forall b x, Header x = Header w /\ Interim x = Interim w
                           /\ (forall c, Status w = Some c -> Status x = Some c) ->
                Header (Write b x) = Header w /\ Interim (Write b x) = Interim w
                /\ (forall c, Status w = Some c -> Status (Write b x) = Some c)).
  { intros b x [H1 [H2 H3]]. rewrite Write_Header, Write_Interim.
    split; [exact H1 |]. split; [exact H2 |].
    intros c Hc. now destruct (Write_rest b x c (H3 c Hc)). }
  assert (H0 : Header w = Header w /\ Interim w = Interim w
               /\ (forall c, Status w = Some c -> Status w = Some c))
    by now repeat split.
  unfold Relay.relayLine.
  destruct (String.length (TrimSpace line) =? 0)%nat; [now apply HW |].
  destruct (HasPrefix line "data: "); [| now apply HW].
  destruct (String.eqb _ "[DONE]"); [now apply HW |].
  destruct (Relay.unmarshalChunk _) as [[chunk|]|]; [| exact H0 | now apply HW].
  destruct (jsonPrint _); [| now apply HW].
  cbn [turnWriter]. now repeat apply HW.
Qed.

Lemma relayLoop_keeps {codec : JsonCodec} (m r : string) (w : ResponseWriter) :
  Header (written (Relay.relayLoop m r w)) = Header w
  /\ Interim (written (Relay.relayLoop m r w)) = Interim w
  /\ forall c, Status w = Some c -> Status (written (Relay.relayLoop m r w)) = Some c.
Proof.
  assert (H : forall n r w, (String.length r < n)%nat ->
            Header (written (Relay.relayLoop m r w)) = Header w
            /\ Interim (written (Relay.relayLoop m r w)) = Interim w
            /\ forall c, Status w = Some c ->
                          Status (written (Relay.relayLoop m r w)) = Some c).
  { clear r w. induction n as [|n IH]; intros r w Hn; [lia |].
    rewrite (relayLoop_unfold m r).
    destruct (Relay.ReadBytes r) as [line [rest|]] eqn:E; [| now repeat split].
    pose proof (relayLine_keeps m line w) as [Hk1 [Hk2 Hk3]].
    pose proof (Relay.ReadBytes_shorter r line rest E) as Hlt.
    destruct (Relay.relayLine m line w) as [w'|w'|w']; cbn [turnWriter] in *;
      cbn [written]; try (repeat split; assumption).
    destruct (IH rest w' ltac:(lia)) as [G1 [G2 G3]].
    split; [congruence |]. split; [congruence |]. intros c Hc. apply G3, Hk3, Hc. }
  apply (H (S (String.length r))). lia.
Qed.

(** What a run of the dispatcher does to the world and where its result
    comes from, for every world. *)
Lemma dispatcher_effects {platform : Platform} (cfg : DeepSeek.Config.t) {R : Type}
    (origReq : Request R) (dsReq : DeepSeek.DeepSeekRequest.t) (stream : bool)
    (apiKey : string) (s : World DeepSeek.DeepSeekRequest.t) :
  let out := DeepSeek.doDeepSeekRequestWithFallback cfg origReq dsReq dsReq stream apiKey s in
  Clock (snd out) = Clock s
  /\ (exists extra,
        Sent (snd out) = (Sent s ++ extra)%list
        /\ (List.length extra <= 2)%nat
        /\ map (fun q => DeepSeek.DeepSeekRequest.Model (PBody q)) extra
           = firstn (List.length extra)
               [DeepSeek.DeepSeekRequest.Model dsReq; DeepSeek.deepseekReasonerModel]
        /\ Forall (fun q => PURL q
                            = (if negb (String.eqb (RawQuery origReq) "")
                               then (DeepSeek.Config.endpoint cfg ++ URLPath origReq)
                                    ++ "?" ++ RawQuery origReq
                               else DeepSeek.Config.endpoint cfg ++ URLPath origReq)
                            /\ headerGet (PHeader q) "Authorization" = "Bearer " ++ apiKey)
                  extra)
  /\ (forall resp m, fst out = Some (resp, m) ->
        (m = DeepSeek.DeepSeekRequest.Model dsReq \/ m = DeepSeek.deepseekReasonerModel)
        /\ exists resp0, In (DoResponse resp0) (Script s)
                         /\ StatusCode resp = StatusCode resp0
                         /\ RespHeader resp = RespHeader resp0
                         /\ Body resp = Body resp0).
Proof.
  assert (Hauth : forall h (b : bool) al,
            headerGet
              (if negb (String.eqb al "")
               then headerStore
                      (if b then headerStore
                                   (headerStore (headerStore h "Authorization"
                                                   ["Bearer " ++ apiKey])
                                      "Content-Type" ["application/json"])
                                   "Accept" ["text/event-stream"]
                       else headerStore (headerStore h "Authorization"
                                           ["Bearer " ++ apiKey])
                              "Content-Type" ["application/json"])
                      "Accept-Language" [al]
               else if b then headerStore
                                (headerStore (headerStore h "Authorization"
                                                ["Bearer " ++ apiKey])
                                   "Content-Type" ["application/json"])
                                "Accept" ["text/event-stream"]
                    else headerStore (headerStore h "Authorization"
                                        ["Bearer " ++ apiKey])
                           "Content-Type" ["application/json"])
              "Authorization" = "Bearer " ++ apiKey).
  { intros h b al. destruct (negb (String.eqb al "")); destruct b;
      rewrite !headerGet_headerStore; reflexivity. }
  cbv zeta.
  unfold DeepSeek.doDeepSeekRequestWithFallback, DeepSeek.fallbackAttempt,
    DeepSeek.buildDeepSeekHTTPRequest.
  cbv zeta.
  destruct (newRequestOK _ _).
  2:{ simpl. split; [reflexivity |]. split; [| discriminate].
      exists []. rewrite app_nil_r. repeat split; auto. }
  unfold bind, clientDo, ret.
  destruct (Script s) as [|first later] eqn:Es.
  - (* the transport has nothing: both attempts fail *)
    simpl. split; [reflexivity |]. split; [| discriminate].
    eexists. rewrite <- app_assoc. split; [reflexivity |].
    split; [simpl; lia |]. split; [reflexivity |].
    repeat constructor; apply Hauth.
  - destruct first as [|resp].
    + destruct later as [|[|resp2] later']; simpl.
      all: split; [reflexivity |]; split.
      all: try (eexists; rewrite <- app_assoc; split; [reflexivity |];
                split; [simpl; lia |]; split; [reflexivity |];
                repeat constructor; apply Hauth).
      all: try discriminate.
      intros resp0 m H. inversion H; subst. split; [now right |].
      exists resp0. repeat split. right. now left.
    + destruct (StatusCode resp <? 400)%Z.
      { simpl. split; [reflexivity |]. split.
        - eexists. split; [reflexivity |]. split; [simpl; lia |].
          split; [reflexivity |]. repeat constructor; apply Hauth.
        - intros resp0 m H. inversion H; subst. split; [now left |].
          exists resp0. repeat split. now left. }
      unfold ReadAll. destruct (BodyBreaks resp).
      { simpl. split; [reflexivity |]. split; [| discriminate].
        eexists. split; [reflexivity |]. split; [simpl; lia |].
        split; [reflexivity |]. repeat constructor; apply Hauth. }
      destruct (DeepSeek.isModelNotFoundError (StatusCode resp) (Body resp)).
      * destruct later as [|[|resp2] later']; simpl.
        all: split; [reflexivity |]; split.
        all: try (eexists; rewrite <- app_assoc; split; [reflexivity |];
                  split; [simpl; lia |]; split; [reflexivity |];
                  repeat constructor; apply Hauth).
        all: try discriminate.
        intros resp0 m H. inversion H; subst. split; [now right |].
        exists resp0. repeat split. right. now left.
      * simpl. split; [reflexivity |]. split.
        -- eexists. split; [reflexivity |]. split; [simpl; lia |].
           split; [reflexivity |]. repeat constructor; apply Hauth.
        -- intros resp0 m H. inversion H; subst. split; [now left |].
           exists resp. repeat split. now left.
Qed.

(** The key a request of the DeepSeek proxy goes upstream with: the
    bearer token of the caller, and the key of the server when the
    caller sent none. *)
Definition deepseekKeyUsed (serverKey authHeader : string) : string :=
  match cutPrefix authHeader "Bearer " with
  | Some token => if String.eqb token "" then serverKey else token
  | None => serverKey
  end.

(** The model a chat request is first sent with. *)
Definition requestedModel (chatReq : DeepSeek.ChatRequest.t) : string :=
  if String.eqb (DeepSeek.ChatRequest.Model chatReq) ""
  then DeepSeek.deepseekChatModel else DeepSeek.ChatRequest.Model chatReq.

Lemma append_length (a b : string) :
  String.length (a ++ b) = (String.length a + String.length b)%nat.
Proof. induction a as [|c a IH]; simpl; [reflexivity | now rewrite IH]. Qed.

Lemma deepseekKeyUsed_code (serverKey authHeader : string) :
  (if String.eqb (TrimPrefix authHeader "Bearer ") ""
      || String.eqb (TrimPrefix authHeader "Bearer ") authHeader
   then serverKey else TrimPrefix authHeader "Bearer ")
  = deepseekKeyUsed serverKey authHeader.
Proof.
  unfold deepseekKeyUsed, TrimPrefix.
  destruct (cutPrefix authHeader "Bearer ") as [token|] eqn:E.
  - destruct (String.eqb_spec token "") as [->|Hne]; [reflexivity |].
    simpl. destruct (String.eqb_spec token authHeader) as [->|Hd]; [| reflexivity].
    apply cutPrefix_inv in E. apply (f_equal String.length) in E.
    rewrite append_length in E. simpl in E. lia.
  - now rewrite String.eqb_refl, orb_true_r.
Qed.

Lemma buildDeepSeekRequest_model (chatReq : DeepSeek.ChatRequest.t) (m : string) :
  DeepSeek.DeepSeekRequest.Model (DeepSeek.buildDeepSeekRequest chatReq m) = m.
Proof.
  unfold DeepSeek.buildDeepSeekRequest.
  destruct (0 <? List.length (DeepSeek.ChatRequest.Tools chatReq))%nat; [reflexivity |].
  now destruct (0 <? List.length (DeepSeek.ChatRequest.Functions chatReq))%nat.
Qed.

Lemma chat_path (path : string) :
  negb (String.eqb (if negb (HasPrefix path "/v1/") then "/v1" ++ path else path)
                   "/v1/chat/completions") = false ->
  path = "/v1/chat/completions" \/ path = "/chat/completions".
Proof.
  intros H. apply negb_false_iff in H. apply String.eqb_eq in H.
  destruct (HasPrefix path "/v1/"); simpl in H.
  - now left.
  - right. now inversion H.
Qed.

(** X6. What the DeepSeek handler sends upstream, for every request and
    every transport. It sends at most two requests and leaves the earlier
    ones as they were. It sends something only for a request, not a
    preflight, whose body decodes and whose path is /v1/chat/completions
    or /chat/completions; then the first request carries the model of
    the request, deepseek-chat when the request names none, a second one
    carries deepseek-reasoner, and both go to the configured endpoint
    followed by the path as the caller wrote it, with the caller's bearer
    token or else the server's key for authorization. *)
Theorem deepseek_upstream_requests {codec : JsonCodec} {platform : Platform}
    (key : string) (cfg : DeepSeek.Config.t) (w : ResponseWriter)
    (r : Request DeepSeek.ChatRequest.t) (s : World DeepSeek.DeepSeekRequest.t) :
  let out := DeepSeek.proxyHandler key cfg w r s in
  exists extra,
    Sent (snd out) = (Sent s ++ extra)%list
    /\ (List.length extra <= 2)%nat
    /\ (extra <> [] ->
        exists chatReq,
          ReqBody r = Decoded chatReq
          /\ Method r <> "OPTIONS"
          /\ (URLPath r = "/v1/chat/completions" \/ URLPath r = "/chat/completions")
          /\ map (fun q => DeepSeek.DeepSeekRequest.Model (PBody q)) extra
             = firstn (List.length extra)
                 [requestedModel chatReq; DeepSeek.deepseekReasonerModel]
          /\ Forall
               (fun q =>
                  PURL q
                  = (if negb (String.eqb (RawQuery r) "")
                     then (DeepSeek.Config.endpoint cfg ++ URLPath r) ++ "?" ++ RawQuery r
                     else DeepSeek.Config.endpoint cfg ++ URLPath r)
                  /\ headerGet (PHeader q) "Authorization"
                     = "Bearer "
                       ++ deepseekKeyUsed key (headerGet (ReqHeader r) "Authorization"))
               extra).
Proof.
  cbv zeta. unfold DeepSeek.proxyHandler, DeepSeek.handleModelsRequest. cbv zeta.
  assert (Hn : exists extra : list (ProxyRequest DeepSeek.DeepSeekRequest.t),
            Sent s = (Sent s ++ extra)%list /\ (List.length extra <= 2)%nat
            /\ (extra <> [] ->
        exists chatReq,
          ReqBody r = Decoded chatReq
          /\ Method r <> "OPTIONS"
          /\ (URLPath r = "/v1/chat/completions" \/ URLPath r = "/chat/completions")
          /\ map (fun q => DeepSeek.DeepSeekRequest.Model (PBody q)) extra
             = firstn (List.length extra)
                 [requestedModel chatReq; DeepSeek.deepseekReasonerModel]
          /\ Forall
               (fun q =>
                  PURL q
                  = (if negb (String.eqb (RawQuery r) "")
                     then (DeepSeek.Config.endpoint cfg ++ URLPath r) ++ "?" ++ RawQuery r
                     else DeepSeek.Config.endpoint cfg ++ URLPath r)
                  /\ headerGet (PHeader q) "Authorization"
                     = "Bearer "
                       ++ deepseekKeyUsed key (headerGet (ReqHeader r) "Authorization"))
               extra)).
  { exists []. simpl. rewrite app_nil_r. split; [reflexivity |]. split; [lia | congruence]. }
  destruct (String.eqb (Method r) "OPTIONS") eqn:Em; [exact Hn |].
  match goal with |- context [if ?c then _ else _] => destruct c end; [exact Hn |].
  match goal with |- context [if ?c then _ else _] => destruct c end; [exact Hn |].
  destruct (ReqBody r) as [| |chatReq] eqn:Eb; [exact Hn | exact Hn |].
  match goal with |- context [if ?c then _ else _] => destruct c end; [exact Hn |].
  match goal with |- context [if ?c then _ else _] => destruct c eqn:Ep end; [exact Hn |].
  clear Hn. apply chat_path in Ep. unfold bind.
  rewrite (deepseekKeyUsed_code key (headerGet (ReqHeader r) "Authorization")).
  match goal with |- context [DeepSeek.doDeepSeekRequestWithFallback ?c ?o ?b ?d ?st ?k ?s] =>
    pose proof (dispatcher_effects c o d st k s) as He;
    destruct (DeepSeek.doDeepSeekRequestWithFallback c o b d st k s) as [res s'] end.
  cbv zeta in He. cbn [fst snd] in He.
  destruct He as [_ [[extra [H1 [H2 [H3 H4]]]] _]].
  rewrite buildDeepSeekRequest_model in H3.
  exists extra.
  assert (Hw : forall (x : outcome), snd (ret (B := DeepSeek.DeepSeekRequest.t) x s') = s')
    by reflexivity.
  split.
  - rewrite <- H1.
    destruct res as [[resp usedModel]|]; [| reflexivity].
    destruct (400 <=? StatusCode resp)%Z; [now destruct (ReadAll resp) |].
    now destruct (DeepSeek.ChatRequest.Stream chatReq).
  - split; [exact H2 |]. intros _. exists chatReq.
    split; [reflexivity |]. split.
    + intros Hm. rewrite Hm in Em. discriminate.
    + split; [exact Ep |]. split; [exact H3 | exact H4].
Qed.

Lemma deepseek_key_missing (key auth : string) :
  (String.eqb (TrimPrefix auth "Bearer ") "" || String.eqb (TrimPrefix auth "Bearer ") auth)
  && String.eqb key ""
  = String.eqb (deepseekKeyUsed key auth) "".
Proof.
  unfold deepseekKeyUsed, TrimPrefix.
  destruct (cutPrefix auth "Bearer ") as [token|] eqn:E.
  - destruct (String.eqb_spec token "") as [->|Hne]; [reflexivity |].
    destruct (String.eqb_spec token auth) as [->|Hd].
    + apply cutPrefix_inv in E. apply (f_equal String.length) in E.
      rewrite append_length in E. simpl in E. lia.
    + simpl. symmetry. now apply String.eqb_neq.
  - now rewrite String.eqb_refl, orb_true_r.
Qed.

Lemma used_model (usedModel requestModel : string) :
  (if negb (String.eqb usedModel requestModel) then usedModel else requestModel)
  = usedModel.
Proof.
  destruct (String.eqb_spec usedModel requestModel) as [->|H]; reflexivity.
Qed.

(** A chat-completions request that the DeepSeek handler takes to the
    dispatcher. *)
Definition chatCall (key : string) (r : Request DeepSeek.ChatRequest.t)
    (chatReq : DeepSeek.ChatRequest.t) : Prop :=
  Method r <> "OPTIONS"
  /\ deepseekKeyUsed key (headerGet (ReqHeader r) "Authorization") <> ""
  /\ ReqBody r = Decoded chatReq
  /\ (URLPath r = "/v1/chat/completions" \/ URLPath r = "/chat/completions").

(** The handler on such a request: the dispatcher runs once, and the
    reply is made from its result, with the model the dispatcher used. *)
Lemma deepseek_chat_cases {codec : JsonCodec} {platform : Platform}
    (key : string) (cfg : DeepSeek.Config.t) (w : ResponseWriter)
    (r : Request DeepSeek.ChatRequest.t) (chatReq : DeepSeek.ChatRequest.t)
    (s : World DeepSeek.DeepSeekRequest.t) :
  chatCall key r chatReq ->
  let dsReq := DeepSeek.buildDeepSeekRequest chatReq (requestedModel chatReq) in
  let d := DeepSeek.doDeepSeekRequestWithFallback cfg r dsReq dsReq
             (DeepSeek.ChatRequest.Stream chatReq)
             (deepseekKeyUsed key (headerGet (ReqHeader r) "Authorization")) s in
  DeepSeek.proxyHandler key cfg w r s
  = (match fst d with
     | None => Error "Error forwarding request" StatusBadGateway (enableCors w)
     | Some (resp, usedModel) =>
         if (400 <=? StatusCode resp)%Z then
           match ReadAll resp with
           | None => Error "Error reading response" StatusInternalServerError
                           (enableCors w)
           | Some respBody =>
               andThen
                 (WriteHeader (StatusCode resp)
                    (SetHeader "Content-Type" "application/json"
                       (fold_left (fun w kv => StoreHeader (fst kv) (snd kv) w)
                                  (RespHeader resp) (enableCors w))))
                 (fun w => Returned (Write respBody w))
           end
         else if DeepSeek.ChatRequest.Stream chatReq then
           DeepSeek.handleStreamingResponse (enableCors w) resp usedModel
         else DeepSeek.handleRegularResponse (enableCors w) resp usedModel
     end, snd d).
Proof.
  intros [Hm [Hk [Hb Hp]]]. cbv zeta.
  assert (P1 : String.eqb (URLPath r) "/v1/models" = false)
    by (destruct Hp as [-> | ->]; reflexivity).
  assert (P2 : String.eqb (URLPath r) "/models" = false)
    by (destruct Hp as [-> | ->]; reflexivity).
  assert (P3 : negb (String.eqb (if negb (HasPrefix (URLPath r) "/v1/")
                                 then "/v1" ++ URLPath r else URLPath r)
                                "/v1/chat/completions") = false)
    by (destruct Hp as [-> | ->]; reflexivity).
  unfold DeepSeek.proxyHandler.
  apply String.eqb_neq in Hm. rewrite Hm. cbv zeta.
  rewrite deepseek_key_missing. apply String.eqb_neq in Hk. rewrite Hk.
  rewrite P1. cbn [andb]. rewrite Hb, P2. cbn [orb]. rewrite P3.
  rewrite (deepseekKeyUsed_code key (headerGet (ReqHeader r) "Authorization")).
  fold (requestedModel chatReq). unfold bind.
  destruct (DeepSeek.doDeepSeekRequestWithFallback _ _ _ _ _ _ s) as [res s'].
  cbn [fst snd]. destruct res as [[resp usedModel]|]; [| reflexivity].
  rewrite used_model.
  destruct (400 <=? StatusCode resp)%Z; [now destruct (ReadAll resp) |].
  now destruct (DeepSeek.ChatRequest.Stream chatReq).
Qed.

(** The URL a request of the DeepSeek proxy is sent to. *)
Definition deepseekURL (cfg : DeepSeek.Config.t) {R : Type} (r : Request R) : string :=
  if negb (String.eqb (RawQuery r) "")
  then (DeepSeek.Config.endpoint cfg ++ URLPath r) ++ "?" ++ RawQuery r
  else DeepSeek.Config.endpoint cfg ++ URLPath r.

Definition carries (k : string) (h : header) : bool :=
  existsb (String.eqb k) (map fst h).

(** Copying the headers of an upstream response over those of the
    writer, [w.Header()[k] = v] for every key. *)
Lemma storeHeaders_get (hs : header) (w : ResponseWriter) (k : string) :
  NoDup (map fst hs) ->
  headerGet (Header (fold_left (fun w kv => StoreHeader (fst kv) (snd kv) w) hs w)) k
  = if carries k hs then headerGet hs k else headerGet (Header w) k.
Proof.
  revert w. induction hs as [|[k1 v1] hs IH]; intros w Hnd; [reflexivity |].
  inversion Hnd as [|? ? Hnotin Hnd']; subst.
  cbn [fold_left fst snd]. rewrite (IH _ Hnd').
  unfold carries. cbn [map fst existsb headerGet].
  destruct (String.eqb_spec k k1) as [->|Hk].
  - cbn [orb].
    assert (E : existsb (String.eqb k1) (map fst hs) = false).
    { destruct (existsb (String.eqb k1) (map fst hs)) eqn:E; [| reflexivity].
      apply existsb_exists in E. destruct E as [x [Hin Hx]].
      apply String.eqb_eq in Hx. subst x. contradiction. }
    unfold carries. rewrite E. unfold StoreHeader. cbn [Header].
    rewrite headerGet_headerStore. now rewrite String.eqb_refl.
  - cbn [orb]. fold (carries k hs). destruct (carries k hs); [reflexivity |].
    unfold StoreHeader. cbn [Header]. rewrite headerGet_headerStore.
    apply String.eqb_neq in Hk. now rewrite Hk.
Qed.

Lemma storeHeaders_rest (hs : header) (w : ResponseWriter) :
  Status (fold_left (fun w kv => StoreHeader (fst kv) (snd kv) w) hs w) = Status w
  /\ Out (fold_left (fun w kv => StoreHeader (fst kv) (snd kv) w) hs w) = Out w.
Proof.
  revert w. induction hs as [|[k1 v1] hs IH]; intros w; [now split |].
  cbn [fold_left]. destruct (IH (StoreHeader (fst (k1, v1)) (snd (k1, v1)) w)) as [A B].
  now rewrite A, B.
Qed.

Lemma enableCors_rest (w : ResponseWriter) :
  Status (enableCors w) = Status w /\ Out (enableCors w) = Out w.
Proof. now split. Qed.

(** [http.Error] on a writer that has not written its status. *)
Lemma Error_fresh (msg : string) (code : Z) (w : ResponseWriter) :
  Status w = None -> finalCode code = true ->
  exists w',
    Error msg code w = Returned w'
    /\ Status w' = Some code
    /\ Out w' = Out w ++ msg ++ LF
    /\ forall k, headerGet (Header w') k
                 = if String.eqb k "X-Content-Type-Options" then "nosniff"
                   else if String.eqb k "Content-Type" then "text/plain; charset=utf-8"
                   else headerGet (Header w) k.
Proof.
  intros Hs Hc. unfold Error.
  rewrite (WriteHeader_fresh code
             (SetHeader "X-Content-Type-Options" "nosniff"
                (SetHeader "Content-Type" "text/plain; charset=utf-8" w)) Hs Hc).
  cbn [andThen].
  eexists. split; [reflexivity |].
  unfold Write, WriteHeader, SetHeader. cbn [Status Header Out written].
  split; [reflexivity |]. split; [reflexivity |].
  intros k. now rewrite !headerGet_headerStore.
Qed.

Lemma dispatcher_first {platform : Platform} (cfg : DeepSeek.Config.t) {R : Type}
    (r : Request R) (dsReq : DeepSeek.DeepSeekRequest.t) (stream : bool)
    (apiKey : string) :
  newRequestOK (Method r) (deepseekURL cfg r) = true ->
  exists q1, DeepSeek.buildDeepSeekHTTPRequest cfg r dsReq stream apiKey = Some q1
             /\ PBody q1 = dsReq.
Proof.
  intros H. unfold DeepSeek.buildDeepSeekHTTPRequest. cbv zeta.
  unfold deepseekURL in H. rewrite H. eexists. split; reflexivity.
Qed.

(** The statements that forward an upstream error, the status and then
    the body: a status of more than three digits makes [WriteHeader]
    panic before anything is written. *)
Lemma forward_error (code : Z) (body : string) (w : ResponseWriter) :
  Status w = None -> (400 <= code)%Z ->
  exists w',
    andThen (WriteHeader code w) (fun w => Returned (Write body w))
    = (if (code <=? 999)%Z then Returned w' else Panicked w')
    /\ Status w' = (if (code <=? 999)%Z then Some code else None)
    /\ Out w' = Out w ++ (if (code <=? 999)%Z then body else "")
    /\ Header w' = Header w.
Proof.
  intros Hs Hge. destruct (code <=? 999)%Z eqn:E.
  - apply Z.leb_le in E.
    assert (Hc : finalCode code = true).
    { unfold finalCode, checkWriteHeaderCode, informational.
      assert (H1 : (100 <=? code)%Z = true) by (apply Z.leb_le; lia).
      assert (H2 : (code <=? 999)%Z = true) by (apply Z.leb_le; lia).
      assert (H3 : (code <=? 199)%Z = false) by (apply Z.leb_gt; lia).
      now rewrite H1, H2, H3. }
    rewrite (WriteHeader_fresh code w Hs Hc). cbn [andThen].
    eexists. split; [reflexivity |].
    unfold Write, WriteHeader. cbn [Status Header Out written]. now repeat split.
  - apply Z.leb_gt in E.
    assert (Hc : checkWriteHeaderCode code = false).
    { unfold checkWriteHeaderCode.
      assert (H2 : (code <=? 999)%Z = false) by (apply Z.leb_gt; lia).
      now rewrite H2, andb_false_r. }
    rewrite (WriteHeader_invalid code w Hs Hc). cbn [andThen].
    exists w. split; [reflexivity |]. split; [exact Hs |].
    split; [now rewrite append_nil_r | reflexivity].
Qed.

(** X7. An error the DeepSeek upstream answers the first attempt with,
    other than the model-not-found errors, reaches the caller as it is:
    the status, the body byte for byte, and the headers of the upstream
    response over those of the proxy, except that Content-Type is always
    application/json. One request was sent. A status of more than three
    digits is the exception: the handler panics on it with these headers
    set and nothing written. *)
Theorem deepseek_error_forwarded {codec : JsonCodec} {platform : Platform}
    (key : string) (cfg : DeepSeek.Config.t) (w : ResponseWriter)
    (r : Request DeepSeek.ChatRequest.t) (chatReq : DeepSeek.ChatRequest.t)
    (s : World DeepSeek.DeepSeekRequest.t) (resp : Response) (later : list doResult) :
  chatCall key r chatReq ->
  newRequestOK (Method r) (deepseekURL cfg r) = true ->
  Status w = None ->
  Script s = DoResponse resp :: later ->
  (400 <= StatusCode resp)%Z ->
  BodyBreaks resp = false ->
  ~ modelNotFound (StatusCode resp) (Body resp) ->
  NoDup (map fst (RespHeader resp)) ->
  let out := DeepSeek.proxyHandler key cfg w r s in
  exists w',
    fst out = (if (StatusCode resp <=? 999)%Z then Returned w' else Panicked w')
    /\ Status w' = (if (StatusCode resp <=? 999)%Z then Some (StatusCode resp) else None)
    /\ Out w' = Out w ++ (if (StatusCode resp <=? 999)%Z then Body resp else "")
    /\ (forall k,
          headerGet (Header w') k
          = if String.eqb k "Content-Type" then "application/json"
            else if carries k (RespHeader resp) then headerGet (RespHeader resp) k
            else headerGet (Header (enableCors w)) k)
    /\ sentModels (snd out) = (sentModels s ++ [requestedModel chatReq])%list
    /\ Script (snd out) = later.
Proof.
  intros Hc Hn Hw Hs Hge Hb Hnf Hnd. cbv zeta.
  rewrite (deepseek_chat_cases key cfg w r chatReq s Hc). cbv zeta.
  destruct (dispatcher_first cfg r
              (DeepSeek.buildDeepSeekRequest chatReq (requestedModel chatReq))
              (DeepSeek.ChatRequest.Stream chatReq)
              (deepseekKeyUsed key (headerGet (ReqHeader r) "Authorization")) Hn)
    as [q1 [Hq1 Hb1]].
  assert (Hf : DeepSeek.isModelNotFoundError (StatusCode resp) (Body resp) = false).
  { destruct (DeepSeek.isModelNotFoundError (StatusCode resp) (Body resp)) eqn:E;
      [| reflexivity].
    exfalso. apply Hnf. now apply isModelNotFoundError_spec. }
  assert (Hlt : (StatusCode resp <? 400)%Z = false) by (apply Z.ltb_ge; exact Hge).
  assert (Hle : (400 <=? StatusCode resp)%Z = true) by (apply Z.leb_le; exact Hge).
  rewrite (firstAttempt_run cfg r _ _ _ s _ later q1 Hq1 Hs). cbv zeta.
  rewrite Hlt. unfold ReadAll. rewrite Hb, Hf.
  cbn [fst snd StatusCode RespHeader Body BodyBreaks]. rewrite Hle.
  destruct (storeHeaders_rest (RespHeader resp) (enableCors w)) as [A B].
  match goal with |- context [WriteHeader (StatusCode resp) ?x] =>
    assert (Hx : Status x = None) by (cbn [SetHeader Status]; now rewrite A);
    destruct (forward_error (StatusCode resp) (Body resp) x Hx Hge)
      as [w' [E1 [E2 [E3 E4]]]]
  end.
  exists w'. split; [exact E1 |]. split; [exact E2 |]. split.
  { rewrite E3. cbn [SetHeader Out]. now rewrite B. }
  split.
  { intros k. rewrite E4. cbn [SetHeader Header]. rewrite headerGet_headerStore.
    destruct (String.eqb k "Content-Type"); [reflexivity |].
    apply storeHeaders_get. exact Hnd. }
  split; [| reflexivity].
  unfold sentModels. cbn [Sent]. rewrite map_app. cbn [map]. rewrite Hb1.
  now rewrite buildDeepSeekRequest_model.
Qed.

Definition rateLimited : Response :=
  {| StatusCode := 429; RespHeader := [("Retry-After", ["3"])];
     Body := "slow down"; BodyBreaks := false |}.

Lemma sample_chatCall (stream : bool) :
  chatCall "" (samplePost "Bearer k" (sampleChatRequest "gpt-4" stream))
    (sampleChatRequest "gpt-4" stream).
Proof.
  repeat split; try discriminate. now left.
Qed.

Lemma deepseek_error_forwarded_witness :
  let out :=
    DeepSeek.proxyHandler (codec := TextCodec.codec) (platform := TextCodec.platform)
      "" chatConfig newWriter (samplePost "Bearer k" (sampleChatRequest "gpt-4" false))
      (worldOf [DoResponse rateLimited]) in
  exists w',
    fst out = Returned w'
    /\ Status w' = Some 429%Z
    /\ Out w' = "slow down"
    /\ (forall k,
          headerGet (Header w') k
          = if String.eqb k "Content-Type" then "application/json"
            else if carries k (RespHeader rateLimited)
                 then headerGet (RespHeader rateLimited) k
                 else headerGet (Header (enableCors newWriter)) k)
    /\ sentModels (snd out) = ["gpt-4"]
    /\ Script (snd out) = [].
Proof.
  apply (deepseek_error_forwarded (codec := TextCodec.codec)
           (platform := TextCodec.platform) "" chatConfig newWriter
           (samplePost "Bearer k" (sampleChatRequest "gpt-4" false))
           (sampleChatRequest "gpt-4" false) (worldOf [DoResponse rateLimited])
           rateLimited []).
  - apply sample_chatCall.
  - reflexivity.
  - reflexivity.
  - reflexivity.
  - simpl. lia.
  - reflexivity.
  - intros [H|[[H|H] _]]; discriminate H.
  - repeat constructor. intros [].
Defined.

(** The dispatcher when the transport fails at both attempts. *)
Lemma dispatcher_fails {platform : Platform} (cfg : DeepSeek.Config.t) {R : Type}
    (r : Request R) (dsReq : DeepSeek.DeepSeekRequest.t) (stream : bool)
    (apiKey : string) (s : World DeepSeek.DeepSeekRequest.t) :
  newRequestOK (Method r) (deepseekURL cfg r) = true ->
  Forall (fun x => x = DoError) (firstn 2 (Script s)) ->
  exists q1 q2,
    PBody q1 = dsReq
    /\ PBody q2 = DeepSeek.DeepSeekRequest.withModel dsReq DeepSeek.deepseekReasonerModel
    /\ DeepSeek.doDeepSeekRequestWithFallback cfg r dsReq dsReq stream apiKey s
       = (None, {| Clock := Clock s; Script := tl (tl (Script s));
                   Sent := (Sent s ++ [q1; q2])%list |}).
Proof.
  intros Hn Hf.
  destruct (dispatcher_first cfg r dsReq stream apiKey Hn) as [q1 [Hq1 Hb1]].
  assert (Hne : DeepSeek.buildDeepSeekHTTPRequest cfg r dsReq stream apiKey <> None)
    by (rewrite Hq1; discriminate).
  exists q1.
  destruct (Script s) as [|first later] eqn:Es.
  - destruct (fallbackAttempt_run cfg r dsReq stream apiKey
                {| Clock := Clock s; Script := []; Sent := (Sent s ++ [q1])%list |} Hne)
      as [q2 [Hb2 Hrun]].
    exists q2. split; [exact Hb1 |]. split; [exact Hb2 |].
    unfold DeepSeek.doDeepSeekRequestWithFallback. rewrite Hq1.
    unfold bind, clientDo. rewrite Es. rewrite Hrun. cbn [Script Clock Sent tl].
    now rewrite <- app_assoc.
  - cbn [firstn] in Hf. inversion Hf as [|? ? H1 H2]. clear Hf. subst first.
    destruct (fallbackAttempt_run cfg r dsReq stream apiKey
                {| Clock := Clock s; Script := later; Sent := (Sent s ++ [q1])%list |} Hne)
      as [q2 [Hb2 Hrun]].
    exists q2. split; [exact Hb1 |]. split; [exact Hb2 |].
    rewrite (firstAttempt_run cfg r dsReq stream apiKey s DoError later q1 Hq1 Es).
    cbv zeta. rewrite Hrun. cbn [Script Clock Sent tl].
    rewrite <- app_assoc. cbn [app].
    destruct later as [|second later']; [reflexivity |].
    inversion H2 as [|? ? H3 _]. subst second. reflexivity.
Qed.

(** X8. When the transport fails at the first attempt and again at the
    fallback, the caller of the DeepSeek proxy gets 502 with the text
    "Error forwarding request" as plain text, after two requests: one
    with the requested model and one with deepseek-reasoner. *)
Theorem deepseek_bad_gateway {codec : JsonCodec} {platform : Platform}
    (key : string) (cfg : DeepSeek.Config.t) (w : ResponseWriter)
    (r : Request DeepSeek.ChatRequest.t) (chatReq : DeepSeek.ChatRequest.t)
    (s : World DeepSeek.DeepSeekRequest.t) :
  chatCall key r chatReq ->
  newRequestOK (Method r) (deepseekURL cfg r) = true ->
  Status w = None ->
  Forall (fun x => x = DoError) (firstn 2 (Script s)) ->
  let out := DeepSeek.proxyHandler key cfg w r s in
  exists w',
    fst out = Returned w'
    /\ Status w' = Some 502%Z
    /\ Out w' = Out w ++ "Error forwarding request" ++ LF
    /\ headerGet (Header w') "Content-Type" = "text/plain; charset=utf-8"
    /\ sentModels (snd out)
       = (sentModels s ++ [requestedModel chatReq; DeepSeek.deepseekReasonerModel])%list.
Proof.
  intros Hc Hn Hw Hf. cbv zeta.
  rewrite (deepseek_chat_cases key cfg w r chatReq s Hc). cbv zeta.
  destruct (dispatcher_fails cfg r
              (DeepSeek.buildDeepSeekRequest chatReq (requestedModel chatReq))
              (DeepSeek.ChatRequest.Stream chatReq)
              (deepseekKeyUsed key (headerGet (ReqHeader r) "Authorization")) s Hn Hf)
    as [q1 [q2 [Hb1 [Hb2 Hrun]]]].
  rewrite Hrun. cbn [fst snd].
  destruct (Error_fresh "Error forwarding request" StatusBadGateway (enableCors w)
              Hw eq_refl) as [w' [E [A [B C]]]].
  exists w'. split; [exact E |].
  split; [exact A |]. split; [exact B |]. split.
  - rewrite C. reflexivity.
  - unfold sentModels. cbn [Sent]. rewrite map_app. cbn [map]. rewrite Hb1, Hb2.
    now rewrite buildDeepSeekRequest_model.
Qed.

Lemma deepseek_bad_gateway_witness :
  let out :=
    DeepSeek.proxyHandler (codec := TextCodec.codec) (platform := TextCodec.platform)
      "" chatConfig newWriter (samplePost "Bearer k" (sampleChatRequest "gpt-4" false))
      (worldOf [DoError]) in
  exists w',
    fst out = Returned w'
    /\ Status w' = Some 502%Z
    /\ Out w' = "Error forwarding request" ++ LF
    /\ headerGet (Header w') "Content-Type" = "text/plain; charset=utf-8"
    /\ sentModels (snd out) = ["gpt-4"; "deepseek-reasoner"].
Proof.
  apply (deepseek_bad_gateway (codec := TextCodec.codec)
           (platform := TextCodec.platform) "" chatConfig newWriter
           (samplePost "Bearer k" (sampleChatRequest "gpt-4" false))
           (sampleChatRequest "gpt-4" false) (worldOf [DoError])).
  - apply sample_chatCall.
  - reflexivity.
  - reflexivity.
  - repeat constructor.
Defined.

(** A reply that refuses the request: [http.Error] with a status and a
    text, on a writer that had written [before]. *)
Definition refusal (before : string) (code : Z) (msg : string) (o : outcome) : Prop :=
  exists w',
    o = Returned w'
    /\ Status w' = Some code
    /\ Out w' = before ++ msg ++ LF
    /\ headerGet (Header w') "Content-Type" = "text/plain; charset=utf-8".

Lemma Error_refusal (msg : string) (code : Z) (w : ResponseWriter) :
  Status w = None -> finalCode code = true ->
  refusal (Out w) code msg (Error msg code (enableCors w)).
Proof.
  intros Hw Hc.
  destruct (Error_fresh msg code (enableCors w) Hw Hc) as [w' [E [A [B C]]]].
  exists w'. split; [exact E |]. split; [exact A |]. split; [exact B |].
  rewrite C. reflexivity.
Qed.

Lemma not_models_get (path method : string) :
  ~ (path = "/v1/models" /\ method = "GET") ->
  String.eqb path "/v1/models" && String.eqb method "GET" = false.
Proof.
  intros H. destruct (String.eqb_spec path "/v1/models") as [Hp|Hp]; [| reflexivity].
  destruct (String.eqb_spec method "GET") as [Hm|Hm]; [| reflexivity].
  exfalso. now apply H.
Qed.

(** X9. What the DeepSeek proxy refuses without asking the upstream, for a
    request with a key that is neither a preflight nor GET /v1/models: a
    body that cannot be read and a body that is not a JSON chat request
    get 400, whatever the path; a path other than /v1/models, /models,
    /v1/chat/completions and /chat/completions gets 404 "Not found", and
    only after the body was decoded. *)
Theorem deepseek_client_errors {codec : JsonCodec} {platform : Platform}
    (key : string) (cfg : DeepSeek.Config.t) (w : ResponseWriter)
    (r : Request DeepSeek.ChatRequest.t) (s : World DeepSeek.DeepSeekRequest.t) :
  Method r <> "OPTIONS" ->
  deepseekKeyUsed key (headerGet (ReqHeader r) "Authorization") <> "" ->
  ~ (URLPath r = "/v1/models" /\ Method r = "GET") ->
  Status w = None ->
  let out := DeepSeek.proxyHandler key cfg w r s in
  match ReqBody r with
  | ReadFails => snd out = s /\ refusal (Out w) 400 "Error reading request" (fst out)
  | InvalidJSON => snd out = s /\ refusal (Out w) 400 "Invalid JSON" (fst out)
  | Decoded _ =>
      ~ In (URLPath r)
           ["/v1/models"; "/models"; "/v1/chat/completions"; "/chat/completions"] ->
      snd out = s /\ refusal (Out w) 404 "Not found" (fst out)
  end.
Proof.
  intros Hm Hk Hg Hw. cbv zeta. unfold DeepSeek.proxyHandler.
  apply String.eqb_neq in Hm. rewrite Hm. cbv zeta.
  rewrite deepseek_key_missing. apply String.eqb_neq in Hk. rewrite Hk.
  rewrite (not_models_get _ _ Hg).
  destruct (ReqBody r) as [| |chatReq].
  - split; [reflexivity |]. now apply Error_refusal.
  - split; [reflexivity |]. now apply Error_refusal.
  - intros Hp.
    destruct (String.eqb_spec (URLPath r) "/v1/models") as [E|_];
      [exfalso; apply Hp; rewrite E; simpl; tauto |].
    destruct (String.eqb_spec (URLPath r) "/models") as [E|_];
      [exfalso; apply Hp; rewrite E; simpl; tauto |].
    cbn [orb].
    match goal with |- context [if ?c then _ else _] => destruct c eqn:Ep end.
    + split; [reflexivity |]. now apply Error_refusal.
    + exfalso. apply chat_path in Ep. apply Hp. destruct Ep as [-> | ->]; simpl; tauto.
Qed.

Definition postTo {R : Type} (path : string) (body : inbound R) : Request R :=
  {| Method := "POST"; URLPath := path; RawQuery := "";
     ReqHeader := [("Authorization", ["Bearer k"])]; ReqBody := body |}.

Lemma deepseek_client_errors_witness :
  let out :=
    DeepSeek.proxyHandler (codec := TextCodec.codec) (platform := TextCodec.platform)
      "" chatConfig newWriter
      (postTo "/v1/embeddings" (Decoded (sampleChatRequest "gpt-4" false)))
      (worldOf []) in
  snd out = worldOf [] /\ refusal "" 404 "Not found" (fst out).
Proof.
  apply (deepseek_client_errors (codec := TextCodec.codec)
           (platform := TextCodec.platform) "" chatConfig newWriter
           (postTo "/v1/embeddings" (Decoded (sampleChatRequest "gpt-4" false)))
           (worldOf [])).
  - discriminate.
  - discriminate.
  - intros [H _]. discriminate H.
  - reflexivity.
  - simpl. intros [H|[H|[H|[H|[]]]]]; discriminate H.
Defined.

(** The key a request of the Claude proxy goes upstream with: the header
    has to start with [Bearer ], and an empty token stands for the key
    of the server. *)
Definition poeKeyUsed (serverKey authHeader : string) : option string :=
  match cutPrefix authHeader "Bearer " with
  | Some token => Some (if String.eqb token "" then serverKey else token)
  | None => None
  end.

Definition poeURL : string := Poe.openAIEndpoint ++ "/v1/chat/completions".

(** A request that the Claude handler sends upstream. *)
Definition poeCall (key : string) (r : Request Poe.ClaudeRequest.t)
    (claudeReq : Poe.ClaudeRequest.t) (apiKey : string) : Prop :=
  Method r <> "OPTIONS"
  /\ poeKeyUsed key (headerGet (ReqHeader r) "Authorization") = Some apiKey
  /\ apiKey <> ""
  /\ ~ (URLPath r = "/v1/models" /\ Method r = "GET")
  /\ ReqBody r = Decoded claudeReq.

Lemma poeKeyUsed_code (key auth apiKey : string) :
  poeKeyUsed key auth = Some apiKey ->
  HasPrefix auth "Bearer " = true
  /\ (if String.eqb (TrimPrefix auth "Bearer ") "" then key
      else TrimPrefix auth "Bearer ") = apiKey.
Proof.
  unfold poeKeyUsed, HasPrefix, TrimPrefix.
  destruct (cutPrefix auth "Bearer ") as [token|]; [| discriminate].
  intros H. inversion H. now split.
Qed.

Lemma poe_call_cases {codec : JsonCodec} {platform : Platform}
    (key : string) (w : ResponseWriter) (r : Request Poe.ClaudeRequest.t)
    (claudeReq : Poe.ClaudeRequest.t) (apiKey : string)
    (s : World Poe.OpenAIRequest.t) :
  poeCall key r claudeReq apiKey ->
  newRequestOK "POST" poeURL = true ->
  exists q,
    PMethod q = "POST" /\ PURL q = poeURL
    /\ headerGet (PHeader q) "Authorization" = "Bearer " ++ apiKey
    /\ PBody q = Poe.convertClaudeToOpenAI claudeReq
    /\ Poe.proxyHandler key w r s
       = (match Script s with
          | DoResponse resp :: _ =>
              if (400 <=? StatusCode resp)%Z then
                match ReadAll resp with
                | None => Error "Error reading response" StatusInternalServerError
                                (enableCors w)
                | Some respBody =>
                    andThen
                      (WriteHeader (StatusCode resp)
                         (fold_left (fun w kv => StoreHeader (fst kv) (snd kv) w)
                                    (RespHeader resp) (enableCors w)))
                      (fun w => Returned (Write respBody w))
                end
              else if Poe.ClaudeRequest.Stream claudeReq then
                Poe.handleStreamingResponse (enableCors w) resp
                  (Poe.ClaudeRequest.Model claudeReq)
              else Poe.handleRegularResponse (enableCors w) resp
                     (Poe.ClaudeRequest.Model claudeReq)
          | _ => Error "Error forwarding request" StatusBadGateway (enableCors w)
          end,
          {| Clock := Clock s; Script := tl (Script s); Sent := (Sent s ++ [q])%list |}).
Proof.
  intros [Hm [Hk [Hne [Hg Hb]]]] Hn.
  apply poeKeyUsed_code in Hk. destruct Hk as [Hp Hk].
  eexists. split; [| split; [| split; [| split]]].
  5:{ unfold Poe.proxyHandler.
      apply String.eqb_neq in Hm. rewrite Hm. cbv zeta. rewrite Hp. cbn [negb].
      rewrite Hk. apply String.eqb_neq in Hne. rewrite Hne.
      rewrite (not_models_get _ _ Hg). rewrite Hb.
      unfold poeURL in Hn. rewrite Hn. cbn [negb].
      unfold bind, clientDo.
      destruct (Script s) as [|[|resp] later]; cbn [tl]; try reflexivity.
      destruct (400 <=? StatusCode resp)%Z; [now destruct (ReadAll resp) |].
      now destruct (Poe.ClaudeRequest.Stream claudeReq). }
  - reflexivity.
  - reflexivity.
  - cbn [PHeader]. destruct (Poe.ClaudeRequest.Stream claudeReq);
      rewrite !headerGet_headerStore; reflexivity.
  - reflexivity.
Qed.

Lemma convertClaudeToOpenAI_model {codec : JsonCodec} (claudeReq : Poe.ClaudeRequest.t) :
  Poe.OpenAIRequest.Model (Poe.convertClaudeToOpenAI claudeReq) <> "".
Proof.
  unfold Poe.convertClaudeToOpenAI. cbn [Poe.OpenAIRequest.Model].
  destruct (String.eqb_spec (Poe.ClaudeRequest.Model claudeReq) "") as [E|E];
    [discriminate | exact E].
Qed.

(** X10. What the Claude handler sends upstream, for every request and
    every transport: at most one request, never a second one. The request
    is always a POST to /v1/chat/completions of the POE endpoint, whatever
    the method and the path of the inbound request were; it carries the
    translation of the decoded body, whose model is never empty, and for
    authorization the bearer token of the caller or, when that token is
    empty, the key of the server. *)
Theorem poe_upstream_requests {codec : JsonCodec} {platform : Platform}
    (key : string) (w : ResponseWriter) (r : Request Poe.ClaudeRequest.t)
    (s : World Poe.OpenAIRequest.t) :
  let out := Poe.proxyHandler key w r s in
  exists extra,
    Sent (snd out) = (Sent s ++ extra)%list
    /\ (List.length extra <= 1)%nat
    /\ Forall
         (fun q =>
            PMethod q = "POST" /\ PURL q = poeURL
            /\ (exists claudeReq,
                  ReqBody r = Decoded claudeReq
                  /\ PBody q = Poe.convertClaudeToOpenAI claudeReq)
            /\ Poe.OpenAIRequest.Model (PBody q) <> ""
            /\ (exists apiKey,
                  poeKeyUsed key (headerGet (ReqHeader r) "Authorization") = Some apiKey
                  /\ apiKey <> ""
                  /\ headerGet (PHeader q) "Authorization" = "Bearer " ++ apiKey))
         extra.
Proof.
  cbv zeta.
  assert (H0 : forall (o : outcome) (s' : World Poe.OpenAIRequest.t),
            Sent s' = Sent s ->
            exists extra : list (ProxyRequest Poe.OpenAIRequest.t),
              Sent (snd (o, s')) = (Sent s ++ extra)%list
              /\ (List.length extra <= 1)%nat
              /\ Forall
                   (fun q =>
                      PMethod q = "POST" /\ PURL q = poeURL
                      /\ (exists claudeReq,
                            ReqBody r = Decoded claudeReq
                            /\ PBody q = Poe.convertClaudeToOpenAI claudeReq)
                      /\ Poe.OpenAIRequest.Model (PBody q) <> ""
                      /\ (exists apiKey,
                            poeKeyUsed key (headerGet (ReqHeader r) "Authorization")
                            = Some apiKey
                            /\ apiKey <> ""
                            /\ headerGet (PHeader q) "Authorization"
                               = "Bearer " ++ apiKey))
                   extra).
  { intros o s' E. exists []. cbn [snd]. rewrite E, app_nil_r.
    split; [reflexivity |]. split; [simpl; lia | constructor]. }
  destruct (String.eqb_spec (Method r) "OPTIONS") as [Em|Em].
  { unfold Poe.proxyHandler. rewrite Em. change (String.eqb "OPTIONS" "OPTIONS") with true.
    cbv iota. unfold ret. apply H0; reflexivity. }
  destruct (poeKeyUsed key (headerGet (ReqHeader r) "Authorization")) as [apiKey|] eqn:Ek.
  2:{ unfold Poe.proxyHandler. apply String.eqb_neq in Em. rewrite Em. cbv zeta.
      unfold poeKeyUsed in Ek. unfold HasPrefix.
      destruct (cutPrefix _ "Bearer ");
        [discriminate | cbn [negb]; unfold ret; apply H0; reflexivity]. }
  destruct (String.eqb_spec apiKey "") as [Ea|Ea].
  { subst apiKey. unfold Poe.proxyHandler. apply String.eqb_neq in Em. rewrite Em. cbv zeta.
    apply poeKeyUsed_code in Ek. destruct Ek as [Hp Hk]. rewrite Hp. cbn [negb].
    rewrite Hk. change (String.eqb "" "") with true.
    cbv iota. unfold ret. apply H0; reflexivity. }
  destruct (String.eqb (URLPath r) "/v1/models" && String.eqb (Method r) "GET") eqn:Eg.
  { unfold Poe.proxyHandler, Poe.handleModelsRequest.
    apply String.eqb_neq in Em. rewrite Em. cbv zeta.
    apply poeKeyUsed_code in Ek. destruct Ek as [Hp Hk]. rewrite Hp. cbn [negb].
    rewrite Hk. apply String.eqb_neq in Ea. rewrite Ea, Eg.
    unfold bind, timeNow, ret. apply H0; reflexivity. }
  destruct (ReqBody r) as [| |claudeReq] eqn:Eb.
  1,2: unfold Poe.proxyHandler; apply String.eqb_neq in Em; rewrite Em; cbv zeta;
       apply poeKeyUsed_code in Ek; destruct Ek as [Hp Hk]; rewrite Hp; cbn [negb];
       rewrite Hk; apply String.eqb_neq in Ea; rewrite Ea, Eg, Eb; unfold ret; apply H0; reflexivity.
  destruct (newRequestOK "POST" poeURL) eqn:En.
  2:{ unfold Poe.proxyHandler. apply String.eqb_neq in Em. rewrite Em. cbv zeta.
      apply poeKeyUsed_code in Ek. destruct Ek as [Hp Hk]. rewrite Hp. cbn [negb].
      rewrite Hk. apply String.eqb_neq in Ea. rewrite Ea, Eg, Eb.
      unfold poeURL in En. rewrite En. cbn [negb]. unfold ret. apply H0; reflexivity. }
  assert (Hc : poeCall key r claudeReq apiKey).
  { repeat split; try assumption.
    intros [H1 H2]. rewrite H1, H2 in Eg. discriminate Eg. }
  destruct (poe_call_cases key w r claudeReq apiKey s Hc En)
    as [q [Q1 [Q2 [Q3 [Q4 Hrun]]]]].
  rewrite Hrun. cbn [snd Sent]. exists [q].
  split; [reflexivity |]. split; [simpl; lia |].
  constructor; [| constructor].
  split; [exact Q1 |]. split; [exact Q2 |]. split.
  - exists claudeReq. now split.
  - split; [rewrite Q4; apply convertClaudeToOpenAI_model |].
    exists apiKey. now repeat split.
Qed.

(** X11. An error of the POE upstream, a 404 included, reaches the caller
    of the Claude proxy as it is, without a second attempt: the status,
    the body byte for byte, and the headers of the upstream response over
    those of the proxy. A status of more than three digits is the
    exception: the handler panics on it with these headers set and
    nothing written. *)
Theorem poe_error_forwarded {codec : JsonCodec} {platform : Platform}
    (key : string) (w : ResponseWriter) (r : Request Poe.ClaudeRequest.t)
    (claudeReq : Poe.ClaudeRequest.t) (apiKey : string)
    (s : World Poe.OpenAIRequest.t) (resp : Response) (later : list doResult) :
  poeCall key r claudeReq apiKey ->
  newRequestOK "POST" poeURL = true ->
  Status w = None ->
  Script s = DoResponse resp :: later ->
  (400 <= StatusCode resp)%Z ->
  BodyBreaks resp = false ->
  NoDup (map fst (RespHeader resp)) ->
  let out := Poe.proxyHandler key w r s in
  exists w',
    fst out = (if (StatusCode resp <=? 999)%Z then Returned w' else Panicked w')
    /\ Status w' = (if (StatusCode resp <=? 999)%Z then Some (StatusCode resp) else None)
    /\ Out w' = Out w ++ (if (StatusCode resp <=? 999)%Z then Body resp else "")
    /\ (forall k,
          headerGet (Header w') k
          = if carries k (RespHeader resp) then headerGet (RespHeader resp) k
            else headerGet (Header (enableCors w)) k)
    /\ List.length (Sent (snd out)) = S (List.length (Sent s))
    /\ Script (snd out) = later.
Proof.
  intros Hc Hn Hw Hs Hge Hb Hnd. cbv zeta.
  destruct (poe_call_cases key w r claudeReq apiKey s Hc Hn) as [q [_ [_ [_ [_ Hrun]]]]].
  rewrite Hrun, Hs. cbn [fst snd tl Sent Script].
  assert (Hle : (400 <=? StatusCode resp)%Z = true) by (apply Z.leb_le; exact Hge).
  rewrite Hle. unfold ReadAll. rewrite Hb.
  destruct (storeHeaders_rest (RespHeader resp) (enableCors w)) as [A B].
  match goal with |- context [WriteHeader (StatusCode resp) ?x] =>
    assert (Hx : Status x = None) by (now rewrite A);
    destruct (forward_error (StatusCode resp) (Body resp) x Hx Hge)
      as [w' [E1 [E2 [E3 E4]]]]
  end.
  exists w'. split; [exact E1 |]. split; [exact E2 |]. split.
  { rewrite E3. now rewrite B. }
  split.
  { intros k. rewrite E4. apply storeHeaders_get. exact Hnd. }
  split; [| reflexivity].
  rewrite length_app. simpl. lia.
Qed.

Definition notFound : Response :=
  {| StatusCode := 404; RespHeader := [("Content-Type", ["text/html"])];
     Body := "model not found"; BodyBreaks := false |}.

Lemma sample_poeCall (stream : bool) :
  poeCall "" (samplePost "Bearer k" (claudeRequest "" [claudeUserMessage "hi"] None stream))
    (claudeRequest "" [claudeUserMessage "hi"] None stream) "k".
Proof.
  repeat split; try discriminate. intros [H _]. discriminate H.
Qed.

Lemma poe_error_forwarded_witness :
  let out :=
    Poe.proxyHandler (codec := TextCodec.codec) (platform := TextCodec.platform)
      "" newWriter
      (samplePost "Bearer k" (claudeRequest "" [claudeUserMessage "hi"] None false))
      (worldOf [DoResponse notFound; DoResponse (reply 200 "{}")]) in
  exists w',
    fst out = Returned w'
    /\ Status w' = Some 404%Z
    /\ Out w' = "model not found"
    /\ (forall k,
          headerGet (Header w') k
          = if carries k (RespHeader notFound) then headerGet (RespHeader notFound) k
            else headerGet (Header (enableCors newWriter)) k)
    /\ List.length (Sent (snd out)) = 1%nat
    /\ Script (snd out) = [DoResponse (reply 200 "{}")].
Proof.
  apply (poe_error_forwarded (codec := TextCodec.codec)
           (platform := TextCodec.platform) "" newWriter
           (samplePost "Bearer k" (claudeRequest "" [claudeUserMessage "hi"] None false))
           (claudeRequest "" [claudeUserMessage "hi"] None false) "k"
           (worldOf [DoResponse notFound; DoResponse (reply 200 "{}")])
           notFound [DoResponse (reply 200 "{}")]).
  - apply sample_poeCall.
  - reflexivity.
  - reflexivity.
  - reflexivity.
  - simpl. lia.
  - reflexivity.
  - repeat constructor. intros [].
Defined.

(** X12. What the Claude proxy refuses without asking the upstream, for a
    request that is neither a preflight nor GET /v1/models: 401 when the
    Authorization header does not start with "Bearer ", 401 "No API key
    available" when the token is empty and the server has no key, and,
    with a key, 400 for a body that cannot be read or is not a JSON
    request. No path is refused: there is no 404. *)
Theorem poe_client_errors {codec : JsonCodec} {platform : Platform}
    (key : string) (w : ResponseWriter) (r : Request Poe.ClaudeRequest.t)
    (s : World Poe.OpenAIRequest.t) :
  Method r <> "OPTIONS" ->
  ~ (URLPath r = "/v1/models" /\ Method r = "GET") ->
  Status w = None ->
  let out := Poe.proxyHandler key w r s in
  match poeKeyUsed key (headerGet (ReqHeader r) "Authorization") with
  | None =>
      snd out = s
      /\ refusal (Out w) 401 "Missing or invalid Authorization header" (fst out)
  | Some apiKey =>
      if String.eqb apiKey "" then
        snd out = s /\ refusal (Out w) 401 "No API key available" (fst out)
      else
        match ReqBody r with
        | ReadFails => snd out = s /\ refusal (Out w) 400 "Error reading request" (fst out)
        | InvalidJSON => snd out = s /\ refusal (Out w) 400 "Invalid JSON" (fst out)
        | Decoded _ =>
            newRequestOK "POST" poeURL = true ->
            List.length (Sent (snd out)) = S (List.length (Sent s))
        end
  end.
Proof.
  intros Hm Hg Hw. cbv zeta.
  destruct (poeKeyUsed key (headerGet (ReqHeader r) "Authorization")) as [apiKey|] eqn:Ek.
  2:{ unfold Poe.proxyHandler. apply String.eqb_neq in Hm. rewrite Hm. cbv zeta.
      unfold poeKeyUsed in Ek. unfold HasPrefix.
      destruct (cutPrefix _ "Bearer "); [discriminate |]. cbn [negb].
      split; [reflexivity |]. now apply Error_refusal. }
  destruct (String.eqb_spec apiKey "") as [Ea|Ea].
  { subst apiKey. unfold Poe.proxyHandler. apply String.eqb_neq in Hm. rewrite Hm.
    cbv zeta. apply poeKeyUsed_code in Ek. destruct Ek as [Hp Hk]. rewrite Hp.
    cbn [negb]. rewrite Hk. change (String.eqb "" "") with true. cbv iota.
    split; [reflexivity |]. now apply Error_refusal. }
  destruct (ReqBody r) as [| |claudeReq] eqn:Eb.
  1,2: unfold Poe.proxyHandler; apply String.eqb_neq in Hm; rewrite Hm; cbv zeta;
       apply poeKeyUsed_code in Ek; destruct Ek as [Hp Hk]; rewrite Hp; cbn [negb];
       rewrite Hk; apply String.eqb_neq in Ea; rewrite Ea, (not_models_get _ _ Hg), Eb;
       (split; [reflexivity |]); now apply Error_refusal.
  intros Hn.
  assert (Hc : poeCall key r claudeReq apiKey) by (repeat split; assumption).
  destruct (poe_call_cases key w r claudeReq apiKey s Hc Hn) as [q [_ [_ [_ [_ Hrun]]]]].
  rewrite Hrun. cbn [snd Sent]. rewrite length_app. simpl. lia.
Qed.

Lemma poe_client_errors_witness :
  let out :=
    Poe.proxyHandler (codec := TextCodec.codec) (platform := TextCodec.platform)
      "" newWriter
      {| Method := "POST"; URLPath := "/v1/chat/completions"; RawQuery := "";
         ReqHeader := [("Authorization", ["Bearer "])]; ReqBody := InvalidJSON |}
      (worldOf []) in
  snd out = worldOf [] /\ refusal "" 401 "No API key available" (fst out).
Proof.
  apply (poe_client_errors (codec := TextCodec.codec)
           (platform := TextCodec.platform) "" newWriter
           {| Method := "POST"; URLPath := "/v1/chat/completions"; RawQuery := "";
              ReqHeader := [("Authorization", ["Bearer "])]; ReqBody := InvalidJSON |}
           (worldOf [])).
  - discriminate.
  - intros [H _]. discriminate H.
  - reflexivity.
Defined.

(** X13. When the transport fails, the caller of the Claude proxy gets 502
    with the text "Error forwarding request" as plain text after one
    request; the Claude proxy does not try again. *)
Theorem poe_bad_gateway {codec : JsonCodec} {platform : Platform}
    (key : string) (w : ResponseWriter) (r : Request Poe.ClaudeRequest.t)
    (claudeReq : Poe.ClaudeRequest.t) (apiKey : string)
    (s : World Poe.OpenAIRequest.t) :
  poeCall key r claudeReq apiKey ->
  newRequestOK "POST" poeURL = true ->
  Status w = None ->
  Forall (fun x => x = DoError) (firstn 1 (Script s)) ->
  let out := Poe.proxyHandler key w r s in
  refusal (Out w) 502 "Error forwarding request" (fst out)
  /\ List.length (Sent (snd out)) = S (List.length (Sent s))
  /\ Script (snd out) = tl (Script s).
Proof.
  intros Hc Hn Hw Hf. cbv zeta.
  destruct (poe_call_cases key w r claudeReq apiKey s Hc Hn) as [q [_ [_ [_ [_ Hrun]]]]].
  rewrite Hrun. cbn [fst snd Sent Script]. split.
  - destruct (Script s) as [|[|resp] later].
    + now apply Error_refusal.
    + now apply Error_refusal.
    + inversion Hf as [|? ? H _]. discriminate H.
  - split; [| reflexivity]. rewrite length_app. simpl. lia.
Qed.

Lemma poe_bad_gateway_witness :
  let out :=
    Poe.proxyHandler (codec := TextCodec.codec) (platform := TextCodec.platform)
      "" newWriter
      (samplePost "Bearer k" (claudeRequest "" [claudeUserMessage "hi"] None false))
      (worldOf [DoError; DoResponse (reply 200 "{}")]) in
  refusal "" 502 "Error forwarding request" (fst out)
  /\ List.length (Sent (snd out)) = 1%nat
  /\ Script (snd out) = [DoResponse (reply 200 "{}")].
Proof.
  apply (poe_bad_gateway (codec := TextCodec.codec)
           (platform := TextCodec.platform) "" newWriter
           (samplePost "Bearer k" (claudeRequest "" [claudeUserMessage "hi"] None false))
           (claudeRequest "" [claudeUserMessage "hi"] None false) "k"
           (worldOf [DoError; DoResponse (reply 200 "{}")])).
  - apply sample_poeCall.
  - reflexivity.
  - reflexivity.
  - repeat constructor.
Defined.

(** The headers the handlers set themselves, besides those of
    [enableCors]. *)
Definition handlerHeader (k : string) : bool :=
  existsb (String.eqb k)
    ["Content-Type"; "X-Content-Type-Options"; "Cache-Control"; "Connection"].

(** No error response the transport is going to give carries the header
    [k]. *)
Definition upstreamSilent (k : string) (script : list doResult) : bool :=
  forallb (fun d => match d with
                    | DoResponse resp =>
                        (StatusCode resp <? 400)%Z || negb (carries k (RespHeader resp))
                    | DoError => true
                    end)
          script.

Definition corsHeaders : list (string * string) :=
  [("Access-Control-Allow-Origin", "*");
   ("Access-Control-Allow-Methods", "POST, GET, OPTIONS");
   ("Access-Control-Allow-Headers", "Origin, Content-Type, Accept, Authorization");
   ("Access-Control-Expose-Headers", "Content-Length");
   ("Access-Control-Allow-Credentials", "true")].

Lemma handlerHeader_false (k : string) :
  handlerHeader k = false ->
  String.eqb k "Content-Type" = false /\ String.eqb k "X-Content-Type-Options" = false
  /\ String.eqb k "Cache-Control" = false /\ String.eqb k "Connection" = false.
Proof.
  unfold handlerHeader. cbn [existsb]. intros H.
  repeat (apply orb_false_iff in H; destruct H as [? H]). now repeat split.
Qed.

Lemma andThen_Header (o : outcome) (k : ResponseWriter -> outcome) :
  (forall w, Header (written (k w)) = Header w) ->
  Header (written (andThen o k)) = Header (written o).
Proof. intros H. destruct o; cbn [andThen written]; [apply H | reflexivity]. Qed.

Lemma Error_frame (msg : string) (code : Z) (w : ResponseWriter) (k : string) :
  handlerHeader k = false ->
  headerGet (Header (written (Error msg code w))) k = headerGet (Header w) k.
Proof.
  intros H. apply handlerHeader_false in H. destruct H as [H1 [H2 _]].
  unfold Error. rewrite andThen_Header by (intros; apply Write_Header).
  rewrite WriteHeader_Header. unfold SetHeader.
  cbn [Header]. now rewrite !headerGet_headerStore, H1, H2.
Qed.

Lemma SetHeader_frame (k0 v : string) (w : ResponseWriter) (k : string) :
  String.eqb k k0 = false ->
  headerGet (Header (SetHeader k0 v w)) k = headerGet (Header w) k.
Proof.
  intros H. unfold SetHeader. cbn [Header]. now rewrite headerGet_headerStore, H.
Qed.

Lemma storeHeaders_other (hs : header) (w : ResponseWriter) (k : string) :
  carries k hs = false ->
  headerGet (Header (fold_left (fun w kv => StoreHeader (fst kv) (snd kv) w) hs w)) k
  = headerGet (Header w) k.
Proof.
  revert w. induction hs as [|[k1 v1] hs IH]; intros w H; [reflexivity |].
  unfold carries in H. cbn [map fst existsb] in H.
  apply orb_false_iff in H. destruct H as [H1 H2].
  cbn [fold_left fst snd]. rewrite (IH _ H2).
  unfold StoreHeader. cbn [Header]. now rewrite headerGet_headerStore, H1.
Qed.

Lemma relay_frame {codec : JsonCodec} (resp : Response) (m : string)
    (w : ResponseWriter) (k : string) :
  handlerHeader k = false ->
  headerGet (Header (written (Relay.relay resp m w))) k = headerGet (Header w) k.
Proof.
  intros H. apply handlerHeader_false in H. destruct H as [H1 [_ [H3 H4]]].
  unfold Relay.relay.
  rewrite andThen_Header by (intros; apply relayLoop_keeps).
  rewrite WriteHeader_Header.
  now rewrite !SetHeader_frame.
Qed.

Lemma upstreamSilent_In (k : string) (script : list doResult) (resp : Response) :
  upstreamSilent k script = true ->
  In (DoResponse resp) script ->
  (400 <=? StatusCode resp)%Z = true ->
  carries k (RespHeader resp) = false.
Proof.
  intros H Hin Hge. unfold upstreamSilent in H.
  rewrite forallb_forall in H. specialize (H _ Hin). cbn beta iota in H.
  apply Z.leb_le in Hge.
  assert (Hlt : (StatusCode resp <? 400)%Z = false) by (apply Z.ltb_ge; exact Hge).
  rewrite Hlt in H. cbn [orb] in H. now apply negb_true_iff in H.
Qed.

Lemma deepseek_regular_frame {codec : JsonCodec} {platform : Platform}
    (w : ResponseWriter) (resp : Response) (m k : string) :
  handlerHeader k = false ->
  headerGet (Header (written (DeepSeek.handleRegularResponse w resp m))) k
  = headerGet (Header w) k.
Proof.
  intros H. unfold DeepSeek.handleRegularResponse.
  destruct (readResponse resp) as [body|]; [| now apply Error_frame].
  destruct (match jsonParse body with
            | Some tree => _
            | None => None
            end) as [c|]; [| now rewrite WriteHeader_Header].
  cbv zeta. destruct (jsonPrint _); [| now rewrite WriteHeader_Header].
  rewrite andThen_Header by (intros; apply Write_Header).
  rewrite WriteHeader_Header. apply SetHeader_frame.
  now apply handlerHeader_false in H.
Qed.

Lemma poe_regular_frame {codec : JsonCodec} {platform : Platform}
    (w : ResponseWriter) (resp : Response) (m k : string) :
  handlerHeader k = false ->
  headerGet (Header (written (Poe.handleRegularResponse w resp m))) k
  = headerGet (Header w) k.
Proof.
  intros H. unfold Poe.handleRegularResponse.
  destruct (readResponse resp) as [body|]; [| now apply Error_frame].
  destruct (match jsonParse body with
            | Some tree => _
            | None => None
            end) as [c|]; [| now rewrite WriteHeader_Header].
  cbv zeta. destruct (jsonPrint _); [| now rewrite WriteHeader_Header].
  rewrite andThen_Header by (intros; apply Write_Header).
  rewrite WriteHeader_Header. apply SetHeader_frame.
  now apply handlerHeader_false in H.
Qed.

(** The headers of a reply of the DeepSeek handler, apart from the four
    it sets for the kind of reply and from those an upstream error
    brings: the headers the writer had, with those of [enableCors]. *)
Lemma deepseek_header_frame {codec : JsonCodec} {platform : Platform}
    (key : string) (cfg : DeepSeek.Config.t) (w : ResponseWriter)
    (r : Request DeepSeek.ChatRequest.t) (s : World DeepSeek.DeepSeekRequest.t)
    (k : string) :
  handlerHeader k = false ->
  upstreamSilent k (Script s) = true ->
  headerGet (Header (written (fst (DeepSeek.proxyHandler key cfg w r s)))) k
  = headerGet (Header (enableCors w)) k.
Proof.
  intros Hk Hu.
  pose proof (handlerHeader_false k Hk) as [K1 _].
  unfold DeepSeek.proxyHandler, DeepSeek.handleModelsRequest. cbv zeta.
  assert (Hmodels : forall o : option string,
            headerGet (Header match o with
                              | Some b => Write (b ++ LF)
                                            (SetHeader "Content-Type" "application/json"
                                               (enableCors w))
                              | None => SetHeader "Content-Type" "application/json"
                                          (enableCors w)
                              end) k = headerGet (Header (enableCors w)) k).
  { intros [b|]; rewrite ?Write_Header; now apply SetHeader_frame. }
  destruct (String.eqb (Method r) "OPTIONS"); [reflexivity |].
  match goal with |- context [if ?c then _ else _] => destruct c end;
    [now apply Error_frame |].
  match goal with |- context [if ?c then _ else _] => destruct c end;
    [apply Hmodels |].
  destruct (ReqBody r) as [| |chatReq];
    [now apply Error_frame | now apply Error_frame |].
  match goal with |- context [if ?c then _ else _] => destruct c end;
    [apply Hmodels |].
  match goal with |- context [if ?c then _ else _] => destruct c end;
    [now apply Error_frame |].
  unfold bind.
  match goal with |- context [DeepSeek.doDeepSeekRequestWithFallback ?c ?o ?b ?d ?st ?a ?s] =>
    pose proof (dispatcher_effects c o d st a s) as He;
    destruct (DeepSeek.doDeepSeekRequestWithFallback c o b d st a s) as [res s'] end.
  cbv zeta in He. cbn [fst snd] in He. destruct He as [_ [_ Hprov]].
  destruct res as [[resp usedModel]|]; [| now apply Error_frame].
  destruct (Hprov resp usedModel eq_refl) as [_ [resp0 [Hin [E1 [E2 _]]]]].
  destruct (400 <=? StatusCode resp)%Z eqn:Hge.
  - destruct (ReadAll resp); [| now apply Error_frame].
    cbn [fst ret]. rewrite andThen_Header by (intros; apply Write_Header).
    rewrite WriteHeader_Header.
    rewrite SetHeader_frame by exact K1.
    apply storeHeaders_other. rewrite E2.
    apply (upstreamSilent_In k (Script s) resp0 Hu Hin). now rewrite <- E1.
  - destruct (DeepSeek.ChatRequest.Stream chatReq).
    + cbn [fst ret]. unfold DeepSeek.handleStreamingResponse. now apply relay_frame.
    + cbn [fst ret]. now apply deepseek_regular_frame.
Qed.

Lemma poe_header_frame {codec : JsonCodec} {platform : Platform}
    (key : string) (w : ResponseWriter) (r : Request Poe.ClaudeRequest.t)
    (s : World Poe.OpenAIRequest.t) (k : string) :
  handlerHeader k = false ->
  upstreamSilent k (Script s) = true ->
  headerGet (Header (written (fst (Poe.proxyHandler key w r s)))) k
  = headerGet (Header (enableCors w)) k.
Proof.
  intros Hk Hu.
  pose proof (handlerHeader_false k Hk) as [K1 _].
  unfold Poe.proxyHandler, Poe.handleModelsRequest. cbv zeta.
  destruct (String.eqb (Method r) "OPTIONS"); [reflexivity |].
  match goal with |- context [if ?c then _ else _] => destruct c end;
    [now apply Error_frame |].
  match goal with |- context [if ?c then _ else _] => destruct c end;
    [now apply Error_frame |].
  match goal with |- context [if ?c then _ else _] => destruct c end.
  { unfold bind, timeNow, ret. cbn [fst written].
    destruct (jsonPrint _); rewrite ?Write_Header; now apply SetHeader_frame. }
  destruct (ReqBody r) as [| |claudeReq];
    [now apply Error_frame | now apply Error_frame |].
  match goal with |- context [if ?c then _ else _] => destruct c end;
    [now apply Error_frame |].
  unfold bind, clientDo.
  destruct (Script s) as [|[|resp] later] eqn:Es;
    [now apply Error_frame | now apply Error_frame |].
  destruct (400 <=? StatusCode resp)%Z eqn:Hge.
  - destruct (ReadAll resp); [| now apply Error_frame].
    cbn [fst ret]. rewrite andThen_Header by (intros; apply Write_Header).
    rewrite WriteHeader_Header.
    apply storeHeaders_other.
    apply (upstreamSilent_In k (DoResponse resp :: later) resp Hu); [now left | exact Hge].
  - destruct (Poe.ClaudeRequest.Stream claudeReq).
    + cbn [fst ret]. unfold Poe.handleStreamingResponse. now apply relay_frame.
    + cbn [fst ret]. now apply poe_regular_frame.
Qed.

Lemma enableCors_get (w : ResponseWriter) (k v : string) :
  In (k, v) corsHeaders -> headerGet (Header (enableCors w)) k = v.
Proof.
  intros H. unfold enableCors, SetHeader. cbn [Header].
  rewrite !headerGet_headerStore.
  simpl in H.
  repeat (destruct H as [H|H]; [inversion H; subst; reflexivity |]).
  contradiction.
Qed.

Lemma cors_not_handlerHeader (k v : string) :
  In (k, v) corsHeaders -> handlerHeader k = false.
Proof.
  intros H. simpl in H.
  repeat (destruct H as [H|H]; [inversion H; subst; reflexivity |]).
  contradiction.
Qed.

(** X14. Every reply of both proxies carries the five CORS headers as
    [enableCors] sets them, whatever the request and however the handler
    ends: preflight, refusal, model list, buffered or streamed reply,
    gateway error. The one exception is an upstream error response that
    carries such a header itself, whose value then replaces the proxy's. *)
Theorem cors_on_every_reply {codec : JsonCodec} {platform : Platform}
    (key : string) (cfg : DeepSeek.Config.t) (w : ResponseWriter)
    (rd : Request DeepSeek.ChatRequest.t) (sd : World DeepSeek.DeepSeekRequest.t)
    (rp : Request Poe.ClaudeRequest.t) (sp : World Poe.OpenAIRequest.t)
    (k v : string) :
  In (k, v) corsHeaders ->
  (upstreamSilent k (Script sd) = true ->
   headerGet (Header (written (fst (DeepSeek.proxyHandler key cfg w rd sd)))) k = v)
  /\ (upstreamSilent k (Script sp) = true ->
      headerGet (Header (written (fst (Poe.proxyHandler key w rp sp)))) k = v).
Proof.
  intros Hin. pose proof (cors_not_handlerHeader k v Hin) as Hk. split; intros Hu.
  - rewrite (deepseek_header_frame key cfg w rd sd k Hk Hu). now apply enableCors_get.
  - rewrite (poe_header_frame key w rp sp k Hk Hu). now apply enableCors_get.
Qed.

Lemma cors_on_every_reply_witness :
  headerGet
    (Header
       (written
          (fst (DeepSeek.proxyHandler (codec := TextCodec.codec)
                  (platform := TextCodec.platform) "" chatConfig newWriter
                  (samplePost "Bearer k" (sampleChatRequest "gpt-4" true))
                  (worldOf [DoResponse rateLimited])))))
    "Access-Control-Allow-Origin" = "*"
  /\ headerGet
       (Header
          (written
             (fst (Poe.proxyHandler (codec := TextCodec.codec)
                     (platform := TextCodec.platform) "" newWriter
                     (samplePost "k" (claudeRequest "" [] None false))
                     (worldOf [])))))
       "Access-Control-Allow-Origin" = "*".
Proof.
  destruct (cors_on_every_reply (codec := TextCodec.codec)
              (platform := TextCodec.platform) "" chatConfig newWriter
              (samplePost "Bearer k" (sampleChatRequest "gpt-4" true))
              (worldOf [DoResponse rateLimited])
              (samplePost "k" (claudeRequest "" [] None false)) (worldOf [])
              "Access-Control-Allow-Origin" "*") as [Hd Hp].
  - simpl. now left.
  - split; [apply Hd | apply Hp]; reflexivity.
Defined.

(** The exception at work: an upstream error with its own
    Access-Control-Allow-Origin. *)
Example cors_replaced_by_upstream :
  let resp := {| StatusCode := 403;
                 RespHeader := [("Access-Control-Allow-Origin", ["https://poe.com"])];
                 Body := "forbidden"; BodyBreaks := false |} in
  headerGet
    (Header
       (written
          (fst (Poe.proxyHandler (codec := TextCodec.codec)
                  (platform := TextCodec.platform) "" newWriter
                  (samplePost "Bearer k" (claudeRequest "" [claudeUserMessage "hi"] None false))
                  (worldOf [DoResponse resp])))))
    "Access-Control-Allow-Origin" = "https://poe.com".
Proof. vm_compute. reflexivity. Qed.

(** ** The message conversion of the DeepSeek proxy *)

Lemma convertMessage_content (msg : DeepSeek.Message.t) :
  DeepSeek.Message.Content (DeepSeek.convertMessage msg)
  = Some (JStr (DeepSeek.Message.GetContentString msg)).
Proof.
  unfold DeepSeek.convertMessage. cbv zeta.
  destruct (String.eqb (DeepSeek.Message.Role msg) "function");
    destruct (String.eqb (DeepSeek.Message.Role msg) "assistant"
              && (0 <? List.length (DeepSeek.Message.ToolCalls msg))%nat);
    reflexivity.
Qed.

Definition asFunctionCall (tc : DeepSeek.ToolCall.t) : DeepSeek.ToolCall.t :=
  {| DeepSeek.ToolCall.ID := DeepSeek.ToolCall.ID tc;
     DeepSeek.ToolCall.Type_ := "function";
     DeepSeek.ToolCall.Function := DeepSeek.ToolCall.Function tc |}.

(** X15. What the DeepSeek proxy sends for the messages of a request: one
    message for each, in order; each with a content that is a JSON
    string, also when the inbound message had none; never the role
    "function", which becomes "tool"; the tool calls of an assistant
    message with their identifiers and functions and the type
    "function"; the tool_call_id and the name as they were. *)
Theorem convertMessages_normal_form (messages : list DeepSeek.Message.t) :
  Forall2
    (fun msg out =>
       DeepSeek.Message.Content out = Some (JStr (DeepSeek.Message.GetContentString msg))
       /\ DeepSeek.Message.Role out
          = (if String.eqb (DeepSeek.Message.Role msg) "function" then "tool"
             else DeepSeek.Message.Role msg)
       /\ DeepSeek.Message.Role out <> "function"
       /\ DeepSeek.Message.ToolCalls out
          = (if String.eqb (DeepSeek.Message.Role msg) "assistant"
             then map asFunctionCall (DeepSeek.Message.ToolCalls msg)
             else DeepSeek.Message.ToolCalls msg)
       /\ DeepSeek.Message.ToolCallID out = DeepSeek.Message.ToolCallID msg
       /\ DeepSeek.Message.Name out = DeepSeek.Message.Name msg)
    messages (DeepSeek.convertMessages messages).
Proof.
  unfold DeepSeek.convertMessages.
  induction messages as [|msg messages IH]; [constructor |].
  cbn [map]. constructor; [| exact IH].
  split; [apply convertMessage_content |].
  unfold DeepSeek.convertMessage. cbv zeta.
  destruct (String.eqb_spec (DeepSeek.Message.Role msg) "function") as [Ef|Ef].
  - rewrite Ef. change (String.eqb "function" "assistant") with false.
    cbn [andb]. repeat split; try reflexivity. discriminate.
  - destruct (String.eqb (DeepSeek.Message.Role msg) "assistant").
    + destruct (DeepSeek.Message.ToolCalls msg) as [|tc tcs] eqn:Et.
      * cbn. now repeat split.
      * cbn. now repeat split.
    + cbn. now repeat split.
Qed.

Lemma decString_JStr (s cur : string) : decString (JStr s) cur = Some s.
Proof. reflexivity. Qed.

Lemma convertMessage_idempotent (msg : DeepSeek.Message.t) :
  DeepSeek.convertMessage (DeepSeek.convertMessage msg) = DeepSeek.convertMessage msg.
Proof.
  unfold DeepSeek.convertMessage. cbv zeta.
  destruct (String.eqb_spec (DeepSeek.Message.Role msg) "function") as [Ef|Ef].
  - rewrite Ef. reflexivity.
  - destruct (String.eqb (DeepSeek.Message.Role msg) "assistant") eqn:Ea.
    + destruct (DeepSeek.Message.ToolCalls msg) as [|tc tcs] eqn:Et.
      * cbn. rewrite Ea, Et. apply String.eqb_neq in Ef. rewrite Ef. reflexivity.
      * cbn. rewrite Ea. apply String.eqb_neq in Ef. rewrite Ef. cbn.
        rewrite map_map. reflexivity.
    + cbn. rewrite Ea. apply String.eqb_neq in Ef. rewrite Ef. reflexivity.
Qed.

(** X16. Converting the messages twice gives what converting them once
    gives: a request that went through the proxy can go through it again
    unchanged. *)
Theorem convertMessages_idempotent (messages : list DeepSeek.Message.t) :
  DeepSeek.convertMessages (DeepSeek.convertMessages messages)
  = DeepSeek.convertMessages messages.
Proof.
  unfold DeepSeek.convertMessages. rewrite map_map.
  apply map_ext. intros msg. apply convertMessage_idempotent.
Qed.

(** A content part as the OpenAI format writes it. *)
Definition contentPart (p : string * string) : value :=
  JObj [("type", JStr (fst p)); ("text", JStr (snd p))].

Lemma decItems_contentParts (parts : list (string * string)) :
  decItems (decStruct DeepSeek.ContentPart.field) DeepSeek.ContentPart.zero
           (map contentPart parts)
  = Some (map (fun p => {| DeepSeek.ContentPart.Type_ := fst p;
                           DeepSeek.ContentPart.Text := snd p |}) parts).
Proof.
  induction parts as [|p parts IH]; [reflexivity |].
  cbn [map decItems]. rewrite IH. reflexivity.
Qed.

(** X17. A content given as an array of parts is flattened to one string:
    the texts of the parts of type "text" that are not empty, in order,
    joined by newlines. Parts of other types are dropped, so an array
    without text gives the empty string. *)
Theorem content_parts_flattened (msg : DeepSeek.Message.t)
    (parts : list (string * string)) :
  DeepSeek.Message.Content msg = Some (JArr (map contentPart parts)) ->
  DeepSeek.Message.Content (DeepSeek.convertMessage msg)
  = Some (JStr (Join (map snd
                        (filter (fun p => String.eqb (fst p) "text"
                                          && negb (String.eqb (snd p) ""))
                                parts))
                     LF)).
Proof.
  intros H. rewrite convertMessage_content.
  unfold DeepSeek.Message.GetContentString. rewrite H.
  cbn [decString decSlice]. rewrite decItems_contentParts.
  do 3 f_equal. clear H.
  induction parts as [|p parts IH]; [reflexivity |].
  cbn [map filter DeepSeek.ContentPart.Type_ DeepSeek.ContentPart.Text].
  destruct (String.eqb (fst p) "text" && negb (String.eqb (snd p) ""));
    cbn [map]; now rewrite IH.
Qed.

Lemma content_parts_flattened_witness :
  DeepSeek.Message.Content
    (DeepSeek.convertMessage
       {| DeepSeek.Message.Role := "user";
          DeepSeek.Message.Content :=
            Some (JArr (map contentPart
                          [("text", "look"); ("image_url", ""); ("text", "");
                           ("text", "here")]));
          DeepSeek.Message.ToolCalls := []; DeepSeek.Message.ToolCallID := "";
          DeepSeek.Message.Name := "" |})
  = Some (JStr ("look" ++ LF ++ "here")).
Proof.
  apply (content_parts_flattened
           {| DeepSeek.Message.Role := "user";
              DeepSeek.Message.Content :=
                Some (JArr (map contentPart
                              [("text", "look"); ("image_url", ""); ("text", "");
                               ("text", "here")]));
              DeepSeek.Message.ToolCalls := []; DeepSeek.Message.ToolCallID := "";
              DeepSeek.Message.Name := "" |}
           [("text", "look"); ("image_url", ""); ("text", ""); ("text", "here")]).
  reflexivity.
Defined.

(** ** The headers of the upstream request *)

(** [h[k]]: the values stored under a key, none for a missing key. *)
Fixpoint headerValues (h : header) (k : string) : list string :=
  match h with
  | [] => []
  | (k', vs) :: h' => if String.eqb k k' then vs else headerValues h' k
  end.

Lemma headerGet_values (h : header) (k : string) :
  headerGet h k = hd "" (headerValues h k).
Proof.
  induction h as [|[k' vs] h IH]; [reflexivity |].
  simpl. now destruct (String.eqb k k').
Qed.

Lemma headerValues_headerStore (h : header) (k k0 : string) (vs : list string) :
  headerValues (headerStore h k vs) k0
  = if String.eqb k0 k then vs else headerValues h k0.
Proof.
  induction h as [|[k' vs'] h IH]; simpl.
  - reflexivity.
  - destruct (String.eqb_spec k k') as [->|Hk]; simpl.
    + now destruct (String.eqb k0 k').
    + destruct (String.eqb_spec k0 k') as [->|Hk0].
      * destruct (String.eqb_spec k' k); [congruence | reflexivity].
      * exact IH.
Qed.

Lemma headerValues_headerAdd (h : header) (k v k0 : string) :
  headerValues (headerAdd h k v) k0
  = if String.eqb k0 k then (headerValues h k ++ [v])%list else headerValues h k0.
Proof.
  induction h as [|[k' vs'] h IH]; simpl.
  - reflexivity.
  - destruct (String.eqb_spec k k') as [->|Hk]; simpl.
    + now destruct (String.eqb k0 k').
    + destruct (String.eqb_spec k0 k') as [->|Hk0].
      * destruct (String.eqb_spec k' k); [congruence | reflexivity].
      * exact IH.
Qed.

Lemma headerValues_addAll (vs : list string) (h : header) (k k0 : string) :
  headerValues (fold_left (fun d v => headerAdd d k v) vs h) k0
  = if String.eqb k0 k then (headerValues h k ++ vs)%list else headerValues h k0.
Proof.
  revert h. induction vs as [|v vs IH]; intros h; cbn [fold_left].
  - destruct (String.eqb_spec k0 k) as [->|_]; [now rewrite app_nil_r | reflexivity].
  - rewrite IH, !headerValues_headerAdd. rewrite String.eqb_refl.
    destruct (String.eqb k0 k); [now rewrite <- app_assoc | reflexivity].
Qed.

(** All the values a header list holds for a key, binding after
    binding. *)
Definition allValues (h : header) (k : string) : list string :=
  flat_map (fun kv => if String.eqb k (fst kv) then snd kv else []) h.

Lemma allValues_unique (h : header) (k : string) :
  NoDup (map fst h) -> allValues h k = headerValues h k.
Proof.
  induction h as [|[k' vs] h IH]; intros Hnd; [reflexivity |].
  inversion Hnd as [|? ? Hnotin Hnd']; subst.
  unfold allValues. cbn [flat_map fst snd headerValues].
  destruct (String.eqb_spec k k') as [->|Hk].
  - assert (E : flat_map (fun kv => if String.eqb k' (fst kv) then snd kv else []) h = []).
    { clear -Hnotin. induction h as [|[k2 v2] h IH]; [reflexivity |].
      cbn [flat_map fst snd]. cbn [map fst] in Hnotin.
      destruct (String.eqb_spec k' k2) as [->|_].
      - exfalso. apply Hnotin. now left.
      - apply IH. intros Hin. apply Hnotin. now right. }
    rewrite E. apply app_nil_r.
  - apply IH. exact Hnd'.
Qed.

Lemma headerValues_copyHeaders (src dst : header) (k : string) :
  headerValues (DeepSeek.copyHeaders dst src) k
  = (headerValues dst k
     ++ (if DeepSeek.skipHeaders k then [] else allValues src k))%list.
Proof.
  unfold DeepSeek.copyHeaders. revert dst.
  induction src as [|[k1 vs1] src IH]; intros dst; cbn [fold_left].
  - unfold allValues. cbn [flat_map]. destruct (DeepSeek.skipHeaders k); now rewrite app_nil_r.
  - rewrite IH. cbn [fst snd]. unfold allValues. cbn [flat_map fst snd].
    fold (allValues src k).
    destruct (DeepSeek.skipHeaders k1) eqn:S1.
    + destruct (String.eqb_spec k k1) as [->|Hk]; [| reflexivity].
      now rewrite S1.
    + rewrite headerValues_addAll.
      destruct (String.eqb_spec k k1) as [->|Hk].
      * rewrite S1. now rewrite <- app_assoc.
      * reflexivity.
Qed.

(** X18. The headers of a request the DeepSeek proxy sends upstream.
    Authorization is the bearer key the proxy chose and Content-Type is
    application/json, whatever the caller sent; Accept is
    text/event-stream for a streamed request; Accept-Language is cut to
    its first value; Content-Length, Content-Encoding, Transfer-Encoding
    and Connection are never forwarded; every other header of the caller
    is forwarded with all its values. *)
Theorem upstream_request_headers {platform : Platform} (cfg : DeepSeek.Config.t)
    {R : Type} (r : Request R) (body : DeepSeek.DeepSeekRequest.t) (stream : bool)
    (apiKey : string) (q : ProxyRequest DeepSeek.DeepSeekRequest.t) (k : string) :
  NoDup (map fst (ReqHeader r)) ->
  DeepSeek.buildDeepSeekHTTPRequest cfg r body stream apiKey = Some q ->
  headerValues (PHeader q) k
  = if String.eqb k "Authorization" then ["Bearer " ++ apiKey]
    else if String.eqb k "Content-Type" then ["application/json"]
    else if String.eqb k "Accept" && stream then ["text/event-stream"]
    else if String.eqb k "Accept-Language"
            && negb (String.eqb (headerGet (ReqHeader r) "Accept-Language") "")
         then [headerGet (ReqHeader r) "Accept-Language"]
    else if DeepSeek.skipHeaders k then []
    else headerValues (ReqHeader r) k.
Proof.
  intros Hnd Hb. unfold DeepSeek.buildDeepSeekHTTPRequest in Hb. cbv zeta in Hb.
  destruct (newRequestOK _ _); [| discriminate].
  inversion Hb as [Hq]. clear Hb Hq. cbn [PHeader].
  assert (Hcopy : headerValues (DeepSeek.copyHeaders [] (ReqHeader r)) k
                  = if DeepSeek.skipHeaders k then [] else headerValues (ReqHeader r) k).
  { rewrite headerValues_copyHeaders. cbn [headerValues app].
    destruct (DeepSeek.skipHeaders k); [reflexivity | now apply allValues_unique]. }
  destruct (negb (String.eqb (headerGet (ReqHeader r) "Accept-Language") "")) eqn:El;
    destruct stream; rewrite !headerValues_headerStore, Hcopy.
  all: destruct (String.eqb_spec k "Authorization") as [->|_]; [reflexivity |].
  all: destruct (String.eqb_spec k "Content-Type") as [->|_]; [reflexivity |].
  all: destruct (String.eqb_spec k "Accept") as [->|_]; [reflexivity |].
  all: destruct (String.eqb_spec k "Accept-Language") as [->|_]; reflexivity.
Qed.

Definition postWithCookies : Request DeepSeek.ChatRequest.t :=
  {| Method := "POST"; URLPath := "/v1/chat/completions"; RawQuery := "";
     ReqHeader := [("Authorization", ["Bearer caller"]);
                   ("Content-Length", ["12"]);
                   ("Cookie", ["a=1"; "b=2"])];
     ReqBody := Decoded (sampleChatRequest "gpt-4" false) |}.

Lemma upstream_request_headers_witness :
  match DeepSeek.buildDeepSeekHTTPRequest (platform := TextCodec.platform) chatConfig
          postWithCookies sampleDsReq false "server" with
  | Some q =>
      headerValues (PHeader q) "Authorization" = ["Bearer server"]
      /\ headerValues (PHeader q) "Content-Length" = []
      /\ headerValues (PHeader q) "Cookie" = ["a=1"; "b=2"]
  | None => False
  end.
Proof.
  destruct (DeepSeek.buildDeepSeekHTTPRequest (platform := TextCodec.platform) chatConfig
              postWithCookies sampleDsReq false "server") as [q|] eqn:E.
  - assert (Hnd : NoDup (map fst (ReqHeader postWithCookies))).
    { repeat constructor; simpl; intros H;
        repeat (destruct H as [H|H]; [discriminate H |]); exact H. }
    split; [| split].
    + apply (upstream_request_headers (platform := TextCodec.platform) chatConfig
               postWithCookies sampleDsReq false "server" q "Authorization" Hnd E).
    + apply (upstream_request_headers (platform := TextCodec.platform) chatConfig
               postWithCookies sampleDsReq false "server" q "Content-Length" Hnd E).
    + apply (upstream_request_headers (platform := TextCodec.platform) chatConfig
               postWithCookies sampleDsReq false "server" q "Cookie" Hnd E).
  - vm_compute in E. discriminate E.
Defined.

(** ** Start-up *)

Lemma modelFlagOf_none (args : list string) (modelFlag : string) :
  ~ In "-model" args -> DeepSeek.modelFlagOf args modelFlag = modelFlag.
Proof.
  revert modelFlag. induction args as [|arg rest IH]; intros modelFlag H; [reflexivity |].
  cbn [DeepSeek.modelFlagOf].
  assert (Ha : String.eqb arg "-model" = false).
  { apply String.eqb_neq. intros E. apply H. left. now symmetry. }
  rewrite Ha.
  assert (Hr : ~ In "-model" rest) by (intros Hin; apply H; now right).
  destruct rest as [|next rest']; [reflexivity | now apply IH].
Qed.

Lemma modelFlagOf_last (pre post : list string) (v modelFlag : string) :
  v <> "-model" -> ~ In "-model" post ->
  DeepSeek.modelFlagOf (pre ++ "-model" :: v :: post) modelFlag = v.
Proof.
  intros Hv Hp. revert modelFlag.
  induction pre as [|arg pre IH]; intros modelFlag.
  - cbn [app DeepSeek.modelFlagOf]. change (String.eqb "-model" "-model") with true.
    cbv iota. apply String.eqb_neq in Hv. rewrite Hv.
    assert (E : match post with _ :: _ => v | [] => v end = v) by now destruct post.
    rewrite E. now apply modelFlagOf_none.
  - cbn [app DeepSeek.modelFlagOf].
    destruct (pre ++ "-model" :: v :: post)%list eqn:E; [now destruct pre |].
    apply IH.
Qed.

Definition coderConfig : DeepSeek.Config.t :=
  {| DeepSeek.Config.endpoint := DeepSeek.deepseekBetaEndpoint;
     DeepSeek.Config.model := DeepSeek.deepseekCoderModel |}.

(** X19. The configuration [init] leaves. Without a [-model] argument it
    is the chat configuration. With [-model v] as the last such argument
    it is the coder configuration, with the beta endpoint, when [v] is
    coder, and the chat configuration for every other value, an unknown
    one included; an earlier [-model] does not count. The key is the
    variable DEEPSEEK_API_KEY of the environment. *)
Theorem init_model_flag (getenv : string -> string) (args : list string) :
  fst (DeepSeek.init getenv args) = getenv "DEEPSEEK_API_KEY"
  /\ (~ In "-model" args -> snd (DeepSeek.init getenv args) = chatConfig)
  /\ (forall pre v post,
        args = (pre ++ "-model" :: v :: post)%list ->
        v <> "-model" -> ~ In "-model" post ->
        snd (DeepSeek.init getenv args)
        = if String.eqb v "coder" then coderConfig else chatConfig).
Proof.
  split; [reflexivity |]. split.
  - intros H. unfold DeepSeek.init. cbv zeta. cbn [snd].
    now rewrite (modelFlagOf_none args "chat" H).
  - intros pre v post -> Hv Hp. unfold DeepSeek.init. cbv zeta. cbn [snd].
    rewrite (modelFlagOf_last pre post v "chat" Hv Hp).
    destruct (String.eqb v "coder"); [reflexivity |].
    now destruct (String.eqb v "chat").
Qed.

Lemma init_model_flag_witness :
  snd (DeepSeek.init (fun _ => "") ["proxy"; "-model"; "chat"; "-model"; "coder"; "-v"])
  = coderConfig
  /\ snd (DeepSeek.init (fun _ => "") ["proxy"; "-v"]) = chatConfig.
Proof.
  split.
  - destruct (init_model_flag (fun _ => "")
                ["proxy"; "-model"; "chat"; "-model"; "coder"; "-v"]) as [_ [_ H]].
    apply (H ["proxy"; "-model"; "chat"] "coder" ["-v"]).
    + reflexivity.
    + discriminate.
    + simpl. intros [H0|[]]. discriminate H0.
  - destruct (init_model_flag (fun _ => "") ["proxy"; "-v"]) as [_ [H _]].
    apply H. simpl. intros [H0|[H0|[]]]; discriminate H0.
Defined.

(** ** Buffered replies are rebuilt from the fields of the structs *)

Definition knownMember (names : list string) (kv : string * value) : bool :=
  existsb (String.eqb (foldName (fst kv))) names.

Definition messageFields : list string :=
  ["ROLE"; "CONTENT"; "TOOL_CALLS"; "TOOL_CALL_ID"; "NAME"].
Definition usageFields : list string :=
  ["PROMPT_TOKENS"; "COMPLETION_TOKENS"; "TOTAL_TOKENS"].
Definition choiceFields : list string := ["INDEX"; "MESSAGE"; "FINISH_REASON"].
Definition completionFields : list string :=
  ["ID"; "OBJECT"; "CREATED"; "MODEL"; "CHOICES"; "USAGE"].

(** A completion without the members that the response structs have no
    field for: at the top, in [usage], in every choice and in the message
    of every choice. *)
Definition pruneObject (names : list string) (inner : string -> value -> value)
    (v : value) : value :=
  match v with
  | JObj members =>
      JObj (map (fun kv => (fst kv, inner (foldName (fst kv)) (snd kv)))
                (filter (knownMember names) members))
  | _ => v
  end.

Definition pruneMessage : value -> value := pruneObject messageFields (fun _ v => v).
Definition pruneUsage : value -> value := pruneObject usageFields (fun _ v => v).
Definition pruneChoice : value -> value :=
  pruneObject choiceFields
    (fun name v => if String.eqb name "MESSAGE" then pruneMessage v else v).
Definition pruneCompletion : value -> value :=
  pruneObject completionFields
    (fun name v =>
       if String.eqb name "CHOICES" then
         match v with JArr items => JArr (map pruneChoice items) | _ => v end
       else if String.eqb name "USAGE" then pruneUsage v
       else v).

Lemma decStruct_prune {S : Type} (field : string -> value -> S -> option S)
    (names : list string) (inner : string -> value -> value) :
  (forall name v s, existsb (String.eqb name) names = false -> field name v s = Some s) ->
  (forall name v s, field name (inner name v) s = field name v s) ->
  forall v s, decStruct field (pruneObject names inner v) s = decStruct field v s.
Proof.
  intros Hskip Hinner v s. destruct v as [| | | | |members]; try reflexivity.
  unfold pruneObject. cbn [decStruct]. revert s.
  induction members as [|[k x] members IH]; intros s; [reflexivity |].
  cbn [filter]. unfold knownMember at 1. cbn [fst].
  destruct (existsb (String.eqb (foldName k)) names) eqn:E.
  - cbn [map decMembers fst snd]. rewrite Hinner.
    destruct (field (foldName k) x s); [apply IH | reflexivity].
  - cbn [decMembers]. rewrite (Hskip _ x s E). apply IH.
Qed.

Lemma decItems_ext {T : Type} (dec : decoder T) (zero : T) (f : value -> value)
    (items : list value) :
  (forall v s, dec (f v) s = dec v s) ->
  decItems dec zero (map f items) = decItems dec zero items.
Proof.
  intros H. induction items as [|x items IH]; [reflexivity |].
  cbn [map decItems]. now rewrite H, IH.
Qed.

Ltac unknown_field :=
  let name := fresh "name" in
  let v := fresh "v" in
  let s := fresh "s" in
  let H := fresh "H" in
  intros name v s H; cbn [existsb] in H;
  repeat (apply orb_false_iff in H; let H1 := fresh "H" in destruct H as [H1 H];
          rewrite H1);
  reflexivity.

Lemma deepseek_message_prune (v : value) (s : DeepSeek.Message.t) :
  decStruct DeepSeek.Message.field (pruneMessage v) s
  = decStruct DeepSeek.Message.field v s.
Proof.
  apply decStruct_prune; [| reflexivity].
  unfold messageFields, DeepSeek.Message.field. unknown_field.
Qed.

Lemma deepseek_usage_prune (v : value) (s : DeepSeek.Usage.t) :
  decStruct DeepSeek.Usage.field (pruneUsage v) s = decStruct DeepSeek.Usage.field v s.
Proof.
  apply decStruct_prune; [| reflexivity].
  unfold usageFields, DeepSeek.Usage.field. unknown_field.
Qed.

Lemma deepseek_choice_prune (v : value) (s : DeepSeek.Choice.t) :
  decStruct DeepSeek.Choice.field (pruneChoice v) s = decStruct DeepSeek.Choice.field v s.
Proof.
  apply decStruct_prune.
  - unfold choiceFields, DeepSeek.Choice.field. unknown_field.
  - intros name x s0. unfold DeepSeek.Choice.field.
    destruct (String.eqb name "INDEX") eqn:E1.
    + apply String.eqb_eq in E1. subst name. reflexivity.
    + destruct (String.eqb name "MESSAGE"); [| reflexivity].
      now rewrite deepseek_message_prune.
Qed.

Lemma deepseek_completion_prune (v : value) (s : DeepSeek.Completion.t) :
  decStruct DeepSeek.Completion.field (pruneCompletion v) s
  = decStruct DeepSeek.Completion.field v s.
Proof.
  apply decStruct_prune.
  - unfold completionFields, DeepSeek.Completion.field. unknown_field.
  - intros name x s0. unfold DeepSeek.Completion.field.
    destruct (String.eqb_spec name "ID") as [->|_]; [reflexivity |].
    destruct (String.eqb_spec name "OBJECT") as [->|_]; [reflexivity |].
    destruct (String.eqb_spec name "CREATED") as [->|_]; [reflexivity |].
    destruct (String.eqb_spec name "MODEL") as [->|_]; [reflexivity |].
    destruct (String.eqb_spec name "CHOICES") as [->|_].
    + destruct x as [| | | |items|]; try reflexivity.
      cbn [decSlice]. now rewrite (decItems_ext _ _ pruneChoice items deepseek_choice_prune).
    + destruct (String.eqb name "USAGE"); [| reflexivity].
      now rewrite deepseek_usage_prune.
Qed.

Lemma poe_message_prune (v : value) (s : Poe.OpenAIMessage.t) :
  decStruct Poe.OpenAIMessage.field (pruneMessage v) s
  = decStruct Poe.OpenAIMessage.field v s.
Proof.
  apply decStruct_prune; [| reflexivity].
  unfold messageFields, Poe.OpenAIMessage.field. unknown_field.
Qed.

Lemma poe_usage_prune (v : value) (s : Poe.OpenAIUsage.t) :
  decStruct Poe.OpenAIUsage.field (pruneUsage v) s = decStruct Poe.OpenAIUsage.field v s.
Proof.
  apply decStruct_prune; [| reflexivity].
  unfold usageFields, Poe.OpenAIUsage.field. unknown_field.
Qed.

Lemma poe_choice_prune (v : value) (s : Poe.OpenAIChoice.t) :
  decStruct Poe.OpenAIChoice.field (pruneChoice v) s
  = decStruct Poe.OpenAIChoice.field v s.
Proof.
  apply decStruct_prune.
  - unfold choiceFields, Poe.OpenAIChoice.field. unknown_field.
  - intros name x s0. unfold Poe.OpenAIChoice.field.
    destruct (String.eqb name "INDEX") eqn:E1.
    + apply String.eqb_eq in E1. subst name. reflexivity.
    + destruct (String.eqb name "MESSAGE"); [| reflexivity].
      now rewrite poe_message_prune.
Qed.

Lemma poe_completion_prune (v : value) (s : Poe.OpenAIResponse.t) :
  decStruct Poe.OpenAIResponse.field (pruneCompletion v) s
  = decStruct Poe.OpenAIResponse.field v s.
Proof.
  apply decStruct_prune.
  - unfold completionFields, Poe.OpenAIResponse.field. unknown_field.
  - intros name x s0. unfold Poe.OpenAIResponse.field.
    destruct (String.eqb_spec name "ID") as [->|_]; [reflexivity |].
    destruct (String.eqb_spec name "OBJECT") as [->|_]; [reflexivity |].
    destruct (String.eqb_spec name "CREATED") as [->|_]; [reflexivity |].
    destruct (String.eqb_spec name "MODEL") as [->|_]; [reflexivity |].
    destruct (String.eqb_spec name "CHOICES") as [->|_].
    + destruct x as [| | | |items|]; try reflexivity.
      unfold Poe.OpenAIResponse.decChoices.
      now rewrite (decItems_ext _ _ pruneChoice items poe_choice_prune).
    + destruct (String.eqb name "USAGE"); [| reflexivity].
      now rewrite poe_usage_prune.
Qed.

(** X20. A buffered reply is rebuilt from the fields of the response
    structs: a member of the upstream completion, of its usage, of a
    choice or of the message of a choice that no field is tagged for
    (reasoning_content, logprobs, system_fingerprint and the like) makes
    no difference to what the caller receives. Both proxies. *)
Theorem buffered_reply_known_fields_only {codec : JsonCodec} {platform : Platform}
    (w : ResponseWriter) (resp1 resp2 : Response) (originalModel : string)
    (body1 body2 : string) (tree : value) :
  StatusCode resp1 = StatusCode resp2 ->
  readResponse resp1 = Some body1 ->
  readResponse resp2 = Some body2 ->
  jsonParse body1 = Some tree ->
  jsonParse body2 = Some (pruneCompletion tree) ->
  DeepSeek.handleRegularResponse w resp1 originalModel
  = DeepSeek.handleRegularResponse w resp2 originalModel
  /\ Poe.handleRegularResponse w resp1 originalModel
     = Poe.handleRegularResponse w resp2 originalModel.
Proof.
  intros Hs H1 H2 P1 P2. split.
  - unfold DeepSeek.handleRegularResponse.
    rewrite H1, H2, P1, P2, deepseek_completion_prune, Hs. reflexivity.
  - unfold Poe.handleRegularResponse.
    rewrite H1, H2, P1, P2, poe_completion_prune, Hs. reflexivity.
Qed.

Definition replyWithReasoning : string :=
  dq ("{'id':'r1','object':'chat.completion','created':1,'model':'deepseek-reasoner',"
      ++ "'system_fingerprint':'fp_1',"
      ++ "'choices':[{'index':0,'message':{'role':'assistant','content':'4',"
      ++ "'reasoning_content':'2+2'},'logprobs':null,'finish_reason':'stop'}],"
      ++ "'usage':{'prompt_tokens':1,'completion_tokens':2,'total_tokens':3,"
      ++ "'prompt_cache_hit_tokens':0}}").

Definition replyWithoutReasoning : string :=
  dq ("{'id':'r1','object':'chat.completion','created':1,'model':'deepseek-reasoner',"
      ++ "'choices':[{'index':0,'message':{'role':'assistant','content':'4'},"
      ++ "'finish_reason':'stop'}],"
      ++ "'usage':{'prompt_tokens':1,'completion_tokens':2,'total_tokens':3}}").

Lemma buffered_reply_known_fields_only_witness :
  DeepSeek.handleRegularResponse (codec := TextCodec.codec)
    (platform := TextCodec.platform) newWriter (reply 200 replyWithReasoning) "m"
  = DeepSeek.handleRegularResponse (codec := TextCodec.codec)
      (platform := TextCodec.platform) newWriter (reply 200 replyWithoutReasoning) "m"
  /\ Poe.handleRegularResponse (codec := TextCodec.codec)
       (platform := TextCodec.platform) newWriter (reply 200 replyWithReasoning) "m"
     = Poe.handleRegularResponse (codec := TextCodec.codec)
         (platform := TextCodec.platform) newWriter (reply 200 replyWithoutReasoning) "m".
Proof.
  apply (buffered_reply_known_fields_only (codec := TextCodec.codec)
           (platform := TextCodec.platform) newWriter
           (reply 200 replyWithReasoning) (reply 200 replyWithoutReasoning) "m"
           replyWithReasoning replyWithoutReasoning
           (match TextCodec.parse replyWithReasoning with Some t => t | None => JNull end)).
  - reflexivity.
  - reflexivity.
  - reflexivity.
  - vm_compute. reflexivity.
  - vm_compute. reflexivity.
Defined.

(** The streamed reply keeps such members: the relay rewrites the event
    as a map. *)
Example streamed_reply_keeps_unknown_fields :
  Out (written
         (Relay.relayLoop (codec := TextCodec.codec) "m"
            ("data: " ++ dq "{'choices':[{'delta':{'reasoning_content':'2+2'}}],'model':'x'}"
             ++ LF)
            newWriter))
  = "data: " ++ dq "{'choices':[{'delta':{'reasoning_content':'2+2'}}],'model':'m'}"
    ++ LF ++ LF.
Proof. vm_compute. reflexivity. Qed.

(** ** The Claude translator on whole conversations *)

Definition plainMessage (msg : Poe.ClaudeMessage.t) : Poe.OpenAIMessage.t :=
  {| Poe.OpenAIMessage.Role := Poe.ClaudeMessage.Role msg;
     Poe.OpenAIMessage.Content := Poe.ClaudeMessage.Content msg;
     Poe.OpenAIMessage.ToolCalls := [];
     Poe.OpenAIMessage.ToolCallID := Poe.ClaudeMessage.ToolCallID msg;
     Poe.OpenAIMessage.Name := Poe.ClaudeMessage.Name msg |}.

(** A message whose content is a text that is not empty, without tool
    calls. *)
Definition plainText (msg : Poe.ClaudeMessage.t) : Prop :=
  exists s, Poe.ClaudeMessage.Content msg = Some (JStr s) /\ s <> ""
            /\ Poe.ClaudeMessage.ToolCalls msg = [].

Lemma convertMessage_plain {codec : JsonCodec} (msg : Poe.ClaudeMessage.t) :
  plainText msg -> Poe.convertMessage [] msg = [plainMessage msg].
Proof.
  intros [s [Hc [Hs Ht]]]. rewrite convertMessage_cases.
  assert (Hn : toolResultParts msg = None).
  { unfold toolResultParts. rewrite Hc.
    now destruct (String.eqb (Poe.ClaudeMessage.Role msg) "user"). }
  rewrite Hn. unfold Poe.addMessage, Poe.regularMessage, Poe.hasContent, Poe.hasToolCalls.
  rewrite Hc, Ht. cbn. apply String.eqb_neq in Hs. rewrite Hs. cbn.
  rewrite andb_false_r. unfold plainMessage. now rewrite Hc.
Qed.

(** X21. A conversation of plain text messages goes through the Claude
    translator as it is: after the system message, one outbound message
    for each inbound message, in order, with the same role, content,
    tool_call_id and name. *)
Theorem claude_plain_messages_pass {codec : JsonCodec} (claudeReq : Poe.ClaudeRequest.t) :
  Forall plainText (Poe.ClaudeRequest.Messages claudeReq) ->
  Poe.OpenAIRequest.Messages (Poe.convertClaudeToOpenAI claudeReq)
  = (Poe.systemMessages (Poe.ClaudeRequest.System claudeReq)
     ++ map plainMessage (Poe.ClaudeRequest.Messages claudeReq))%list.
Proof.
  intros H. unfold Poe.convertClaudeToOpenAI. cbn [Poe.OpenAIRequest.Messages].
  rewrite convertMessages_concat. f_equal.
  induction H as [|msg msgs Hm _ IH]; [reflexivity |].
  cbn [flat_map map]. now rewrite (convertMessage_plain msg Hm), IH.
Qed.

Lemma claude_plain_messages_pass_witness :
  Poe.OpenAIRequest.Messages
    (Poe.convertClaudeToOpenAI (codec := TextCodec.codec)
       (claudeRequest "" [claudeUserMessage "hi"; claudeUserMessage "there"] None false))
  = map plainMessage [claudeUserMessage "hi"; claudeUserMessage "there"].
Proof.
  apply (claude_plain_messages_pass (codec := TextCodec.codec)
           (claudeRequest "" [claudeUserMessage "hi"; claudeUserMessage "there"]
                          None false)).
  repeat constructor.
  - exists "hi". repeat split. discriminate.
  - exists "there". repeat split. discriminate.
Defined.

(** The parts of a content array in the Claude format: a text, or the
    use of a tool with its input object. *)
Inductive claudePart : Type :=
| TextPart (text : string)
| ToolUse (id name : string) (input : list (string * value)).

Definition partValue (p : claudePart) : value :=
  match p with
  | TextPart text => JObj [("type", JStr "text"); ("text", JStr text)]
  | ToolUse id name input =>
      JObj [("type", JStr "tool_use"); ("id", JStr id); ("name", JStr name);
            ("input", JObj input)]
  end.

(** Every number of the input of a [tool_use] part is within float64. *)
Definition inputFits (p : claudePart) : bool :=
  match p with
  | TextPart _ => true
  | ToolUse _ _ input =>
      match reencoded (JObj input) with Some _ => true | None => false end
  end.

Definition partTexts (parts : list claudePart) : list string :=
  flat_map (fun p => match p with
                     | TextPart text => if String.eqb text "" then [] else [text]
                     | ToolUse _ _ _ => []
                     end) parts.

(** The tool call of a [tool_use] part: the arguments are the input
    re-encoded, the keys sorted and the numbers as float64. *)
Definition partCalls {codec : JsonCodec} (parts : list claudePart)
  : list Poe.OpenAIToolCall.t :=
  flat_map (fun p => match p with
                     | TextPart _ => []
                     | ToolUse id name input =>
                         [ {| Poe.OpenAIToolCall.ID := id;
                              Poe.OpenAIToolCall.Type_ := "function";
                              Poe.OpenAIToolCall.Function :=
                                {| Poe.FunctionCall.Name := name;
                                   Poe.FunctionCall.Arguments :=
                                     match reencoded (JObj input) with
                                     | Some v =>
                                         match jsonPrint v with
                                         | Some b => b
                                         | None => ""
                                         end
                                     | None => ""
                                     end |} |} ]
                     end) parts.

Definition decodedPart (p : claudePart) : Poe.ClaudeContentPart.t :=
  match p with
  | TextPart text =>
      {| Poe.ClaudeContentPart.Type_ := "text"; Poe.ClaudeContentPart.Text := text;
         Poe.ClaudeContentPart.CacheControl := None; Poe.ClaudeContentPart.ID := "";
         Poe.ClaudeContentPart.Name := ""; Poe.ClaudeContentPart.Input := None |}
  | ToolUse id name input =>
      {| Poe.ClaudeContentPart.Type_ := "tool_use"; Poe.ClaudeContentPart.Text := "";
         Poe.ClaudeContentPart.CacheControl := None; Poe.ClaudeContentPart.ID := id;
         Poe.ClaudeContentPart.Name := name;
         Poe.ClaudeContentPart.Input := goMap input |}
  end.

Lemma goValue_JObj (members : list (string * value)) :
  goValue (JObj members) = option_map JObj (goMap members).
Proof. reflexivity. Qed.

Lemma inputFits_goMap (id name : string) (input : list (string * value)) :
  inputFits (ToolUse id name input)
  = match goMap input with Some _ => true | None => false end.
Proof.
  unfold inputFits. rewrite <- goValue_reencoded, goValue_JObj.
  now destruct (goMap input).
Qed.

Lemma decItems_parts (parts : list claudePart) :
  decItems (decStruct Poe.ClaudeContentPart.field) Poe.ClaudeContentPart.zero
           (map partValue parts)
  = if forallb inputFits parts then Some (map decodedPart parts) else None.
Proof.
  induction parts as [|p parts IH]; [reflexivity |].
  cbn [map decItems forallb]. rewrite IH. destruct p as [text|id name input].
  - cbn [inputFits andb]. now destruct (forallb inputFits parts).
  - rewrite inputFits_goMap. unfold goMap.
    change (decStruct Poe.ClaudeContentPart.field
              (partValue (ToolUse id name input)) Poe.ClaudeContentPart.zero)
      with (match
              option_map
                (fun x => {| Poe.ClaudeContentPart.Type_ := "tool_use";
                             Poe.ClaudeContentPart.Text := "";
                             Poe.ClaudeContentPart.CacheControl := None;
                             Poe.ClaudeContentPart.ID := id;
                             Poe.ClaudeContentPart.Name := name;
                             Poe.ClaudeContentPart.Input := x |})
                (option_map Some (storeMembers input []))
            with
            | Some s => Some s
            | None => None
            end).
    cbn [decodedPart]. unfold goMap.
    destruct (storeMembers input []) as [m|]; cbn [option_map andb]; [| reflexivity].
    now destruct (forallb inputFits parts).
Qed.

Lemma decItems_parts_maps (parts : list claudePart) :
  match decItems decMap None (map partValue parts) with
  | Some maps => existsb Poe.isToolResult maps = false
  | None => True
  end.
Proof.
  induction parts as [|p parts IH]; [reflexivity |].
  cbn [map decItems].
  destruct (decItems decMap None (map partValue parts)) as [maps|].
  - destruct p as [text|id name input].
    + cbn. exact IH.
    + change (decMap (partValue (ToolUse id name input)) None)
        with (option_map Some
                (match goValue (JObj input) with
                 | Some y =>
                     Some (mapStore (mapStore (mapStore [("type", JStr "tool_use")]
                                                 "id" (JStr id))
                                       "name" (JStr name)) "input" y)
                 | None => None
                 end)).
      destruct (goValue (JObj input)) as [y|]; cbn [option_map]; [| exact I].
      cbn [existsb]. rewrite IH, orb_false_r.
      unfold Poe.isToolResult, Poe.index.
      rewrite !mapIndex_mapStore. reflexivity.
  - now destruct (decMap (partValue p) None).
Qed.

Lemma parts_not_toolResults (msg : Poe.ClaudeMessage.t) (parts : list claudePart) :
  Poe.ClaudeMessage.Content msg = Some (JArr (map partValue parts)) ->
  toolResultParts msg = None.
Proof.
  intros Hc. unfold toolResultParts. rewrite Hc.
  destruct (String.eqb (Poe.ClaudeMessage.Role msg) "user"); [| reflexivity].
  cbn [decSlice]. pose proof (decItems_parts_maps parts) as H.
  destruct (decItems decMap None (map partValue parts)); [now rewrite H | reflexivity].
Qed.

Lemma Join_not_empty (t : string) (ts : list string) (sep : string) :
  t <> "" -> Join (t :: ts) sep <> "".
Proof.
  intros Ht. cbn [Join]. destruct ts as [|t2 ts]; [exact Ht |].
  destruct t as [|c t]; [congruence | discriminate].
Qed.

Lemma partTexts_not_empty (parts : list claudePart) :
  Forall (fun t => t <> "") (partTexts parts).
Proof.
  induction parts as [|p parts IH]; [constructor |].
  unfold partTexts. cbn [flat_map]. fold (partTexts parts).
  destruct p as [text|id name input]; [| exact IH].
  destruct (String.eqb_spec text "") as [_|Hne]; [exact IH |].
  now constructor.
Qed.

Lemma regularMessage_parts {codec : JsonCodec} (msg : Poe.ClaudeMessage.t)
    (parts : list claudePart) :
  Poe.ClaudeMessage.Content msg = Some (JArr (map partValue parts)) ->
  Poe.ClaudeMessage.ToolCalls msg = [] ->
  Poe.regularMessage msg
  = {| Poe.OpenAIMessage.Role := Poe.ClaudeMessage.Role msg;
       Poe.OpenAIMessage.Content :=
         if forallb inputFits parts && (0 <? List.length (partTexts parts))%nat
         then Some (JStr (Join (partTexts parts) LF)) else None;
       Poe.OpenAIMessage.ToolCalls :=
         if forallb inputFits parts then partCalls parts else [];
       Poe.OpenAIMessage.ToolCallID := Poe.ClaudeMessage.ToolCallID msg;
       Poe.OpenAIMessage.Name := Poe.ClaudeMessage.Name msg |}.
Proof.
  intros Hc Ht. unfold Poe.regularMessage. rewrite Hc, Ht.
  cbn [decString decSlice]. rewrite decItems_parts.
  destruct (forallb inputFits parts) eqn:Hfit; [| reflexivity].
  assert (E1 : flat_map
                 (fun part =>
                    if String.eqb (Poe.ClaudeContentPart.Type_ part) "text"
                       && negb (String.eqb (Poe.ClaudeContentPart.Text part) "")
                    then [Poe.ClaudeContentPart.Text part] else [])
                 (map decodedPart parts) = partTexts parts).
  { clear. induction parts as [|p parts IH]; [reflexivity |].
    cbn [map flat_map]. rewrite IH. unfold partTexts at 2. cbn [flat_map].
    fold (partTexts parts). destruct p as [text|id name input]; [| reflexivity].
    cbn. now destruct (String.eqb text ""). }
  assert (E2 : flat_map
                 (fun part =>
                    if String.eqb (Poe.ClaudeContentPart.Type_ part) "text"
                       && negb (String.eqb (Poe.ClaudeContentPart.Text part) "")
                    then []
                    else if String.eqb (Poe.ClaudeContentPart.Type_ part) "tool_use"
                         then [Poe.toolUseCall part] else [])
                 (map decodedPart parts) = partCalls parts).
  { clear -Hfit. induction parts as [|p parts IH]; [reflexivity |].
    cbn [forallb] in Hfit. apply andb_true_iff in Hfit. destruct Hfit as [Hp Hfit].
    cbn [map flat_map]. rewrite (IH Hfit). unfold partCalls at 2. cbn [flat_map].
    fold (partCalls parts). destruct p as [text|id name input].
    - cbn. now destruct (String.eqb text "").
    - cbn [decodedPart Poe.ClaudeContentPart.Type_ Poe.ClaudeContentPart.Text].
      change (String.eqb "tool_use" "text") with false.
      change (String.eqb "tool_use" "tool_use") with true. cbn [andb].
      unfold Poe.toolUseCall.
      cbn [Poe.ClaudeContentPart.Input Poe.ClaudeContentPart.ID
           Poe.ClaudeContentPart.Name].
      rewrite <- goValue_reencoded, goValue_JObj.
      rewrite inputFits_goMap in Hp.
      destruct (goMap input) as [m|]; [reflexivity | discriminate]. }
  rewrite E1, E2. reflexivity.
Qed.

(** X22. A message whose content is an array of text and tool_use parts,
    and that has no tool calls of its own, is translated to one message:
    its content is the texts that are not empty joined by newlines, and
    is absent when there is none; its tool calls are the tool_use parts
    in order, each with the type "function" and, for arguments, the input
    object re-encoded. A message with neither text nor tool use is
    dropped; and so is the whole message when the input of one of its
    tool_use parts has a number beyond float64. *)
Theorem claude_parts_translated {codec : JsonCodec} (msg : Poe.ClaudeMessage.t)
    (parts : list claudePart) :
  Poe.ClaudeMessage.Content msg = Some (JArr (map partValue parts)) ->
  Poe.ClaudeMessage.ToolCalls msg = [] ->
  Poe.convertMessage [] msg
  = if forallb inputFits parts then
      match partTexts parts, partCalls parts with
      | [], [] => []
      | texts, calls =>
          [ {| Poe.OpenAIMessage.Role := Poe.ClaudeMessage.Role msg;
               Poe.OpenAIMessage.Content :=
                 match texts with
                 | [] => None
                 | _ => Some (JStr (Join texts LF))
                 end;
               Poe.OpenAIMessage.ToolCalls := calls;
               Poe.OpenAIMessage.ToolCallID := Poe.ClaudeMessage.ToolCallID msg;
               Poe.OpenAIMessage.Name := Poe.ClaudeMessage.Name msg |} ]
      end
    else [].
Proof.
  intros Hc Ht. rewrite convertMessage_cases, (parts_not_toolResults msg parts Hc).
  rewrite (regularMessage_parts msg parts Hc Ht).
  pose proof (partTexts_not_empty parts) as Hne.
  unfold Poe.addMessage, Poe.hasContent, Poe.hasToolCalls.
  cbn [Poe.OpenAIMessage.Content Poe.OpenAIMessage.ToolCalls Poe.OpenAIMessage.Role].
  destruct (forallb inputFits parts); cbn [andb]; [| reflexivity].
  destruct (partTexts parts) as [|t ts].
  - cbn [List.length Nat.ltb Nat.leb orb negb andb].
    destruct (partCalls parts) as [|c cs]; [reflexivity |].
    cbn [List.length Nat.ltb Nat.leb orb negb andb].
    rewrite andb_true_r. now destruct (String.eqb (Poe.ClaudeMessage.Role msg) "assistant").
  - inversion Hne as [|? ? Hn _]; subst.
    pose proof (Join_not_empty t ts LF Hn) as Hj. apply String.eqb_neq in Hj.
    cbn [List.length Nat.ltb Nat.leb]. rewrite Hj.
    cbn [negb orb andb]. rewrite andb_false_r. reflexivity.
Qed.

Definition checkingMessage (n : string) : Poe.ClaudeMessage.t :=
  {| Poe.ClaudeMessage.Role := "assistant";
     Poe.ClaudeMessage.Content :=
       Some (JArr (map partValue
                     [TextPart "let me check"; TextPart "";
                      ToolUse "t1" "lookup" [("q", JStr "x"); ("n", JNum n)]]));
     Poe.ClaudeMessage.ToolCalls := []; Poe.ClaudeMessage.ToolCallID := "";
     Poe.ClaudeMessage.Name := "" |}.

Lemma claude_parts_translated_witness :
  Poe.convertMessage (codec := TextCodec.codec) [] (checkingMessage "1.0")
  = [ {| Poe.OpenAIMessage.Role := "assistant";
         Poe.OpenAIMessage.Content := Some (JStr "let me check");
         Poe.OpenAIMessage.ToolCalls :=
           [ {| Poe.OpenAIToolCall.ID := "t1";
                Poe.OpenAIToolCall.Type_ := "function";
                Poe.OpenAIToolCall.Function :=
                  {| Poe.FunctionCall.Name := "lookup";
                     Poe.FunctionCall.Arguments := dq "{'n':1,'q':'x'}" |} |} ];
         Poe.OpenAIMessage.ToolCallID := ""; Poe.OpenAIMessage.Name := "" |} ]
  /\ Poe.convertMessage (codec := TextCodec.codec) [] (checkingMessage "1e999") = [].
Proof.
  split.
  - rewrite (claude_parts_translated (codec := TextCodec.codec) (checkingMessage "1.0")
               [TextPart "let me check"; TextPart "";
                ToolUse "t1" "lookup" [("q", JStr "x"); ("n", JNum "1.0")]]
               eq_refl eq_refl).
    vm_compute. reflexivity.
  - rewrite (claude_parts_translated (codec := TextCodec.codec) (checkingMessage "1e999")
               [TextPart "let me check"; TextPart "";
                ToolUse "t1" "lookup" [("q", JStr "x"); ("n", JNum "1e999")]]
               eq_refl eq_refl).
    vm_compute. reflexivity.
Defined.

(** ** The head of a streamed reply and the model of a buffered one *)

Lemma ReadBytes_nonempty (r line rest : string) :
  Relay.ReadBytes r = (line, Some rest) -> line <> "".
Proof.
  destruct r as [|c r]; cbn [Relay.ReadBytes]; [discriminate |].
  destruct (Ascii.eqb c (byte 10)).
  - intros H. inversion H. discriminate.
  - destruct (Relay.ReadBytes r) as [l o]. intros H. inversion H. discriminate.
Qed.

Lemma append_not_empty (a b : string) : a <> "" -> a ++ b <> "".
Proof. destruct a; [congruence | discriminate]. Qed.

(** A turn on a line that is not empty either panics at once or writes
    something. *)
Lemma relayLine_writes {codec : JsonCodec} (m line : string) :
  line <> "" ->
  match Relay.relayLine m line newWriter with
  | Relay.Panic w1 => w1 = newWriter
  | Relay.Continue w1 => Out w1 <> ""
  | Relay.Break w1 => Out w1 <> ""
  end.
Proof.
  intros Hl. unfold Relay.relayLine.
  destruct (String.length (TrimSpace line) =? 0)%nat; [now rewrite Write_Out |].
  destruct (HasPrefix line "data: "); [| now rewrite Write_Out].
  destruct (String.eqb _ "[DONE]"); [rewrite Write_Out; discriminate |].
  destruct (Relay.unmarshalChunk _) as [[chunk|]|];
    [| reflexivity | now rewrite Write_Out].
  destruct (jsonPrint _); [| now rewrite Write_Out].
  rewrite !Write_Out. discriminate.
Qed.

(** The status after the relay on a writer without one: 200 once
    something was written. *)
Lemma relayLoop_Status_fresh {codec : JsonCodec} (m r : string) (w : ResponseWriter) :
  Status w = None ->
  Status (written (Relay.relayLoop m r w))
  = if String.eqb (relayed m r) "" then None else Some 200%Z.
Proof.
  intros Hs. unfold relayed.
  rewrite (relayLoop_unfold m r w), (relayLoop_unfold m r newWriter).
  destruct (Relay.ReadBytes r) as [line [rest|]] eqn:E; [| exact Hs].
  pose proof (relayLine_writes m line (ReadBytes_nonempty r line rest E)) as Hw.
  pose proof (relayLine_Out m line w) as Ho.
  assert (H200 : match Relay.relayLine m line w with
                 | Relay.Panic w1 => w1 = w
                 | Relay.Continue w1 => Status w1 = Some 200%Z
                 | Relay.Break w1 => Status w1 = Some 200%Z
                 end).
  { assert (HW : forall b, Status (Write b w) = Some 200%Z)
      by (intros b; rewrite Write_Status; unfold statusSent; now rewrite Hs).
    assert (HW2 : forall b x, Status x = Some 200%Z -> Status (Write b x) = Some 200%Z)
      by (intros b x Hx; now destruct (Write_rest b x _ Hx)).
    unfold Relay.relayLine.
    destruct (String.length (TrimSpace line) =? 0)%nat; [apply HW |].
    destruct (HasPrefix line "data: "); [| apply HW].
    destruct (String.eqb _ "[DONE]"); [apply HW |].
    destruct (Relay.unmarshalChunk _) as [[chunk|]|]; [| reflexivity | apply HW].
    destruct (jsonPrint _); [| apply HW].
    apply HW2, HW2, HW. }
  destruct (Relay.relayLine m line w) as [w1|w1|w1];
    destruct (Relay.relayLine m line newWriter) as [w2|w2|w2];
    try contradiction; cbn [written].
  - destruct (relayLoop_keeps m rest w1) as [_ [_ K]]. rewrite (K _ H200).
    rewrite (relayLoop_Out m rest w2).
    pose proof (append_not_empty (Out w2) (relayed m rest) Hw) as Hne.
    apply String.eqb_neq in Hne. now rewrite Hne.
  - rewrite H200. apply String.eqb_neq in Hw. now rewrite Hw.
  - subst. cbn [Out newWriter String.eqb]. exact Hs.
Qed.

(** X23. A streamed reply starts the same way in both proxies, whatever
    the events are and however the relay ends, a panic included: the
    headers say text/event-stream, no-cache and keep-alive, and the bytes
    written before are kept. When the status of the upstream response is
    a code of three digits, what the relay writes for the body follows,
    and the status is that of the upstream; for an informational code
    (100 to 199 except 101) an interim response is sent instead, and the
    status is 200 once a line was written. For any other code the
    handler panics before a status or a line is written. *)
Theorem stream_reply_head {codec : JsonCodec} (w : ResponseWriter) (resp : Response)
    (originalModel : string) :
  Status w = None ->
  let od := DeepSeek.handleStreamingResponse w resp originalModel in
  let code := StatusCode resp in
  od = Poe.handleStreamingResponse w resp originalModel
  /\ headerGet (Header (written od)) "Content-Type" = "text/event-stream"
  /\ headerGet (Header (written od)) "Cache-Control" = "no-cache"
  /\ headerGet (Header (written od)) "Connection" = "keep-alive"
  /\ (if negb (checkWriteHeaderCode code) then
        od = Panicked (written od)
        /\ Status (written od) = None
        /\ Interim (written od) = Interim w
        /\ Out (written od) = Out w
      else
        Out (written od) = Out w ++ relayed originalModel (Body resp)
        /\ if informational code then
             Interim (written od) = (Interim w ++ [code])%list
             /\ Status (written od)
                = (if String.eqb (relayed originalModel (Body resp)) "" then None
                   else Some 200%Z)
           else
             Interim (written od) = Interim w
             /\ Status (written od) = Some code).
Proof.
  intros Hw. cbv zeta. split; [reflexivity |].
  unfold DeepSeek.handleStreamingResponse, Relay.relay.
  set (x := SetHeader "Connection" "keep-alive"
              (SetHeader "Cache-Control" "no-cache"
                 (SetHeader "Content-Type" "text/event-stream" w))).
  assert (Hx : Status x = None) by exact Hw.
  assert (Hh : Header (written (andThen (WriteHeader (StatusCode resp) x)
                                  (Relay.relayLoop originalModel (Body resp))))
               = Header x).
  { rewrite andThen_Header by (intros; apply relayLoop_keeps).
    apply WriteHeader_Header. }
  rewrite Hh. unfold x at 1 2 3. unfold SetHeader at 1 2 3 4 5 6 7 8 9. cbn [Header].
  split; [now rewrite !headerGet_headerStore |].
  split; [now rewrite !headerGet_headerStore |].
  split; [now rewrite !headerGet_headerStore |].
  unfold WriteHeader. rewrite Hx.
  destruct (negb (checkWriteHeaderCode (StatusCode resp))); [now repeat split |].
  destruct (informational (StatusCode resp)); cbn [andThen].
  - rewrite relayLoop_Out. split; [reflexivity |].
    destruct (relayLoop_keeps originalModel (Body resp)
                {| Header := Header x; Status := None;
                   Interim := (Interim x ++ [StatusCode resp])%list; Out := Out x |})
      as [_ [K _]].
    split; [exact K |]. now apply relayLoop_Status_fresh.
  - rewrite relayLoop_Out. split; [reflexivity |].
    destruct (relayLoop_keeps originalModel (Body resp)
                {| Header := Header x; Status := Some (StatusCode resp);
                   Interim := Interim x; Out := Out x |})
      as [_ [K1 K2]].
    split; [exact K1 | now apply K2].
Qed.

Lemma stream_reply_head_witness :
  let od :=
    DeepSeek.handleStreamingResponse (codec := TextCodec.codec) newWriter
      (reply 200 (": hello" ++ LF ++ "data: null" ++ LF)) "m" in
  od = Poe.handleStreamingResponse (codec := TextCodec.codec) newWriter
         (reply 200 (": hello" ++ LF ++ "data: null" ++ LF)) "m"
  /\ headerGet (Header (written od)) "Content-Type" = "text/event-stream"
  /\ headerGet (Header (written od)) "Cache-Control" = "no-cache"
  /\ headerGet (Header (written od)) "Connection" = "keep-alive"
  /\ Out (written od) = ": hello" ++ LF
  /\ Interim (written od) = []
  /\ Status (written od) = Some 200%Z.
Proof.
  destruct (stream_reply_head (codec := TextCodec.codec) newWriter
              (reply 200 (": hello" ++ LF ++ "data: null" ++ LF)) "m" eq_refl)
    as [H1 [H2 [H3 [H4 H5]]]].
  cbv zeta. split; [exact H1 |]. split; [exact H2 |]. split; [exact H3 |].
  split; [exact H4 |]. vm_compute. now repeat split.
Defined.

(** A status of four digits and an informational one. *)
Example stream_reply_odd_status :
  DeepSeek.handleStreamingResponse (codec := TextCodec.codec) newWriter
    (reply 1000 (": hello" ++ LF)) "m"
  = Panicked {| Header := [("Content-Type", ["text/event-stream"]);
                           ("Cache-Control", ["no-cache"]);
                           ("Connection", ["keep-alive"])];
                Status := None; Interim := []; Out := "" |}
  /\ DeepSeek.handleStreamingResponse (codec := TextCodec.codec) newWriter
       (reply 103 (": hello" ++ LF)) "m"
     = Returned {| Header := [("Content-Type", ["text/event-stream"]);
                              ("Cache-Control", ["no-cache"]);
                              ("Connection", ["keep-alive"])];
                   Status := Some 200%Z; Interim := [103%Z];
                   Out := ": hello" ++ LF |}.
Proof. split; vm_compute; reflexivity. Qed.

(** The model the dispatcher returns is the model of the last request it
    sent. *)
Lemma dispatcher_used_model {platform : Platform} (cfg : DeepSeek.Config.t) {R : Type}
    (origReq : Request R) (dsReq : DeepSeek.DeepSeekRequest.t) (stream : bool)
    (apiKey : string) (s : World DeepSeek.DeepSeekRequest.t) :
  let out := DeepSeek.doDeepSeekRequestWithFallback cfg origReq dsReq dsReq stream apiKey s in
  forall resp m, fst out = Some (resp, m) -> last (sentModels (snd out)) "" = m.
Proof.
  cbv zeta.
  unfold DeepSeek.doDeepSeekRequestWithFallback, DeepSeek.fallbackAttempt,
    DeepSeek.buildDeepSeekHTTPRequest.
  cbv zeta.
  destruct (newRequestOK _ _); [| discriminate].
  unfold bind, clientDo, ret, sentModels.
  assert (L1 : forall (l : list (ProxyRequest DeepSeek.DeepSeekRequest.t)) q,
            last (map (fun q => DeepSeek.DeepSeekRequest.Model (PBody q)) (l ++ [q])) ""
            = DeepSeek.DeepSeekRequest.Model (PBody q)).
  { intros l q. rewrite map_app. cbn [map]. apply last_last. }
  destruct (Script s) as [|first later] eqn:Es.
  - cbn. discriminate.
  - destruct first as [|resp].
    + destruct later as [|[|resp2] later']; cbn; try discriminate.
      intros resp0 m H. inversion H; subst. rewrite L1. reflexivity.
    + destruct (StatusCode resp <? 400)%Z.
      { cbn. intros resp0 m H. inversion H; subst. rewrite L1. reflexivity. }
      unfold ReadAll. destruct (BodyBreaks resp); [cbn; discriminate |].
      destruct (DeepSeek.isModelNotFoundError (StatusCode resp) (Body resp)).
      * destruct later as [|[|resp2] later']; cbn; try discriminate.
        intros resp0 m H. inversion H; subst. rewrite L1. reflexivity.
      * cbn. intros resp0 m H. inversion H; subst. rewrite L1. reflexivity.
Qed.

(** X24. Whenever the DeepSeek proxy answers a buffered chat request with
    a status below 400, the body is the encoding of a completion whose
    model is the model of the last request sent upstream: the requested
    model, or deepseek-reasoner after a fallback, and never the model
    the upstream names in its own reply. *)
Theorem deepseek_reply_names_used_model {codec : JsonCodec} {platform : Platform}
    (key : string) (cfg : DeepSeek.Config.t) (w : ResponseWriter)
    (r : Request DeepSeek.ChatRequest.t) (chatReq : DeepSeek.ChatRequest.t)
    (s : World DeepSeek.DeepSeekRequest.t) (code : Z) :
  chatCall key r chatReq ->
  DeepSeek.ChatRequest.Stream chatReq = false ->
  Status w = None ->
  let out := DeepSeek.proxyHandler key cfg w r s in
  Status (written (fst out)) = Some code ->
  (code < 400)%Z ->
  exists completion body,
    jsonPrint (DeepSeek.Completion.encode completion) = Some body
    /\ Out (written (fst out)) = Out w ++ body
    /\ DeepSeek.Completion.Model completion = last (sentModels (snd out)) ""
    /\ DeepSeek.Completion.Object completion = "chat.completion".
Proof.
  intros Hc Hst Hw. cbv zeta.
  rewrite (deepseek_chat_cases key cfg w r chatReq s Hc). cbv zeta. cbn [fst snd].
  match goal with |- context [DeepSeek.doDeepSeekRequestWithFallback ?c ?o ?b ?d ?st ?a s] =>
    pose proof (dispatcher_used_model c o d st a s) as Hu;
    destruct (DeepSeek.doDeepSeekRequestWithFallback c o b d st a s) as [res s'] end.
  cbv zeta in Hu. cbn [fst snd] in Hu. cbn [fst snd].
  assert (Hcors : Status (enableCors w) = None) by exact Hw.
  assert (Herr : forall msg c0, finalCode c0 = true ->
                   Status (written (Error msg c0 (enableCors w))) = Some c0).
  { intros msg c0 Hf.
    destruct (Error_fresh msg c0 (enableCors w) Hcors Hf) as [w' [E [A _]]].
    now rewrite E. }
  assert (H500 : forall x, Status x = None ->
                   Status (written (WriteHeader StatusInternalServerError x))
                   = Some 500%Z).
  { intros x Hx.
    now rewrite (WriteHeader_fresh StatusInternalServerError x Hx eq_refl). }
  destruct res as [[resp usedModel]|].
  2:{ rewrite Herr by reflexivity. intros H Hlt. inversion H; subst. discriminate Hlt. }
  specialize (Hu resp usedModel eq_refl).
  destruct (400 <=? StatusCode resp)%Z eqn:Hge.
  { destruct (ReadAll resp).
    - intros H Hlt. exfalso. apply Z.leb_le in Hge.
      destruct (storeHeaders_rest (RespHeader resp) (enableCors w)) as [A _].
      match type of H with context [WriteHeader (StatusCode resp) ?x] =>
        assert (Hx : Status x = None) by (cbn [SetHeader Status]; now rewrite A);
        destruct (forward_error (StatusCode resp) s0 x Hx Hge) as [w' [E1 [E2 _]]]
      end.
      rewrite E1 in H.
      destruct (StatusCode resp <=? 999)%Z; cbn [written] in H; rewrite E2 in H;
        [inversion H; subst; lia | discriminate H].
    - rewrite Herr by reflexivity. intros H Hlt. inversion H; subst. discriminate Hlt. }
  rewrite Hst. unfold DeepSeek.handleRegularResponse.
  destruct (readResponse resp) as [body|].
  2:{ rewrite Herr by reflexivity. intros H Hlt. inversion H; subst. discriminate Hlt. }
  destruct (match jsonParse body with
            | Some tree => _
            | None => None
            end) as [deepseekResp|].
  2:{ rewrite (H500 _ Hcors). intros H Hlt. inversion H; subst. discriminate Hlt. }
  cbv zeta. destruct (jsonPrint _) as [modifiedBody|] eqn:Ep.
  2:{ rewrite (H500 _ Hcors). intros H Hlt. inversion H; subst. discriminate Hlt. }
  intros H _. exists (DeepSeek.convertCompletion deepseekResp usedModel), modifiedBody.
  split; [exact Ep |]. split.
  - revert H. unfold WriteHeader. cbn [SetHeader Status]. rewrite Hcors.
    destruct (negb (checkWriteHeaderCode (StatusCode resp)));
      [cbn [andThen written]; cbn [SetHeader Status]; rewrite Hcors; discriminate |].
    destruct (informational (StatusCode resp)); cbn [andThen written]; intros _;
      now rewrite Write_Out.
  - split; [| reflexivity]. cbn [DeepSeek.convertCompletion DeepSeek.Completion.Model].
    now rewrite Hu.
Qed.

Lemma deepseek_reply_names_used_model_witness :
  let out :=
    DeepSeek.proxyHandler (codec := TextCodec.codec) (platform := TextCodec.platform)
      "" chatConfig newWriter (samplePost "Bearer k" (sampleChatRequest "gpt-4" false))
      (worldOf [DoResponse (reply 404 "unknown");
                DoResponse (reply 200 (upstreamReply "deepseek-v3"))]) in
  exists completion body,
    jsonPrint (JsonCodec := TextCodec.codec) (DeepSeek.Completion.encode completion)
    = Some body
    /\ Out (written (fst out)) = "" ++ body
    /\ DeepSeek.Completion.Model completion = last (sentModels (snd out)) ""
    /\ DeepSeek.Completion.Object completion = "chat.completion".
Proof.
  apply (deepseek_reply_names_used_model (codec := TextCodec.codec)
           (platform := TextCodec.platform) "" chatConfig newWriter
           (samplePost "Bearer k" (sampleChatRequest "gpt-4" false))
           (sampleChatRequest "gpt-4" false)
           (worldOf [DoResponse (reply 404 "unknown");
                     DoResponse (reply 200 (upstreamReply "deepseek-v3"))]) 200%Z).
  - apply sample_chatCall.
  - reflexivity.
  - reflexivity.
  - vm_compute. reflexivity.
  - reflexivity.
Defined.

(** ** The model lists *)

(** The list the DeepSeek proxy serves, the entries with the times [t1],
    [t2] and [t3]. *)
Definition deepseekModelList (t1 t2 t3 : Z) : value :=
  JObj [("object", JStr "list");
        ("data", JArr [DeepSeek.modelEntry DeepSeek.deepseekChatModel t1;
                       DeepSeek.modelEntry DeepSeek.deepseekReasonerModel t2;
                       DeepSeek.modelEntry DeepSeek.deepseekCoderModel t3])].

(** The list the Claude proxy serves, written as a map. *)
Definition poeModelList (t : Z) : value :=
  JObj [("data", JArr [JObj [("created", encInt t);
                             ("id", JStr Poe.claudeSonnetModel);
                             ("object", JStr "model");
                             ("owned_by", JStr "anthropic")]]);
        ("object", JStr "list")].

(** A reply with a JSON body followed by a newline, as [Encode] writes
    it. *)
Definition jsonReply (before body : string) (o : outcome) : Prop :=
  exists w',
    o = Returned w'
    /\ Status w' = Some 200%Z
    /\ Out w' = before ++ body ++ LF
    /\ headerGet (Header w') "Content-Type" = "application/json".

Lemma jsonReply_write (w : ResponseWriter) (b : string) :
  Status w = None ->
  jsonReply (Out w) b
    (Returned (Write (b ++ LF) (SetHeader "Content-Type" "application/json" (enableCors w)))).
Proof.
  intros Hw. eexists. split; [reflexivity |].
  rewrite Write_Status, Write_Out, Write_Header.
  unfold statusSent, enableCors, SetHeader. cbn [Status Out Header].
  rewrite Hw. split; [reflexivity |]. split; [reflexivity |].
  now rewrite headerGet_headerStore.
Qed.

(** The world after [n] readings of the clock. *)
Definition later {B : Type} (n : nat) (s : World B) : World B :=
  {| Clock := fun i => Clock s (n + i)%nat; Script := Script s; Sent := Sent s |}.

Lemma deepseek_models_run {codec : JsonCodec} (w : ResponseWriter)
    (s : World DeepSeek.DeepSeekRequest.t) :
  DeepSeek.handleModelsRequest w s
  = (match jsonPrint (deepseekModelList (Clock s 0%nat) (Clock s 1%nat) (Clock s 2%nat)) with
     | Some b => Write (b ++ LF) (SetHeader "Content-Type" "application/json" w)
     | None => SetHeader "Content-Type" "application/json" w
     end, later 3 s).
Proof. reflexivity. Qed.

Lemma poe_models_run {codec : JsonCodec} (w : ResponseWriter)
    (s : World Poe.OpenAIRequest.t) :
  Poe.handleModelsRequest w s
  = (match jsonPrint (poeModelList (Clock s 0%nat)) with
     | Some b => Write (b ++ LF) (SetHeader "Content-Type" "application/json" w)
     | None => SetHeader "Content-Type" "application/json" w
     end, later 1 s).
Proof. reflexivity. Qed.

(** X25. The model lists are served by the proxies themselves: nothing is
    sent upstream, and the list does not depend on the configuration or
    on the body. The DeepSeek proxy serves its three models for GET
    /v1/models without looking at the body, and for every other method
    on /v1/models or /models once the body has decoded; the Claude proxy
    serves its one model for GET /v1/models only. Each entry carries a
    reading of the clock of its own, taken in the order of the entries:
    three readings in the DeepSeek proxy, one in the Claude proxy. *)
Theorem models_served_locally {codec : JsonCodec} {platform : Platform}
    (key : string) (cfg : DeepSeek.Config.t) (w : ResponseWriter)
    (rd : Request DeepSeek.ChatRequest.t) (sd : World DeepSeek.DeepSeekRequest.t)
    (rp : Request Poe.ClaudeRequest.t) (sp : World Poe.OpenAIRequest.t)
    (apiKey bodyd bodyp : string) :
  Status w = None ->
  (Method rd <> "OPTIONS" ->
   deepseekKeyUsed key (headerGet (ReqHeader rd) "Authorization") <> "" ->
   (URLPath rd = "/v1/models" /\ Method rd = "GET")
   \/ ((URLPath rd = "/v1/models" \/ URLPath rd = "/models")
       /\ exists chatReq, ReqBody rd = Decoded chatReq) ->
   jsonPrint (deepseekModelList (Clock sd 0%nat) (Clock sd 1%nat) (Clock sd 2%nat))
   = Some bodyd ->
   snd (DeepSeek.proxyHandler key cfg w rd sd) = later 3 sd
   /\ jsonReply (Out w) bodyd (fst (DeepSeek.proxyHandler key cfg w rd sd)))
  /\ (URLPath rp = "/v1/models" -> Method rp = "GET" ->
      poeKeyUsed key (headerGet (ReqHeader rp) "Authorization") = Some apiKey ->
      apiKey <> "" ->
      jsonPrint (poeModelList (Clock sp 0%nat)) = Some bodyp ->
      snd (Poe.proxyHandler key w rp sp) = later 1 sp
      /\ jsonReply (Out w) bodyp (fst (Poe.proxyHandler key w rp sp))).
Proof.
  intros Hw. split.
  - intros Hm Hk Hp Hb.
    assert (Hrun : forall k : ResponseWriter -> M DeepSeek.DeepSeekRequest.t outcome,
              bind (DeepSeek.handleModelsRequest (enableCors w)) k sd
              = k (Write (bodyd ++ LF)
                     (SetHeader "Content-Type" "application/json" (enableCors w)))
                  (later 3 sd)).
    { intros k. unfold bind. now rewrite deepseek_models_run, Hb. }
    unfold DeepSeek.proxyHandler.
    apply String.eqb_neq in Hm. rewrite Hm. cbv zeta.
    rewrite deepseek_key_missing. apply String.eqb_neq in Hk. rewrite Hk.
    destruct Hp as [[Hp Hg] | [Hp [chatReq Hc]]].
    + rewrite Hp, Hg. change (String.eqb "/v1/models" "/v1/models") with true.
      change (String.eqb "GET" "GET") with true. cbn [andb].
      rewrite Hrun. split; [reflexivity |]. now apply jsonReply_write.
    + destruct (String.eqb (URLPath rd) "/v1/models" && String.eqb (Method rd) "GET").
      * rewrite Hrun. split; [reflexivity |]. now apply jsonReply_write.
      * rewrite Hc.
        assert (E : String.eqb (URLPath rd) "/v1/models"
                    || String.eqb (URLPath rd) "/models" = true)
          by (destruct Hp as [-> | ->]; reflexivity).
        rewrite E, Hrun. split; [reflexivity |]. now apply jsonReply_write.
  - intros Hp Hg Hk Ha Hb.
    unfold Poe.proxyHandler.
    rewrite Hg, Hp. change (String.eqb "GET" "OPTIONS") with false. cbv iota zeta.
    apply poeKeyUsed_code in Hk. destruct Hk as [Hpre Hk]. rewrite Hpre. cbn [negb].
    rewrite Hk. apply String.eqb_neq in Ha. rewrite Ha.
    change (String.eqb "/v1/models" "/v1/models") with true.
    change (String.eqb "GET" "GET") with true. cbn [andb].
    unfold bind. rewrite poe_models_run, Hb.
    split; [reflexivity |]. now apply jsonReply_write.
Qed.

Definition deepseekModelsBody : string :=
  dq ("{'object':'list','data':["
      ++ "{'id':'deepseek-chat','object':'model','created':1700000000,"
      ++ "'owned_by':'deepseek'},"
      ++ "{'id':'deepseek-reasoner','object':'model','created':1700000001,"
      ++ "'owned_by':'deepseek'},"
      ++ "{'id':'deepseek-coder','object':'model','created':1700000002,"
      ++ "'owned_by':'deepseek'}]}").

Definition poeModelsBody : string :=
  dq ("{'data':[{'created':1700000000,'id':'claude-sonnet-4.5','object':'model',"
      ++ "'owned_by':'anthropic'}],'object':'list'}").

Lemma models_served_locally_witness :
  (snd (DeepSeek.proxyHandler (codec := TextCodec.codec) (platform := TextCodec.platform)
          "" coderConfig newWriter
          (postTo "/models" (Decoded (sampleChatRequest "gpt-4" false)))
          (worldOf [])) = later 3 (worldOf [])
   /\ jsonReply "" deepseekModelsBody
        (fst (DeepSeek.proxyHandler (codec := TextCodec.codec)
                (platform := TextCodec.platform) "" coderConfig newWriter
                (postTo "/models" (Decoded (sampleChatRequest "gpt-4" false)))
                (worldOf []))))
  /\ (snd (Poe.proxyHandler (codec := TextCodec.codec) (platform := TextCodec.platform)
             "" newWriter (getModels [("Authorization", ["Bearer k"])]) (worldOf []))
      = later 1 (worldOf [])
      /\ jsonReply "" poeModelsBody
           (fst (Poe.proxyHandler (codec := TextCodec.codec)
                   (platform := TextCodec.platform) "" newWriter
                   (getModels [("Authorization", ["Bearer k"])]) (worldOf [])))).
Proof.
  destruct (models_served_locally (codec := TextCodec.codec)
              (platform := TextCodec.platform) "" coderConfig newWriter
              (postTo "/models" (Decoded (sampleChatRequest "gpt-4" false))) (worldOf [])
              (getModels [("Authorization", ["Bearer k"])]) (worldOf [])
              "k" deepseekModelsBody poeModelsBody eq_refl) as [Hd Hp].
  split.
  - apply Hd.
    + discriminate.
    + discriminate.
    + right. split; [now right |]. eexists. reflexivity.
    + vm_compute. reflexivity.
  - apply Hp.
    + reflexivity.
    + reflexivity.
    + reflexivity.
    + discriminate.
    + vm_compute. reflexivity.
Defined.
